(** * Game of Life: a shallow embedding of [src/GameOfLife.js]

    The engine of the React component [GameOfLife] is embedded as pure
    functions over an explicit component state: each handler takes the
    state of the render it was created in and returns the state after its
    [set...] calls, or the exception that escaped it.  A tick hands React
    an updater: the state after the tick is the state with the updaters
    applied, and an updater that raises breaks the page ([Broken]).  An
    action of the page is its handler followed by the effect of lines 90-94
    ([perform]).  The values the engine computes with are integers,
    [undefined] and [NaN]; arrays are lists, and reads and writes outside an
    array behave as in JavaScript (a read gives [undefined], a write extends
    the array, [undefined[k]] raises).

    Outside the embedding: the markup, the delay of the timer that re-arms
    [runSimulation] (a run of ticks is [ticks]), the numbers [Math.random]
    returns (of each call [handleRandomize] sees whether it exceeded 0.7),
    the download of [handleSave], floating point (numbers are exact
    integers, which is what the code computes as long as they stay within
    2^53 in magnitude: where a theorem adds to a generation counter that a
    file may have set, it assumes so, see [exact_counter]), array lengths of
    2^32 and more, and non-index properties of arrays (a write at a negative
    or [NaN] index creates such a property and changes no element). *)

From stdpp Require Import prelude.

Local Open Scope Z_scope.

(** ** Values and exceptions *)

Inductive value : Type :=
  | Undefined
  | NaN
  | Num (z : Z).

Inductive exn : Type :=
  | TypeError
  | RangeError
  | SyntaxError.

Inductive result (A : Type) : Type :=
  | Ok (a : A)
  | Throw (e : exn).

Arguments Ok {A} a.
Arguments Throw {A} e.

Definition bind {A B : Type} (r : result A) (k : A -> result B) : result B :=
  match r with
  | Ok a => k a
  | Throw e => Throw e
  end.

Notation "'let*' x ':=' r 'in' k" := (bind r (fun x => k))
  (at level 10, x pattern, r at level 100, k at level 200).

#[global] Instance value_eq_dec : EqDecision value.
Proof. solve_decision. Defined.

#[global] Instance exn_eq_dec : EqDecision exn.
Proof. solve_decision. Defined.

(** [v === k] for an integer literal [k]. *)
Definition strict_eq (v : value) (k : Z) : bool :=
  match v with
  | Num z => z =? k
  | _ => false
  end.

(** [[k1, ..., kn].includes(v)] for integer literals. *)
Definition includes (ks : list Z) (v : value) : bool :=
  existsb (strict_eq v) ks.

(** [a + b] on numbers: anything that is not a number makes the sum [NaN]. *)
Definition js_add (a b : value) : value :=
  match a, b with
  | Num x, Num y => Num (x + y)
  | _, _ => NaN
  end.

(** [a % b] on integers: the remainder has the sign of [a]; [a % 0] is [NaN]. *)
Definition js_rem (a b : Z) : value :=
  if b =? 0 then NaN else Num (Z.rem a b).

(** ** Arrays *)

(** The element position an index value denotes, if any. *)
Definition index_of (k : value) : option nat :=
  match k with
  | Num z => if 0 <=? z then Some (Z.to_nat z) else None
  | _ => None
  end.

(** [a[k]]; [None] stands for [undefined]. *)
Definition js_get {A : Type} (a : list A) (k : value) : option A :=
  match index_of k with
  | Some n => a !! n
  | None => None
  end.

(** [row[k]] on an array of cells. *)
Definition cell_of (row : list value) (k : value) : value :=
  default Undefined (js_get row k).

(** [row[k] = v]: replaces an element, or extends the array (the skipped
    positions read as [undefined]); a write at no element position leaves
    the elements alone. *)
Definition js_set (row : list value) (k : value) (v : value) : list value :=
  match index_of k with
  | Some n =>
      if (n <? length row)%nat then <[n := v]> row
      else row ++ replicate (n - length row) Undefined ++ [v]
  | None => row
  end.

Abbreviation Grid := (list (list value)).

(** [g[k]] used as an array: [undefined[...]] raises a [TypeError]. *)
Definition row_of (g : Grid) (k : value) : result (list value) :=
  match js_get g k with
  | Some row => Ok row
  | None => Throw TypeError
  end.

(** [g[ki][kj] = v]. *)
Definition grid_set (g : Grid) (ki kj : value) (v : value) : result Grid :=
  match index_of ki with
  | Some n =>
      match g !! n with
      | Some row => Ok (<[n := js_set row kj v]> g)
      | None => Throw TypeError
      end
  | None => Throw TypeError
  end.

(** [Array(n)] for an integer [n]: the length, or a [RangeError]. *)
Definition js_Array (n : Z) : result nat :=
  if (n <? 0) || (2 ^ 32 <=? n) then Throw RangeError else Ok (Z.to_nat n).

(** Loops.  [for_each] is a loop whose body may raise; [for_loop] is a loop
    over state that outlives an exception (arrays written in place). *)
Fixpoint for_each {A B : Type} (f : A -> B -> result A) (l : list B) (a : A)
  : result A :=
  match l with
  | [] => Ok a
  | x :: l' => let* a' := f a x in for_each f l' a'
  end.

Fixpoint for_loop {A B : Type} (f : A -> B -> A * option exn) (l : list B) (a : A)
  : A * option exn :=
  match l with
  | [] => (a, None)
  | x :: l' =>
      match f a x with
      | (a', None) => for_loop f l' a'
      | stop => stop
      end
  end.

(** ** The engine *)

(** Line 5. *)
Definition generateEmptyGrid (rows cols : Z) : result Grid :=
  let* r := js_Array rows in
  match r with
  | O => Ok []
  | S _ => let* c := js_Array cols in Ok (replicate r (replicate c (Num 0)))
  end.

(** Lines 7-11; a key that [patterns] does not have reads as [undefined]. *)
Inductive PatternName : Type :=
  | glider
  | blinker
  | toad
  | no_pattern.

Definition patterns (name : PatternName) : option (list (Z * Z)) :=
  match name with
  | glider => Some [(0, 1); (1, 2); (2, 0); (2, 1); (2, 2)]
  | blinker => Some [(0, 1); (1, 1); (2, 1)]
  | toad => Some [(1, 1); (1, 2); (1, 3); (2, 0); (2, 1); (2, 2)]
  | no_pattern => None
  end.

(** Lines 13-17. *)
Definition conway (neighbors cell : value) : bool :=
  strict_eq neighbors 3 || (strict_eq cell 1 && strict_eq neighbors 2).

Definition highlife (neighbors cell : value) : bool :=
  strict_eq neighbors 3 || (strict_eq cell 1 && strict_eq neighbors 2)
  || (strict_eq cell 0 && strict_eq neighbors 6).

Definition dayAndNight (neighbors cell : value) : bool :=
  includes [3; 6; 7; 8] neighbors
  || (strict_eq cell 1 && includes [3; 4; 6; 7; 8] neighbors).

Inductive Mode : Type :=
  | Conway
  | HighLife
  | DayAndNight.

Definition simulationModes (m : Mode) : value -> value -> bool :=
  match m with
  | Conway => conway
  | HighLife => highlife
  | DayAndNight => dayAndNight
  end.

(** Line 76: [simulationModes[simulationMode](neighbors, cell) ? 1 : 0]. *)
Definition nextState (m : Mode) (neighbors cell : value) : value :=
  if simulationModes m neighbors cell then Num 1 else Num 0.

(** Lines 55-58. *)
Definition operations : list (Z * Z) :=
  [(0, 1); (0, -1); (1, -1); (-1, 1); (1, 1); (-1, -1); (1, 0); (-1, 0)].

(** Lines 69-74: the neighbour count of cell [(i, j)], read from [g]. *)
Definition countNeighbors (numRows numCols : Z) (g : Grid) (i j : Z)
  : result value :=
  for_each
    (fun neighbors '(x, y) =>
       let newI := js_rem (i + x + numRows) numRows in
       let newJ := js_rem (j + y + numCols) numCols in
       let* row := row_of g newI in
       Ok (js_add neighbors (cell_of row newJ)))
    operations (Num 0).

(** Lines 69-77: the body of the inner loop, on [(newGrid, newPopulation)]. *)
Definition updateCell (numRows numCols : Z) (m : Mode) (g : Grid) (i j : Z)
    (acc : Grid * value) : result (Grid * value) :=
  let '(newGrid, newPopulation) := acc in
  let* neighbors := countNeighbors numRows numCols g i j in
  let* old_row := row_of g (Num i) in
  let* newGrid' :=
    grid_set newGrid (Num i) (Num j)
      (nextState m neighbors (cell_of old_row (Num j))) in
  let* new_row := row_of newGrid' (Num i) in
  Ok (newGrid', js_add newPopulation (cell_of new_row (Num j))).

(** Lines 64-79: the updater passed to [setGrid]; [newGrid] starts as a copy
    of [g], row by row, and [g] itself is only read. *)
Definition step (numRows numCols : Z) (m : Mode) (g : Grid)
  : result (Grid * value) :=
  for_each
    (fun acc i =>
       for_each (fun acc j => updateCell numRows numCols m g i j acc)
         (seqZ 0 numCols) acc)
    (seqZ 0 numRows) (g, Num 0).

(** [a.slice(start)]. *)
Definition js_slice {A : Type} (start : Z) (a : list A) : list A :=
  let len := Z.of_nat (length a) in
  let k := if start <? 0 then Z.max (len + start) 0 else Z.min start len in
  drop (Z.to_nat k) a.

(** Line 81: [[...pop.slice(-99), newPopulation]]. *)
Definition record (pop : list value) (newPopulation : value) : list value :=
  js_slice (-99) pop ++ [newPopulation].

(** ** The component state (lines 33-45), without the display settings *)

Record State : Type := mkState {
  numRows : Z;
  numCols : Z;
  grid : option Grid;          (* [None]: [undefined] *)
  running : bool;
  generations : Z;
  brushSize : Z;
  isEraser : bool;
  simulationMode : Mode;
  population : list value
}.

(** How an update of the page ends.  [Done s]: React renders [s].
    [Raised e s]: the handler raised [e] itself, and left [s] behind.
    [Broken e s]: an updater handed to React raised [e] when it was applied
    to [s]; the function that queued it has returned by then, the exception
    comes out of React's render, and the component is taken off the page. *)
Inductive outcome : Type :=
  | Done (s : State)
  | Raised (e : exn) (s : State)
  | Broken (e : exn) (s : State).

Definition with_grid (s : State) (g : option Grid) : State :=
  mkState (numRows s) (numCols s) g (running s) (generations s)
    (brushSize s) (isEraser s) (simulationMode s) (population s).

(** Lines 60-88, one tick: the state once React has applied the updaters
    of lines 63 and 85.  The loops run inside the updater of [setGrid]
    ([g.map] of line 64 is its first step), so what they raise breaks the
    page.  [gen + 1] of line 85 is written as the exact sum, which it is
    for the counters of [exact_counter]. *)
Definition runSimulation (s : State) : outcome :=
  if negb (running s) then Done s
  else
    match grid s with
    | None => Broken TypeError s
    | Some g =>
        match step (numRows s) (numCols s) (simulationMode s) g with
        | Ok (newGrid, newPopulation) =>
            Done (mkState (numRows s) (numCols s) (Some newGrid) (running s)
                    (generations s + 1) (brushSize s) (isEraser s)
                    (simulationMode s) (record (population s) newPopulation))
        | Throw e => Broken e s
        end
    end.

(** Lines 98-104: the two brush loops.  The rows of [newGrid] are the rows
    of the current grid (line 97 copies the outer array only), so what was
    written before an exception stays written. *)
Definition paint (numRows numCols : Z) (half : Z) (v : value) (i j : Z)
    (newGrid : Grid) : Grid * option exn :=
  for_loop
    (fun g x =>
       for_loop
         (fun g y =>
            let newI := js_rem (i + x + numRows) numRows in
            let newJ := js_rem (j + y + numCols) numCols in
            match grid_set g newI newJ v with
            | Ok g' => (g', None)
            | Throw e => (g, Some e)
            end)
         (seqZ (- half) (2 * half + 1)) g)
    (seqZ (- half) (2 * half + 1)) newGrid.

(** Lines 96-106. *)
Definition handleCellClick (i j : Z) (s : State) : outcome :=
  match grid s with
  | None => Raised TypeError s
  | Some g =>
      match paint (numRows s) (numCols s) (brushSize s / 2)
              (if isEraser s then Num 0 else Num 1) i j g with
      | (newGrid, None) => Done (with_grid s (Some newGrid))
      | (newGrid, Some e) => Raised e (with_grid s (Some newGrid))
      end
  end.

(** Lines 110-114: the cells of a pattern written around the centre. *)
Definition stamp (numRows numCols : Z) (cells : list (Z * Z)) (newGrid : Grid)
  : result Grid :=
  for_each
    (fun g '(x, y) =>
       let centerX := numRows / 2 in
       let centerY := numCols / 2 in
       grid_set g (Num (centerX + x)) (Num (centerY + y)) (Num 1))
    cells newGrid.

(** Lines 108-118. *)
Definition handlePatternSelect (pattern : PatternName) (s : State) : outcome :=
  match generateEmptyGrid (numRows s) (numCols s) with
  | Throw e => Raised e s
  | Ok empty =>
      match patterns pattern with
      | None => Raised TypeError s
      | Some cells =>
          match stamp (numRows s) (numCols s) cells empty with
          | Throw e => Raised e s
          | Ok newGrid =>
              Done (mkState (numRows s) (numCols s) (Some newGrid) (running s)
                      0 (brushSize s) (isEraser s) (simulationMode s) [])
          end
      end
  end.

(** Lines 120-125. *)
Definition handleReset (s : State) : outcome :=
  match generateEmptyGrid (numRows s) (numCols s) with
  | Throw e => Raised e s
  | Ok empty =>
      Done (mkState (numRows s) (numCols s) (Some empty) false
              0 (brushSize s) (isEraser s) (simulationMode s) [])
  end.

(** Lines 127-135. *)
Definition handleSizeChange (rowChange colChange : Z) (s : State) : outcome :=
  let newRows := Z.max 10 (Z.min 100 (numRows s + rowChange)) in
  let newCols := Z.max 10 (Z.min 100 (numCols s + colChange)) in
  match generateEmptyGrid newRows newCols with
  | Throw e =>
      Raised e (mkState newRows newCols (grid s) (running s) (generations s)
                  (brushSize s) (isEraser s) (simulationMode s) (population s))
  | Ok empty =>
      Done (mkState newRows newCols (Some empty) (running s)
              0 (brushSize s) (isEraser s) (simulationMode s) [])
  end.

(** The saved record.  Its numbers are integers here; of [grid] the
    embedding keeps "absent" and "an array of arrays of integers". *)
Record Payload : Type := mkPayload {
  p_grid : option Grid;
  p_generations : Z;
  p_numRows : Z;
  p_numCols : Z
}.

(** Lines 137-138: the record [handleSave] serialises. *)
Definition handleSave (s : State) : Payload :=
  mkPayload (grid s) (generations s) (numRows s) (numCols s).

(** What the file input delivers: no file, text that [JSON.parse] refuses,
    or text that parses to a record. *)
Inductive LoadInput : Type :=
  | NoFile
  | NotJson
  | Json (content : Payload).

(** Lines 147-160. *)
Definition handleLoad (input : LoadInput) (s : State) : outcome :=
  match input with
  | NoFile => Done s
  | NotJson => Raised SyntaxError s
  | Json content =>
      Done (mkState (p_numRows content) (p_numCols content) (p_grid content)
              (running s) (p_generations content) (brushSize s) (isEraser s)
              (simulationMode s) (population s))
  end.

(** A run of [n] ticks: line 87 re-arms [runSimulation] after each one. *)
Fixpoint ticks (n : nat) (s : State) : outcome :=
  match n with
  | O => Done s
  | S n' =>
      match runSimulation s with
      | Done s' => ticks n' s'
      | stop => stop
      end
  end.

(** ** The rest of the component *)

(** Lines 33-45: the state of the first render. *)
Definition initialState : State :=
  mkState 50 50
    (match generateEmptyGrid 50 50 with Ok g => Some g | Throw _ => None end)
    false 0 1 false Conway [].

(** Lines 60-88 as the callback of an earlier render: [useCallback] keeps
    the function of the render in which [numRows], [numCols] or
    [simulationMode] last changed (line 88), and the timer of line 87
    re-arms that same function.  [rows], [cols] and [m] are the values it
    captured; the updaters and [runningRef] see the current state [s]. *)
Definition runSimulationOf (rows cols : Z) (m : Mode) (s : State) : outcome :=
  if negb (running s) then Done s
  else
    match grid s with
    | None => Broken TypeError s
    | Some g =>
        match step rows cols m g with
        | Ok (newGrid, newPopulation) =>
            Done (mkState (numRows s) (numCols s) (Some newGrid) (running s)
                    (generations s + 1) (brushSize s) (isEraser s)
                    (simulationMode s) (record (population s) newPopulation))
        | Throw e => Broken e s
        end
    end.

Definition with_running (s : State) (r : bool) : State :=
  mkState (numRows s) (numCols s) (grid s) r (generations s)
    (brushSize s) (isEraser s) (simulationMode s) (population s).

(** Lines 206-212, the Start/Pause button: [setRunning(!running)], and when
    the engine was stopped one tick at once, with [runningRef.current]
    already set. *)
Definition handleStartPause (s : State) : outcome :=
  if running s then Done (with_running s false)
  else runSimulation (with_running s true).

(** Line 22, a cell entered by the pointer: [e.buttons === 1 && onClick()]. *)
Definition handleMouseEnter (buttons i j : Z) (s : State) : outcome :=
  if buttons =? 1 then handleCellClick i j s else Done s.

(** Line 298, the brush slider; line 304, the eraser button; line 273, the
    mode menu. *)
Definition handleBrushChange (b : Z) (s : State) : outcome :=
  Done (mkState (numRows s) (numCols s) (grid s) (running s) (generations s)
          b (isEraser s) (simulationMode s) (population s)).

Definition handleEraserToggle (s : State) : outcome :=
  Done (mkState (numRows s) (numCols s) (grid s) (running s) (generations s)
          (brushSize s) (negb (isEraser s)) (simulationMode s) (population s)).

Definition handleModeChange (m : Mode) (s : State) : outcome :=
  Done (mkState (numRows s) (numCols s) (grid s) (running s) (generations s)
          (brushSize s) (isEraser s) m (population s)).

(** Line 166, one cell of [handleRandomize].  [draws k] is the outcome of
    the comparison [Math.random() > 0.7] at the handler's [k]-th call of
    [Math.random]; the loops pass the number of calls made so far. *)
Definition randomCell (draws : nat -> bool) (i j : Z) (acc : Grid * nat)
  : result (Grid * nat) :=
  let '(newGrid, k) := acc in
  let* newGrid' :=
    grid_set newGrid (Num i) (Num j) (if draws k then Num 1 else Num 0) in
  Ok (newGrid', S k).

(** Lines 164-168. *)
Definition randomFill (numRows numCols : Z) (draws : nat -> bool)
    (newGrid : Grid) : result (Grid * nat) :=
  for_each
    (fun acc i =>
       for_each (fun acc j => randomCell draws i j acc) (seqZ 0 numCols) acc)
    (seqZ 0 numRows) (newGrid, O).

(** Lines 162-172. *)
Definition handleRandomize (draws : nat -> bool) (s : State) : outcome :=
  match generateEmptyGrid (numRows s) (numCols s) with
  | Throw e => Raised e s
  | Ok empty =>
      match randomFill (numRows s) (numCols s) draws empty with
      | Throw e => Raised e s
      | Ok (newGrid, _) =>
          Done (mkState (numRows s) (numCols s) (Some newGrid) (running s)
                  0 (brushSize s) (isEraser s) (simulationMode s) [])
      end
  end.

(** [v || 0]: a value that is not a number other than 0 gives 0. *)
Definition js_or_zero (v : value) : value :=
  match v with
  | Num z => if z =? 0 then Num 0 else Num z
  | _ => Num 0
  end.

(** Line 338, the population of the status line:
    [population[population.length - 1] || 0]. *)
Definition shownPopulation (s : State) : value :=
  js_or_zero
    (cell_of (population s) (Num (Z.of_nat (length (population s)) - 1))).

(** Line 343, the points of the chart: each sample with the generation
    [generations - population.length + index + 1]. *)
Definition chartData (s : State) : list (Z * value) :=
  imap
    (fun index pop =>
       (generations s - Z.of_nat (length (population s)) + Z.of_nat index + 1,
        pop))
    (population s).

(** What the page lets its user do, and the timer: a tick carries the
    dimensions and the rule set its callback captured. *)
Inductive Action : Type :=
  | StartPause
  | TimerTick (rows cols : Z) (m : Mode)
  | ResetButton
  | PatternMenu (name : PatternName)
  | PlusButton
  | MinusButton
  | MouseDown (i j : Z)
  | MouseEnter (buttons i j : Z)
  | BrushSlider (b : Z)
  | EraserButton
  | ModeMenu (m : Mode)
  | RandomizeButton (draws : nat -> bool)
  | SaveButton
  | LoadFile (input : LoadInput).

(** Lines 204-334: the handler each control is wired to. *)
Definition handle (a : Action) (s : State) : outcome :=
  match a with
  | StartPause => handleStartPause s
  | TimerTick rows cols m => runSimulationOf rows cols m s
  | ResetButton => handleReset s
  | PatternMenu name => handlePatternSelect name s
  | PlusButton => handleSizeChange 5 5 s
  | MinusButton => handleSizeChange (-5) (-5) s
  | MouseDown i j => handleCellClick i j s
  | MouseEnter buttons i j => handleMouseEnter buttons i j s
  | BrushSlider b => handleBrushChange b s
  | EraserButton => handleEraserToggle s
  | ModeMenu m => handleModeChange m s
  | RandomizeButton draws => handleRandomize draws s
  | SaveButton => Done s
  | LoadFile input => handleLoad input s
  end.

#[global] Instance Mode_eq_dec : EqDecision Mode.
Proof. solve_decision. Defined.

(** Lines 88 and 94: React runs the effect after a render in which
    [running] changed or [runSimulation] is a new callback, which
    [useCallback] makes it when [numRows], [numCols] or [simulationMode]
    changed. *)
Definition effectRuns (before after : State) : bool :=
  negb (bool_decide (running after = running before))
  || negb (bool_decide (numRows after = numRows before))
  || negb (bool_decide (numCols after = numCols before))
  || negb (bool_decide (simulationMode after = simulationMode before)).

(** Lines 90-94: the effect after the render that follows an update which
    started from [before]: one more tick if the engine is running.  A
    handler that raised has changed none of the values the effect depends
    on ([raised_keeps_dependencies]). *)
Definition useEffect (before : State) (o : outcome) : outcome :=
  match o with
  | Done s =>
      if effectRuns before s && running s then runSimulation s else Done s
  | stop => stop
  end.

(** An action of the page: its handler, then the effect. *)
Definition perform (a : Action) (s : State) : outcome :=
  useEffect s (handle a s).

(** The state an update leaves, however it ended; for a page that broke,
    the state the failing updater was applied to. *)
Definition state_after (o : outcome) : State :=
  match o with
  | Done s => s
  | Raised _ s => s
  | Broken _ s => s
  end.

(** ** Specification vocabulary *)

(** [g[i][j]] as a read that never raises. *)
Definition cell_at (g : Grid) (i j : Z) : value :=
  match js_get g (Num i) with
  | Some row => cell_of row (Num j)
  | None => Undefined
  end.

Definition cellZ (g : Grid) (i j : Z) : Z :=
  match cell_at g i j with
  | Num z => z
  | _ => 0
  end.

Definition is_bit (v : value) : Prop := v = Num 0 ∨ v = Num 1.

(** [rows] rows of [cols] entries each. *)
Definition shaped (rows cols : Z) (g : Grid) : Prop :=
  Z.of_nat (length g) = rows ∧ Forall (fun row => Z.of_nat (length row) = cols) g.

(** Every entry is 0 or 1. *)
Definition binary (g : Grid) : Prop := Forall (Forall is_bit) g.

(** The number of live cells. *)
Definition live_cells (g : Grid) : Z :=
  Z.of_nat (length (filter (fun v => v = Num 1) (concat g))).

Definition sumZ {A : Type} (f : A -> Z) (l : list A) : Z :=
  foldr (fun x acc => f x + acc) 0 l.

(** The eight neighbour offsets, as the specification lists them. *)
Definition neighborhood : list (Z * Z) :=
  [(0, 1); (0, -1); (1, 0); (-1, 0); (1, 1); (1, -1); (-1, 1); (-1, -1)].

(** The toroidal neighbour count of the specification, with the
    mathematical (never negative) modulo. *)
Definition torus_sum (rows cols : Z) (g : Grid) (i j : Z) : Z :=
  sumZ (fun '(dx, dy) =>
          cellZ g ((i + dx + rows) `mod` rows) ((j + dy + cols) `mod` cols))
    neighborhood.

Definition all_empty (g : Grid) : Prop := Forall (Forall (fun v => v = Num 0)) g.

(** The grid whose cell [(i, j)] is [f i j]. *)
Definition tabulate (rows cols : Z) (f : Z -> Z -> value) : Grid :=
  (fun i => f i <$> seqZ 0 cols) <$> seqZ 0 rows.

(** The cell one step writes at [(i, j)]: the rule applied to the old cell
    and the toroidal count of its old neighbours. *)
Definition next_cell (rows cols : Z) (m : Mode) (g : Grid) (i j : Z) : value :=
  nextState m (Num (torus_sum rows cols g i j)) (cell_at g i j).

Definition next_bit (rows cols : Z) (m : Mode) (g : Grid) (i j : Z) : Z :=
  match next_cell rows cols m g i j with
  | Num z => z
  | _ => 0
  end.

(** The state of the two loops of [step] after the rows in [done_rows] and,
    of the current row [i], the columns in [done_cols]. *)
Definition step_inv (rows cols : Z) (m : Mode) (g : Grid)
    (done_rows : list Z) (i : Z) (done_cols : list Z)
    (acc : Grid * value) : Prop :=
  shaped rows cols acc.1
  ∧ (forall a b, 0 <= a < rows -> 0 <= b < cols ->
       cell_at acc.1 a b =
       if decide (a ∈ done_rows ∨ (a = i ∧ b ∈ done_cols))
       then next_cell rows cols m g a b else cell_at g a b)
  ∧ acc.2 = Num (sumZ (fun a => sumZ (next_bit rows cols m g a) (seqZ 0 cols)) done_rows
                 + sumZ (next_bit rows cols m g i) done_cols).

(** The state invariant of the running engine: the grid is there, has the
    recorded dimensions and holds 0/1 entries. *)
Definition wf_state (s : State) : Prop :=
  exists g, grid s = Some g ∧ shaped (numRows s) (numCols s) g ∧ binary g.

(** The last [n] elements of a list, in order. *)
Definition last_n {A : Type} (n : nat) (l : list A) : list A :=
  drop (length l - n) l.

(** The population after the state's current grid. *)
Definition population_of (o : outcome) : value :=
  match o with
  | Done s =>
      match grid s with
      | Some g => Num (live_cells g)
      | None => Undefined
      end
  | Raised _ _ => Undefined
  | Broken _ _ => Undefined
  end.

(** The populations of generations 1, ..., n reached from [s], in
    chronological order. *)
Definition pops (n : nat) (s : State) : list value :=
  (fun k => population_of (ticks k s)) <$> seq 1 n.

Definition small_grid : Grid :=
  [[Num 0; Num 1; Num 0]; [Num 0; Num 1; Num 0]; [Num 0; Num 1; Num 1]].

Definition small_state : State :=
  mkState 3 3 (Some small_grid) true 0 1 false Conway [].

(** A persisted record as the specification wants it: a grid that is
    present, has [numRows] rows of [numCols] entries, and holds 0/1 only. *)
Definition valid_payload (p : Payload) : Prop :=
  exists g, p_grid p = Some g ∧ shaped (p_numRows p) (p_numCols p) g ∧ binary g.

(** A record whose second row is one entry short. *)
Definition jagged_payload : Payload :=
  mkPayload (Some [[Num 0; Num 1]; [Num 1]]) 7 2 2.

Definition painted_state : State :=
  mkState 50 50 (Some (tabulate 50 50 (fun _ _ => Num 1))) false 12 1 false
    Conway [Num 2500].

(** The blinker as stamped around the centre [(cx, cy)]: the vertical line
    of three cells in column [cy + 1], rows [cx] to [cx + 2]; and the same
    line turned by 90 degrees about its middle cell. *)
Definition vertical_line (cx cy a b : Z) : bool :=
  (b =? cy + 1) && (cx <=? a) && (a <=? cx + 2).

Definition horizontal_line (cx cy a b : Z) : bool :=
  (a =? cx + 1) && (cy <=? b) && (b <=? cy + 2).

Definition bitZ (t : bool) : Z := if t then 1 else 0.

(** The neighbour count of the specification over a table of cells. *)
Definition table_sum (rows cols : Z) (f : Z -> Z -> Z) (i j : Z) : Z :=
  sumZ (fun '(dx, dy) => f ((i + dx + rows) `mod` rows) ((j + dy + cols) `mod` cols))
    neighborhood.

(** The smallest board the size buttons allow, empty. *)
Definition small_board : State :=
  mkState 10 10 (Some (tabulate 10 10 (fun _ _ => Num 0))) false 0 1 false
    Conway [].

(** The cells a brush of half-width [half] centred at [(i, j)] covers on
    the rows x cols torus. *)
Definition covered (rows cols half i j a b : Z) : Prop :=
  (exists x, - half <= x <= half ∧ a = (i + x) `mod` rows)
  ∧ (exists y, - half <= y <= half ∧ b = (j + y) `mod` cols).

(** The board with every cell inverted. *)
Definition flip_cell (v : value) : value :=
  match v with
  | Num z => Num (1 - z)
  | _ => v
  end.

Definition invert (g : Grid) : Grid :=
  (fun row : list value => flip_cell <$> row) <$> g.

(** What holds of the state as long as the page is used through its
    controls: a well-formed board within the size limits, a brush the
    slider offers, a log within its cap. *)
Definition ui_inv (s : State) : Prop :=
  wf_state s
  ∧ 10 <= numRows s <= 100 ∧ 10 <= numCols s <= 100
  ∧ 1 <= brushSize s <= 5
  ∧ (length (population s) <= 100)%nat.

(** A file worth loading: well-formed, with dimensions the size buttons
    could have produced. *)
Definition ui_payload (p : Payload) : Prop :=
  valid_payload p ∧ 10 <= p_numRows p <= 100 ∧ 10 <= p_numCols p <= 100.

(** The actions the page offers in state [s]: the rendered cells are those
    of the grid, the brush slider runs from 1 to 5 (lines 295-296), of the
    files only those worth loading are considered, and of the timer's ticks
    those whose callback captured the current dimensions. *)
Definition offered (s : State) (a : Action) : Prop :=
  match a with
  | TimerTick rows cols _ => rows = numRows s ∧ cols = numCols s
  | MouseDown i j => 0 <= i < numRows s ∧ 0 <= j < numCols s
  | MouseEnter _ i j => 0 <= i < numRows s ∧ 0 <= j < numCols s
  | BrushSlider b => 1 <= b <= 5
  | LoadFile (Json p) => ui_payload p
  | _ => True
  end.

(** A counter to which the code can add 1 exactly: [gen + 1] of line 85 is
    an addition of doubles, exact for these integers and for no other (at
    2^53 it gives [gen] back). *)
Definition exact_counter (n : Z) : Prop := - 2 ^ 53 <= n < 2 ^ 53.

(** The states the page can be brought to. *)
Inductive reachable : State -> Prop :=
  | reach_initial : reachable initialState
  | reach_action (s : State) (a : Action) :
      reachable s -> offered s a -> reachable (state_after (perform a s)).

(** The board that holds [cells], offset from [(cx, cy)], and nothing else. *)
Definition pattern_at (cells : list (Z * Z)) (cx cy a b : Z) : bool :=
  existsb (fun '(x, y) => (a =? cx + x) && (b =? cy + y)) cells.

(** Patterns that fit in the 4 x 4 box at the origin. *)
Definition boxed (cells : list (Z * Z)) : bool :=
  forallb (fun '(x, y) => (0 <=? x) && (x <=? 3) && (0 <=? y) && (y <=? 3)) cells.

(** The neighbour count on the unbounded plane. *)
Definition plain_sum (f : Z -> Z -> Z) (i j : Z) : Z :=
  sumZ (fun '(dx, dy) => f (i + dx) (j + dy)) neighborhood.

(** [cells] turns into [cells'] in one Conway generation on the plane:
    checked on the box and the ring of cells around it, outside of which
    nothing is live or born. *)
Definition turns_into (cells cells' : list (Z * Z)) : bool :=
  forallb (fun u =>
    forallb (fun v =>
      bool_decide
        (nextState Conway
           (Num (plain_sum (fun x y => bitZ (pattern_at cells 0 0 x y)) u v))
           (Num (bitZ (pattern_at cells 0 0 u v)))
         = Num (bitZ (pattern_at cells' 0 0 u v))))
      (seqZ (-1) 6))
    (seqZ (-1) 6).

(** The other phase of the toad, and the phases of the glider. *)
Definition toad_turned : list (Z * Z) :=
  [(0, 2); (1, 0); (1, 3); (2, 0); (2, 3); (3, 1)].

Definition glider_phase (n : nat) : list (Z * Z) :=
  match n with
  | 0%nat => [(0, 1); (1, 2); (2, 0); (2, 1); (2, 2)]
  | 1%nat => [(1, 0); (1, 2); (2, 1); (2, 2); (3, 1)]
  | 2%nat => [(1, 2); (2, 0); (2, 2); (3, 1); (3, 2)]
  | 3%nat => [(1, 1); (2, 2); (2, 3); (3, 1); (3, 2)]
  | _ => [(1, 2); (2, 3); (3, 1); (3, 2); (3, 3)]
  end.

(** * Lemmas *)

Section loops.
Context {A B : Type}.

(** A loop whose body keeps an invariant over the elements already
    visited runs to the end and establishes it for the whole list. *)
Lemma for_each_inv (I : list B -> A -> Prop) (f : A -> B -> result A) l a :
  I [] a ->
  (forall pre x post a0, l = pre ++ x :: post -> I pre a0 ->
     exists a1, f a0 x = Ok a1 ∧ I (pre ++ [x]) a1) ->
  exists a', for_each f l a = Ok a' ∧ I l a'.
Proof.
  revert I a. induction l as [|x l IH]; intros I a H0 Hstep; simpl.
  - by exists a.
  - destruct (Hstep [] x l a eq_refl H0) as (a1 & Hf & H1).
    rewrite Hf. simpl.
    apply (IH (fun pre => I (x :: pre))); [done|].
    intros pre y post a0 -> Hpre.
    apply (Hstep (x :: pre) y post a0); done.
Qed.

Lemma for_loop_inv (I : list B -> A -> Prop)
    (f : A -> B -> A * option exn) l a :
  I [] a ->
  (forall pre x post a0, l = pre ++ x :: post -> I pre a0 ->
     exists a1, f a0 x = (a1, None) ∧ I (pre ++ [x]) a1) ->
  exists a', for_loop f l a = (a', None) ∧ I l a'.
Proof.
  revert I a. induction l as [|x l IH]; intros I a H0 Hstep; simpl.
  - by exists a.
  - destruct (Hstep [] x l a eq_refl H0) as (a1 & Hf & H1).
    rewrite Hf.
    apply (IH (fun pre => I (x :: pre))); [done|].
    intros pre y post a0 -> Hpre.
    apply (Hstep (x :: pre) y post a0); done.
Qed.
End loops.

Lemma sumZ_app {A : Type} (f : A -> Z) l1 l2 :
  sumZ f (l1 ++ l2) = sumZ f l1 + sumZ f l2.
Proof. induction l1 as [|x l1 IH]; simpl; [done|]. rewrite IH. lia. Qed.

Lemma sumZ_ext {A : Type} (f h : A -> Z) l :
  (forall x, x ∈ l -> f x = h x) -> sumZ f l = sumZ h l.
Proof.
  induction l as [|x l IH]; intros Hfh; simpl; [done|].
  rewrite Hfh by left. rewrite IH; [done|].
  intros y Hy. apply Hfh. by right.
Qed.

(** ** Indices *)

Lemma index_of_Num z : 0 <= z -> index_of (Num z) = Some (Z.to_nat z).
Proof. intros Hz. unfold index_of. by rewrite (proj2 (Z.leb_le 0 z) Hz). Qed.

Lemma index_of_neg z : z < 0 -> index_of (Num z) = None.
Proof. intros Hz. unfold index_of. by rewrite (proj2 (Z.leb_gt 0 z) Hz). Qed.

Lemma js_get_Num {A : Type} (a : list A) z :
  0 <= z -> js_get a (Num z) = a !! Z.to_nat z.
Proof. intros Hz. unfold js_get. by rewrite index_of_Num. Qed.

Lemma js_get_neg {A : Type} (a : list A) z : z < 0 -> js_get a (Num z) = None.
Proof. intros Hz. unfold js_get. by rewrite index_of_neg. Qed.

(** On a non-negative left operand, [%] is the mathematical modulo. *)
Lemma js_rem_mod a n : 0 <= a -> 0 < n -> js_rem a n = Num (a `mod` n).
Proof.
  intros Ha Hn. unfold js_rem.
  rewrite (proj2 (Z.eqb_neq n 0)) by lia.
  by rewrite Z.rem_mod_nonneg by lia.
Qed.

(** On a single row or column every index wraps to 0, whatever its sign. *)
Lemma js_rem_wrap a n : 0 < n -> n = 1 ∨ 0 <= a -> js_rem a n = Num (a `mod` n).
Proof.
  intros Hn [->|Ha]; [|by apply js_rem_mod].
  unfold js_rem. simpl. by rewrite Z.rem_1_r, Z.mod_1_r.
Qed.

(** ** Shaped grids *)

Lemma shaped_lookup rows cols g i :
  shaped rows cols g -> 0 <= i < rows ->
  exists row, g !! Z.to_nat i = Some row ∧ Z.of_nat (length row) = cols.
Proof.
  intros [Hlen Hrows] Hi.
  destruct (lookup_lt_is_Some_2 g (Z.to_nat i)) as [row Hrow]; [lia|].
  exists row. split; [done|].
  by apply (Forall_lookup_1 _ _ _ _ Hrows Hrow).
Qed.

Lemma row_of_shaped rows cols g i :
  shaped rows cols g -> 0 <= i < rows ->
  exists row, row_of g (Num i) = Ok row ∧ g !! Z.to_nat i = Some row
              ∧ Z.of_nat (length row) = cols.
Proof.
  intros Hg Hi. destruct (shaped_lookup _ _ _ _ Hg Hi) as (row & Hrow & Hlen).
  exists row. split; [|done].
  unfold row_of. rewrite js_get_Num by lia.
  by rewrite Hrow.
Qed.

Lemma cell_at_lookup g i j row :
  0 <= i -> g !! Z.to_nat i = Some row -> cell_at g i j = cell_of row (Num j).
Proof.
  intros Hi Hrow. unfold cell_at. rewrite js_get_Num by lia.
  by rewrite Hrow.
Qed.

Lemma binary_cell rows cols g i j :
  shaped rows cols g -> binary g -> 0 <= i < rows -> 0 <= j < cols ->
  is_bit (cell_at g i j).
Proof.
  intros Hg Hb Hi Hj.
  destruct (shaped_lookup _ _ _ _ Hg Hi) as (row & Hrow & Hlen).
  rewrite (cell_at_lookup _ _ _ _ (proj1 Hi) Hrow).
  unfold cell_of. rewrite js_get_Num by lia.
  destruct (lookup_lt_is_Some_2 row (Z.to_nat j)) as [v Hv]; [lia|].
  rewrite Hv. simpl.
  pose proof (Forall_lookup_1 _ _ _ _ Hb Hrow) as Hbits.
  exact (Forall_lookup_1 _ _ _ _ Hbits Hv).
Qed.

Lemma cellZ_bit rows cols g i j :
  shaped rows cols g -> binary g -> 0 <= i < rows -> 0 <= j < cols ->
  cell_at g i j = Num (cellZ g i j) ∧ 0 <= cellZ g i j <= 1.
Proof.
  intros Hg Hb Hi Hj. unfold cellZ.
  destruct (binary_cell _ _ _ _ _ Hg Hb Hi Hj) as [-> | ->]; split; (done || lia).
Qed.

(** Writing one cell of a shaped grid at a valid position: the write
    succeeds, the shape stays, and exactly that cell changes. *)
Lemma grid_set_shaped rows cols g i j v :
  shaped rows cols g -> 0 <= i < rows -> 0 <= j < cols ->
  exists g', grid_set g (Num i) (Num j) v = Ok g'
    ∧ shaped rows cols g'
    ∧ (forall a b, cell_at g' a b =
                   if decide (a = i ∧ b = j) then v else cell_at g a b).
Proof.
  intros Hg Hi Hj.
  destruct (shaped_lookup _ _ _ _ Hg Hi) as (row & Hrow & Hlen).
  exists (<[Z.to_nat i := js_set row (Num j) v]> g).
  assert (Hset : js_set row (Num j) v = <[Z.to_nat j := v]> row).
  { unfold js_set. rewrite index_of_Num by lia.
    by rewrite (proj2 (Nat.ltb_lt _ _)) by lia. }
  split; [|split].
  - unfold grid_set. rewrite index_of_Num by lia. by rewrite Hrow.
  - destruct Hg as [Hl Hrows]. split.
    + by rewrite length_insert.
    + apply Forall_insert; [done|]. by rewrite Hset, length_insert.
  - intros a b. unfold cell_at.
    destruct (Z.lt_ge_cases a 0) as [Ha|Ha].
    { rewrite !js_get_neg by done. case_decide; [lia|done]. }
    rewrite !js_get_Num by done.
    destruct (decide (a = i)) as [->|Hai].
    + rewrite list_lookup_insert_eq by (apply lookup_lt_is_Some_1; eauto).
      rewrite Hrow, Hset. unfold cell_of.
      destruct (Z.lt_ge_cases b 0) as [Hb|Hb].
      { rewrite !js_get_neg by done. case_decide; [lia|done]. }
      rewrite !js_get_Num by done.
      destruct (decide (b = j)) as [->|Hbj].
      * rewrite list_lookup_insert_eq by lia. by rewrite decide_True.
      * rewrite list_lookup_insert_ne by lia. rewrite decide_False; [done|lia].
    + rewrite list_lookup_insert_ne by lia. rewrite decide_False; [done|lia].
Qed.

(** Two grids of one shape with the same cells are the same grid. *)
Lemma grid_ext rows cols g1 g2 :
  shaped rows cols g1 -> shaped rows cols g2 ->
  (forall i j, 0 <= i < rows -> 0 <= j < cols -> cell_at g1 i j = cell_at g2 i j) ->
  g1 = g2.
Proof.
  intros H1 H2 Hcells. apply list_eq_same_length with (Z.to_nat rows).
  { destruct H2; lia. } { destruct H1; lia. }
  intros n r1 r2 Hn Hr1 Hr2.
  assert (Hi : 0 <= Z.of_nat n < rows) by lia.
  pose proof (Forall_lookup_1 _ _ _ _ (proj2 H1) Hr1) as Hl1.
  pose proof (Forall_lookup_1 _ _ _ _ (proj2 H2) Hr2) as Hl2.
  simpl in Hl1, Hl2.
  apply list_eq_same_length with (Z.to_nat cols); [lia|lia|].
  intros k v1 v2 Hk Hv1 Hv2.
  specialize (Hcells (Z.of_nat n) (Z.of_nat k) Hi ltac:(lia)).
  unfold cell_at, cell_of in Hcells.
  rewrite !js_get_Num, !Nat2Z.id in Hcells by lia.
  rewrite Hr1, Hr2 in Hcells.
  rewrite !js_get_Num, !Nat2Z.id in Hcells by lia.
  rewrite Hv1, Hv2 in Hcells. done.
Qed.

Lemma tabulate_shaped rows cols f :
  0 <= rows -> 0 <= cols -> shaped rows cols (tabulate rows cols f).
Proof.
  intros Hr Hc. unfold shaped, tabulate. split.
  - rewrite length_fmap, length_seqZ. lia.
  - apply Forall_fmap, Forall_forall. intros i _. simpl.
    rewrite length_fmap, length_seqZ. lia.
Qed.

Lemma tabulate_cell rows cols f i j :
  0 <= i < rows -> 0 <= j < cols -> cell_at (tabulate rows cols f) i j = f i j.
Proof.
  intros Hi Hj. unfold cell_at, cell_of, tabulate.
  rewrite js_get_Num by lia. rewrite list_lookup_fmap.
  rewrite lookup_seqZ_lt by lia. simpl.
  rewrite js_get_Num by lia. rewrite list_lookup_fmap.
  rewrite lookup_seqZ_lt by lia. simpl.
  f_equal; lia.
Qed.

Lemma shaped_tabulate rows cols g :
  shaped rows cols g -> g = tabulate rows cols (cell_at g).
Proof.
  intros Hg.
  assert (0 <= rows) by (destruct Hg; lia).
  destruct (decide (rows = 0)) as [->|Hr].
  { destruct Hg as [Hl _]. by destruct g. }
  assert (0 <= cols).
  { destruct (shaped_lookup rows cols g 0 Hg ltac:(lia)) as (? & _ & ?). lia. }
  apply (grid_ext rows cols); [done|by apply tabulate_shaped|].
  intros i j Hi Hj. by rewrite tabulate_cell.
Qed.

Lemma live_cells_tabulate rows cols (f : Z -> Z -> Z) :
  (forall i j, 0 <= i < rows -> 0 <= j < cols -> 0 <= f i j <= 1) ->
  live_cells (tabulate rows cols (fun i j => Num (f i j)))
  = sumZ (fun i => sumZ (f i) (seqZ 0 cols)) (seqZ 0 rows).
Proof.
  intros Hf. unfold live_cells, tabulate.
  assert (Hrow : forall i js, (forall j, j ∈ js -> 0 <= f i j <= 1) ->
            Z.of_nat (length (filter (fun v => v = Num 1) ((fun j => Num (f i j)) <$> js)))
            = sumZ (f i) js).
  { intros i js. induction js as [|j js IH]; intros Hjs; csimpl; [done|].
    assert (0 <= f i j <= 1) by (apply Hjs; left).
    rewrite filter_cons. rewrite <- IH by (intros; apply Hjs; by right).
    case_decide as Hd; csimpl.
    - injection Hd as Hd. lia.
    - assert (f i j = 0) by (destruct (decide (f i j = 1)) as [E|E]; [by rewrite E in Hd|lia]).
      lia. }
  assert (Hall : forall rws, (forall i, i ∈ rws -> 0 <= i < rows) ->
            Z.of_nat (length (filter (fun v => v = Num 1)
               (concat ((fun i => (fun j => Num (f i j)) <$> seqZ 0 cols) <$> rws))))
            = sumZ (fun i => sumZ (f i) (seqZ 0 cols)) rws).
  { induction rws as [|i rws IH]; intros His; csimpl; [done|].
    rewrite filter_app, length_app, Nat2Z.inj_add.
    rewrite IH by (intros; apply His; by right).
    rewrite Hrow; [done|].
    intros j Hj%elem_of_seqZ. apply Hf; [apply His; left|lia]. }
  apply Hall. intros i Hi%elem_of_seqZ. lia.
Qed.

(** ** One step *)

Section step_facts.
Variables (rows cols : Z) (m : Mode) (g : Grid).
Hypothesis g_shaped : shaped rows cols g.
Hypothesis g_binary : binary g.

(** One iteration of the neighbour loop: the wrapped read is in range and
    adds the cell it finds. *)
Lemma read_neighbor i j x y n :
  0 <= i < rows -> 0 <= j < cols -> -1 <= x <= 1 -> -1 <= y <= 1 ->
  (let* row := row_of g (js_rem (i + x + rows) rows) in
   Ok (js_add (Num n) (cell_of row (js_rem (j + y + cols) cols))))
  = Ok (Num (n + cellZ g ((i + x + rows) `mod` rows) ((j + y + cols) `mod` cols))).
Proof.
  intros Hi Hj Hx Hy.
  rewrite !js_rem_mod by lia.
  pose proof (Z.mod_pos_bound (i + x + rows) rows ltac:(lia)) as Ha.
  pose proof (Z.mod_pos_bound (j + y + cols) cols ltac:(lia)) as Hb.
  destruct (row_of_shaped _ _ _ _ g_shaped Ha) as (row & -> & Hrow & _).
  simpl. rewrite <- (cell_at_lookup g _ _ row (proj1 Ha) Hrow).
  destruct (cellZ_bit _ _ _ _ _ g_shaped g_binary Ha Hb) as [-> _].
  done.
Qed.

Lemma countNeighbors_spec i j :
  0 <= i < rows -> 0 <= j < cols ->
  countNeighbors rows cols g i j = Ok (Num (torus_sum rows cols g i j)).
Proof.
  intros Hi Hj. unfold countNeighbors, operations. cbn [for_each].
  repeat (rewrite read_neighbor by lia; cbn [bind]).
  unfold torus_sum, neighborhood, sumZ. cbn [foldr].
  do 2 f_equal. lia.
Qed.

Lemma next_cell_bit i j :
  next_cell rows cols m g i j = Num (next_bit rows cols m g i j)
  ∧ 0 <= next_bit rows cols m g i j <= 1.
Proof.
  unfold next_bit, next_cell, nextState.
  destruct (simulationModes _ _ _); split; (done || lia).
Qed.

Lemma updateCell_inv done_rows i done_cols j acc :
  0 <= i < rows -> 0 <= j < cols ->
  step_inv rows cols m g done_rows i done_cols acc ->
  exists acc', updateCell rows cols m g i j acc = Ok acc'
    ∧ step_inv rows cols m g done_rows i (done_cols ++ [j]) acc'.
Proof.
  intros Hi Hj (Hsh & Hcells & Hpop). destruct acc as [ng p]. simpl in *.
  unfold updateCell. rewrite countNeighbors_spec by done. cbn [bind].
  destruct (row_of_shaped _ _ _ _ g_shaped Hi) as (row & -> & Hrow & _).
  cbn [bind]. rewrite <- (cell_at_lookup g _ _ row (proj1 Hi) Hrow).
  fold (next_cell rows cols m g i j).
  destruct (grid_set_shaped _ _ ng i j (next_cell rows cols m g i j) Hsh Hi Hj)
    as (ng' & -> & Hsh' & Hcells').
  cbn [bind].
  destruct (row_of_shaped _ _ _ _ Hsh' Hi) as (row' & -> & Hrow' & _).
  cbn [bind]. rewrite <- (cell_at_lookup ng' _ _ row' (proj1 Hi) Hrow').
  eexists. split; [done|]. split; [done|]. split; simpl.
  - intros a b Ha Hb. rewrite Hcells'.
    destruct (decide (a = i ∧ b = j)) as [[-> ->]|Hne].
    + rewrite decide_True; [done|]. right. split; [done|].
      apply elem_of_app. right. by apply list_elem_of_singleton.
    + rewrite Hcells by done.
      apply decide_ext. rewrite elem_of_app, list_elem_of_singleton.
      tauto.
  - rewrite Hcells', decide_True by done.
    destruct (next_cell_bit i j) as [-> _]. rewrite Hpop. simpl.
    rewrite sumZ_app. simpl. f_equal. lia.
Qed.

(** The step runs to the end on a shaped 0/1 grid, and every cell of the
    result is the rule applied to the old cell and its old neighbours. *)
Lemma step_cells :
  exists g' p, step rows cols m g = Ok (g', Num p)
    ∧ shaped rows cols g'
    ∧ (forall i j, 0 <= i < rows -> 0 <= j < cols -> cell_at g' i j = next_cell rows cols m g i j)
    ∧ p = sumZ (fun i => sumZ (next_bit rows cols m g i) (seqZ 0 cols)) (seqZ 0 rows).
Proof.
  unfold step.
  destruct (for_each_inv
    (fun done_rows acc => step_inv rows cols m g done_rows (-1) [] acc)
    (fun acc i => for_each (fun acc j => updateCell rows cols m g i j acc)
                    (seqZ 0 cols) acc)
    (seqZ 0 rows) (g, Num 0)) as ([g' p] & Hrun & Hsh & Hcells & Hpop).
  - split; [done|]. split; [|done]. intros a b _ _.
    rewrite decide_False; [done|]. intros [H|[_ H]]; by apply elem_of_nil in H.
  - intros pre i post acc Hl Hinv.
    assert (Hi : 0 <= i < rows).
    { assert (i ∈ seqZ 0 rows) as Hin.
      { rewrite Hl. apply elem_of_app. right. left. }
      apply elem_of_seqZ in Hin. lia. }
    destruct (for_each_inv
      (fun done_cols acc => step_inv rows cols m g pre i done_cols acc)
      (fun acc j => updateCell rows cols m g i j acc)
      (seqZ 0 cols) acc) as (acc' & Hrun & Hsh & Hcells & Hpop).
    + destruct Hinv as (Hsh & Hcells & Hpop). split; [done|]. split.
      * intros a b Ha Hb. rewrite Hcells by done. apply decide_ext.
        split; (intros [H|[_ H]]; [by left|by apply elem_of_nil in H]).
      * rewrite Hpop. simpl. done.
    + intros pre' j post' acc0 Hl' Hinv'.
      assert (Hj : 0 <= j < cols).
      { assert (j ∈ seqZ 0 cols) as Hin.
        { rewrite Hl'. apply elem_of_app. right. left. }
        apply elem_of_seqZ in Hin. lia. }
      by apply updateCell_inv.
    + exists acc'. split; [done|]. split; [done|]. split.
      * intros a b Ha Hb. rewrite Hcells by done. apply decide_ext.
        rewrite elem_of_app, list_elem_of_singleton, elem_of_seqZ.
        split.
        { intros [H|[-> _]]; [by left; left|by left; right]. }
        intros [[H| ->]|[_ H]]; [by left|right; split; [done|lia]|].
        by apply elem_of_nil in H.
      * rewrite Hpop. rewrite sumZ_app. simpl. f_equal. lia.
  - simpl in *. subst p. eexists g', _. split; [exact Hrun|]. split; [done|].
    split.
    + intros i j Hi Hj. rewrite Hcells by done.
      rewrite decide_True; [done|]. left. apply elem_of_seqZ. lia.
    + lia.
Qed.
End step_facts.

Lemma tabulate_ext rows cols f h :
  (forall i j, 0 <= i < rows -> 0 <= j < cols -> f i j = h i j) ->
  tabulate rows cols f = tabulate rows cols h.
Proof.
  intros Hfh. unfold tabulate.
  apply list_fmap_ext. intros n i Hi%lookup_seqZ.
  apply list_fmap_ext. intros k j Hj%lookup_seqZ.
  apply Hfh; lia.
Qed.

Lemma cell_at_nat (g : Grid) n k row v :
  g !! n = Some row -> row !! k = Some v ->
  cell_at g (Z.of_nat n) (Z.of_nat k) = v.
Proof.
  intros Hrow Hv. unfold cell_at, cell_of.
  rewrite js_get_Num, Nat2Z.id, Hrow by lia.
  by rewrite js_get_Num, Nat2Z.id, Hv by lia.
Qed.

(** A property of every cell of a shaped grid, read through [cell_at]. *)
Lemma Forall_cells (P : value -> Prop) rows cols g :
  shaped rows cols g ->
  (forall i j, 0 <= i < rows -> 0 <= j < cols -> P (cell_at g i j)) ->
  Forall (Forall P) g.
Proof.
  intros [Hlen Hrows] Hcells.
  apply Forall_lookup. intros n row Hrow.
  apply Forall_lookup. intros k v Hv.
  pose proof (Forall_lookup_1 _ _ _ _ Hrows Hrow) as Hl. simpl in Hl.
  apply lookup_lt_Some in Hrow as Hn. apply lookup_lt_Some in Hv as Hk.
  rewrite <- (cell_at_nat g n k row v Hrow Hv). apply Hcells; lia.
Qed.

(** [step], in full: it returns, the new grid has the old shape and 0/1
    entries, each cell is the rule applied to the old grid, and the count
    it reports is the number of live cells of the new grid. *)
Lemma step_full rows cols m g :
  shaped rows cols g -> binary g ->
  exists g' p, step rows cols m g = Ok (g', Num p)
    ∧ shaped rows cols g' ∧ binary g'
    ∧ (forall i j, 0 <= i < rows -> 0 <= j < cols ->
         cell_at g' i j = next_cell rows cols m g i j)
    ∧ p = live_cells g'.
Proof.
  intros Hg Hb.
  destruct (step_cells rows cols m g Hg Hb) as (g' & p & Hrun & Hsh & Hcells & Hp).
  exists g', p. split; [done|]. split; [done|]. split; [|split; [done|]].
  - apply (Forall_cells _ rows cols); [done|]. intros i j Hi Hj.
    rewrite Hcells by done. unfold next_cell, nextState, is_bit.
    destruct (simulationModes _ _ _); auto.
  - rewrite Hp. rewrite (shaped_tabulate _ _ _ Hsh) at 1.
    rewrite (tabulate_ext rows cols (cell_at g')
               (fun i j => Num (next_bit rows cols m g i j))).
    + symmetry. apply live_cells_tabulate. intros i j _ _.
      apply (next_cell_bit rows cols m g i j).
    + intros i j Hi Hj. rewrite Hcells by done.
      apply (next_cell_bit rows cols m g i j).
Qed.

(** ** Ticks and the population log *)

Lemma js_slice_last {A : Type} (pop : list A) :
  js_slice (-99) pop = drop (length pop - 99) pop.
Proof.
  unfold js_slice. simpl. f_equal. lia.
Qed.

Lemma length_record pop v : (length (record pop v) <= 100)%nat.
Proof.
  unfold record. rewrite js_slice_last, length_app, length_drop. simpl. lia.
Qed.

(** Recording after a log that already is a last-100 window gives the
    last-100 window of the longer sequence. *)
Lemma record_last_n (l : list value) v :
  record (last_n 100 l) v = last_n 100 (l ++ [v]).
Proof.
  unfold record, last_n. rewrite js_slice_last, length_drop, drop_drop.
  rewrite length_app. simpl.
  rewrite drop_app_le by lia. f_equal. f_equal. lia.
Qed.

Lemma last_n_short {A : Type} (l : list A) n : (length l <= n)%nat -> last_n n l = l.
Proof.
  intros Hl. unfold last_n. by replace (length l - n)%nat with 0%nat by lia.
Qed.

Lemma length_last_n {A : Type} (l : list A) n :
  length (last_n n l) = Nat.min n (length l).
Proof. unfold last_n. rewrite length_drop. lia. Qed.

Lemma ticks_S_end n s :
  ticks (S n) s =
  match ticks n s with
  | Done s' => runSimulation s'
  | stop => stop
  end.
Proof.
  revert s. induction n as [|n IH]; intros s.
  - simpl. by destruct (runSimulation s).
  - change (ticks (S (S n)) s) with
      (match runSimulation s with Done s' => ticks (S n) s' | stop => stop end).
    destruct (runSimulation s) as [s1|e s1|e s1] eqn:Hrun.
    + rewrite IH. simpl. by rewrite Hrun.
    + simpl. by rewrite Hrun.
    + simpl. by rewrite Hrun.
Qed.

Lemma pops_S n s : pops (S n) s = pops n s ++ [population_of (ticks (S n) s)].
Proof. unfold pops. by rewrite seq_S, fmap_app. Qed.

(** One tick of a running, well-formed engine. *)
Lemma runSimulation_running s :
  wf_state s -> running s = true ->
  exists g', runSimulation s =
    Done (mkState (numRows s) (numCols s) (Some g') true (generations s + 1)
            (brushSize s) (isEraser s) (simulationMode s)
            (record (population s) (Num (live_cells g'))))
    ∧ shaped (numRows s) (numCols s) g' ∧ binary g'
    ∧ (forall g, grid s = Some g ->
         forall i j, 0 <= i < numRows s -> 0 <= j < numCols s ->
           cell_at g' i j = next_cell (numRows s) (numCols s) (simulationMode s) g i j).
Proof.
  intros (g & Hgrid & Hsh & Hbin) Hrun.
  destruct (step_full _ _ (simulationMode s) g Hsh Hbin)
    as (g' & p & Hstep & Hsh' & Hbin' & Hcells & ->).
  exists g'. unfold runSimulation. rewrite Hrun, Hgrid, Hstep. simpl.
  split; [done|]. split; [done|]. split; [done|].
  intros g0 [= <-]. exact Hcells.
Qed.

(** Any number of ticks of a running, well-formed engine: they all happen,
    and the log is the last-100 window of everything recorded. *)
Lemma ticks_running n s :
  wf_state s -> running s = true -> (length (population s) <= 100)%nat ->
  exists s', ticks n s = Done s' ∧ wf_state s' ∧ running s' = true
    ∧ numRows s' = numRows s ∧ numCols s' = numCols s
    ∧ simulationMode s' = simulationMode s
    ∧ generations s' = generations s + Z.of_nat n
    ∧ population s' = last_n 100 (population s ++ pops n s).
Proof.
  intros Hwf Hrun Hlen. induction n as [|n IH].
  - exists s. simpl. repeat (split; [done || lia|]).
    unfold pops. simpl. rewrite app_nil_r. by rewrite last_n_short.
  - destruct IH as (sn & Hticks & Hwfn & Hrunn & Hr & Hc & Hm & Hgen & Hpop).
    destruct (runSimulation_running sn Hwfn Hrunn) as (g' & Hstep & Hsh & Hbin & _).
    eexists. rewrite pops_S, ticks_S_end, Hticks, Hstep. simpl.
    split; [done|]. simpl. split; [by exists g'|]. split; [done|].
    repeat (split; [done || lia|]).
    rewrite Hpop, record_last_n. by rewrite <- app_assoc.
Qed.

(** Concrete grids: shape and entries by inspection. *)
Ltac by_inspection :=
  repeat first
    [ reflexivity
    | left; reflexivity
    | right; reflexivity
    | split
    | constructor ].

(** Closed comparisons of integers. *)
Ltac by_computation :=
  vm_compute;
  repeat match goal with |- _ ∧ _ => split end;
  first [let H := fresh in intros H; discriminate H | reflexivity].

Lemma small_state_wf : wf_state small_state.
Proof. exists small_grid. unfold shaped, binary. by_inspection. Defined.

Lemma small_board_wf : wf_state small_board.
Proof.
  exists (tabulate 10 10 (fun _ _ => Num 0)).
  split; [reflexivity|]. vm_compute. by_inspection.
Defined.

(** ** Fresh grids and patterns *)

Lemma generateEmptyGrid_spec rows cols :
  0 <= rows < 2 ^ 32 -> 0 <= cols < 2 ^ 32 ->
  exists g, generateEmptyGrid rows cols = Ok g
    ∧ shaped rows cols g ∧ all_empty g
    ∧ (forall i j, 0 <= i < rows -> 0 <= j < cols -> cell_at g i j = Num 0).
Proof.
  intros Hr Hc.
  assert (Hshape : shaped rows cols
            (replicate (Z.to_nat rows) (replicate (Z.to_nat cols) (Num 0)))).
  { split; [rewrite length_replicate; lia|].
    apply Forall_replicate. rewrite length_replicate. lia. }
  assert (Hempty : all_empty
            (replicate (Z.to_nat rows) (replicate (Z.to_nat cols) (Num 0)))).
  { apply Forall_replicate, Forall_replicate. done. }
  exists (replicate (Z.to_nat rows) (replicate (Z.to_nat cols) (Num 0))).
  split; [|split; [done|split; [done|]]].
  - unfold generateEmptyGrid, js_Array.
    rewrite (proj2 (Z.ltb_ge rows 0)), (proj2 (Z.leb_gt (2 ^ 32) rows)) by lia.
    simpl. destruct (Z.to_nat rows) eqn:Hn; [done|].
    rewrite (proj2 (Z.ltb_ge cols 0)), (proj2 (Z.leb_gt (2 ^ 32) cols)) by lia.
    done.
  - intros i j Hi Hj.
    destruct (shaped_lookup _ _ _ _ Hshape Hi) as (row & Hrow & Hlen).
    rewrite (cell_at_lookup _ _ _ _ (proj1 Hi) Hrow).
    apply lookup_replicate_1 in Hrow as [-> _].
    unfold cell_of. rewrite js_get_Num by lia.
    by rewrite lookup_replicate_2 by lia.
Qed.

(** Stamping cells that all fall inside the grid: every write succeeds, the
    shape stays, and exactly the stamped cells become 1. *)
Lemma stamp_spec rows cols cells g :
  shaped rows cols g ->
  (forall x y, (x, y) ∈ cells ->
     0 <= rows / 2 + x < rows ∧ 0 <= cols / 2 + y < cols) ->
  exists g', stamp rows cols cells g = Ok g'
    ∧ shaped rows cols g'
    ∧ (forall a b, cell_at g' a b =
         if decide ((a - rows / 2, b - cols / 2) ∈ cells) then Num 1
         else cell_at g a b).
Proof.
  intros Hg Hfit. unfold stamp.
  set (I := fun (pre : list (Z * Z)) (acc : Grid) =>
    shaped rows cols acc
    ∧ forall a b, cell_at acc a b =
        if decide ((a - rows / 2, b - cols / 2) ∈ pre) then Num 1
        else cell_at g a b).
  apply (for_each_inv I); unfold I.
  - split; [done|]. intros a b. rewrite decide_False; [done|].
    apply not_elem_of_nil.
  - intros pre [x y] post acc Hl [Hsh Hcells].
    destruct (Hfit x y) as [Hx Hy].
    { rewrite Hl. apply elem_of_app. right. left. }
    destruct (grid_set_shaped _ _ acc _ _ (Num 1) Hsh Hx Hy)
      as (g1 & -> & Hsh1 & Hcells1).
    exists g1. split; [done|]. split; [done|].
    intros a b. rewrite Hcells1, Hcells.
    destruct (decide (a = rows / 2 + x ∧ b = cols / 2 + y)) as [[-> ->]|Hne].
    + rewrite decide_True; [done|]. apply elem_of_app. right.
      apply list_elem_of_singleton. f_equal; lia.
    + apply decide_ext. rewrite elem_of_app, list_elem_of_singleton.
      split; [by left|]. intros [H|[= Ha Hb]]; [done|]. exfalso. lia.
Qed.

(** The three named patterns stay inside any grid of at least 10 x 10. *)
Lemma patterns_offsets name cells x y :
  patterns name = Some cells -> (x, y) ∈ cells -> 0 <= x <= 2 ∧ 0 <= y <= 3.
Proof.
  intros Hname Hin. destruct name; simplify_eq/=;
    repeat (apply elem_of_cons in Hin as [[= -> ->]|Hin]; [lia|]);
    by apply elem_of_nil in Hin.
Qed.

Lemma handlePatternSelect_spec name cells s :
  10 <= numRows s <= 100 -> 10 <= numCols s <= 100 ->
  patterns name = Some cells ->
  exists g, handlePatternSelect name s =
      Done (mkState (numRows s) (numCols s) (Some g) (running s) 0
              (brushSize s) (isEraser s) (simulationMode s) [])
    ∧ shaped (numRows s) (numCols s) g
    ∧ (forall a b, 0 <= a < numRows s -> 0 <= b < numCols s ->
         cell_at g a b =
         if decide ((a - numRows s / 2, b - numCols s / 2) ∈ cells)
         then Num 1 else Num 0).
Proof.
  intros Hr Hc Hname.
  destruct (generateEmptyGrid_spec (numRows s) (numCols s))
    as (g0 & Hgen & Hsh0 & _ & Hcells0); [lia|lia|].
  destruct (stamp_spec (numRows s) (numCols s) cells g0 Hsh0)
    as (g & Hstamp & Hsh & Hcells).
  { intros x y Hin. destruct (patterns_offsets _ _ _ _ Hname Hin).
    Z.div_mod_to_equations. lia. }
  exists g. unfold handlePatternSelect. rewrite Hgen, Hname, Hstamp.
  split; [done|]. split; [done|].
  intros a b Ha Hb. rewrite Hcells. case_decide; [done|]. by apply Hcells0.
Qed.

(** ** The blinker *)

Lemma wrap_cases a d n :
  0 < n -> 0 <= a < n -> -1 <= d <= 1 ->
  (a + d + n) `mod` n =
  if a + d <? 0 then n - 1 else if n <=? a + d then 0 else a + d.
Proof.
  intros Hn Ha Hd.
  destruct (Z.ltb_spec (a + d) 0); [|destruct (Z.leb_spec n (a + d))].
  - symmetry. apply (Z.mod_unique _ _ 0); lia.
  - symmetry. apply (Z.mod_unique _ _ 2); lia.
  - symmetry. apply (Z.mod_unique _ _ 1); lia.
Qed.

(** Decide every integer test of the goal from the hypotheses. *)
Ltac decide_tests :=
  repeat (match goal with
  | |- context [?x <? ?y] =>
      first [ rewrite (proj2 (Z.ltb_lt x y)) by lia
            | rewrite (proj2 (Z.ltb_ge x y)) by lia ]
  | |- context [?x <=? ?y] =>
      first [ rewrite (proj2 (Z.leb_le x y)) by lia
            | rewrite (proj2 (Z.leb_gt x y)) by lia ]
  | |- context [?x =? ?y] =>
      first [ rewrite (proj2 (Z.eqb_eq x y)) by lia
            | rewrite (proj2 (Z.eqb_neq x y)) by lia ]
  end; cbn [andb orb]; cbv iota).

Lemma conway_turns_vertical rows cols cx cy a b :
  5 <= cx -> cx + 5 <= rows -> 5 <= cy -> cy + 5 <= cols ->
  0 <= a < rows -> 0 <= b < cols ->
  nextState Conway
    (Num (table_sum rows cols (fun x y => bitZ (vertical_line cx cy x y)) a b))
    (Num (bitZ (vertical_line cx cy a b)))
  = Num (bitZ (horizontal_line cx cy a b)).
Proof.
  intros Hcx Hcx' Hcy Hcy' Ha Hb.
  unfold table_sum, neighborhood, sumZ. cbn [foldr].
  rewrite !wrap_cases by lia.
  unfold vertical_line, horizontal_line.
  assert (Hrow : a = 0 ∨ 1 <= a <= cx - 2 ∨ a = cx - 1 ∨ a = cx ∨ a = cx + 1
                 ∨ a = cx + 2 ∨ a = cx + 3 ∨ cx + 4 <= a <= rows - 2
                 ∨ a = rows - 1) by lia.
  assert (Hcol : b = 0 ∨ 1 <= b <= cy - 1 ∨ b = cy ∨ b = cy + 1 ∨ b = cy + 2
                 ∨ cy + 3 <= b <= cols - 2 ∨ b = cols - 1) by lia.
  destruct Hrow as [Hrow|[Hrow|[Hrow|[Hrow|[Hrow|[Hrow|[Hrow|[Hrow|Hrow]]]]]]]];
  destruct Hcol as [Hcol|[Hcol|[Hcol|[Hcol|[Hcol|[Hcol|Hcol]]]]]];
  decide_tests; reflexivity.
Qed.

Lemma conway_turns_horizontal rows cols cx cy a b :
  5 <= cx -> cx + 5 <= rows -> 5 <= cy -> cy + 5 <= cols ->
  0 <= a < rows -> 0 <= b < cols ->
  nextState Conway
    (Num (table_sum rows cols (fun x y => bitZ (horizontal_line cx cy x y)) a b))
    (Num (bitZ (horizontal_line cx cy a b)))
  = Num (bitZ (vertical_line cx cy a b)).
Proof.
  intros Hcx Hcx' Hcy Hcy' Ha Hb.
  unfold table_sum, neighborhood, sumZ. cbn [foldr].
  rewrite !wrap_cases by lia.
  unfold vertical_line, horizontal_line.
  assert (Hrow : a = 0 ∨ 1 <= a <= cx - 1 ∨ a = cx ∨ a = cx + 1 ∨ a = cx + 2
                 ∨ cx + 3 <= a <= rows - 2 ∨ a = rows - 1) by lia.
  assert (Hcol : b = 0 ∨ 1 <= b <= cy - 2 ∨ b = cy - 1 ∨ b = cy ∨ b = cy + 1
                 ∨ b = cy + 2 ∨ b = cy + 3 ∨ cy + 4 <= b <= cols - 2
                 ∨ b = cols - 1) by lia.
  destruct Hrow as [Hrow|[Hrow|[Hrow|[Hrow|[Hrow|[Hrow|Hrow]]]]]];
  destruct Hcol as [Hcol|[Hcol|[Hcol|[Hcol|[Hcol|[Hcol|[Hcol|[Hcol|Hcol]]]]]]]];
  decide_tests; reflexivity.
Qed.

(** The toroidal neighbour count, written out. *)
Lemma torus_sum_unfold rows cols g i j :
  torus_sum rows cols g i j =
    cellZ g ((i + 0 + rows) `mod` rows) ((j + 1 + cols) `mod` cols)
  + cellZ g ((i + 0 + rows) `mod` rows) ((j + -1 + cols) `mod` cols)
  + cellZ g ((i + 1 + rows) `mod` rows) ((j + 0 + cols) `mod` cols)
  + cellZ g ((i + -1 + rows) `mod` rows) ((j + 0 + cols) `mod` cols)
  + cellZ g ((i + 1 + rows) `mod` rows) ((j + 1 + cols) `mod` cols)
  + cellZ g ((i + 1 + rows) `mod` rows) ((j + -1 + cols) `mod` cols)
  + cellZ g ((i + -1 + rows) `mod` rows) ((j + 1 + cols) `mod` cols)
  + cellZ g ((i + -1 + rows) `mod` rows) ((j + -1 + cols) `mod` cols).
Proof. unfold torus_sum, neighborhood, sumZ. cbn [foldr]. lia. Qed.

(** The neighbour count of a grid whose cells are given by a table. *)
Lemma torus_sum_table rows cols g f a b :
  0 < rows -> 0 < cols ->
  (forall x y, 0 <= x < rows -> 0 <= y < cols -> cell_at g x y = Num (f x y)) ->
  torus_sum rows cols g a b = table_sum rows cols f a b.
Proof.
  intros Hr Hc Hcells. unfold torus_sum, table_sum.
  apply sumZ_ext. intros [dx dy] _. unfold cellZ.
  by rewrite Hcells by (apply Z.mod_pos_bound; lia).
Qed.

Lemma next_cell_table rows cols m g f a b :
  0 < rows -> 0 < cols -> 0 <= a < rows -> 0 <= b < cols ->
  (forall x y, 0 <= x < rows -> 0 <= y < cols -> cell_at g x y = Num (f x y)) ->
  next_cell rows cols m g a b
  = nextState m (Num (table_sum rows cols f a b)) (Num (f a b)).
Proof.
  intros Hr Hc Ha Hb Hcells. unfold next_cell.
  by rewrite (torus_sum_table rows cols g f), Hcells.
Qed.

Lemma blinker_cells cx cy a b :
  (if decide ((a - cx, b - cy) ∈ [(0, 1); (1, 1); (2, 1)]) then Num 1 else Num 0)
  = Num (bitZ (vertical_line cx cy a b)).
Proof.
  unfold vertical_line. case_decide as Hin.
  - repeat (apply elem_of_cons in Hin as [[= Ha Hb]|Hin];
            [by decide_tests|]).
    by apply elem_of_nil in Hin.
  - destruct (Z.eqb_spec b (cy + 1)); [|done].
    destruct (Z.leb_spec cx a); [|done].
    destruct (Z.leb_spec a (cx + 2)); [|done].
    exfalso. apply Hin.
    assert (a - cx = 0 ∨ a - cx = 1 ∨ a - cx = 2) as [E|[E|E]] by lia;
      rewrite E; replace (b - cy) with 1 by lia; set_solver.
Qed.

Lemma bitZ_bit t : is_bit (Num (bitZ t)).
Proof. destruct t; [by right|by left]. Qed.

(** ** The brush *)

Lemma mod_add_self a n : 0 < n -> (a + n) `mod` n = a `mod` n.
Proof.
  intros Hn. replace (a + n) with (a + 1 * n) by lia. apply Z.mod_add. lia.
Qed.

(** Both brush loops run to the end when no index turns negative (or the
    board has a single row or column), and they paint exactly the wrapped
    rectangle around the centre. *)
Lemma paint_wrapped rows cols half v i j g :
  shaped rows cols g -> 0 < rows -> 0 < cols ->
  rows = 1 ∨ half <= i + rows -> cols = 1 ∨ half <= j + cols ->
  exists g', paint rows cols half v i j g = (g', None)
    ∧ shaped rows cols g'
    ∧ (forall a b, 0 <= a < rows -> 0 <= b < cols ->
         (covered rows cols half i j a b -> cell_at g' a b = v)
         ∧ (~ covered rows cols half i j a b -> cell_at g' a b = cell_at g a b)).
Proof.
  intros Hg Hr Hc Hi Hj. unfold paint.
  set (span := seqZ (- half) (2 * half + 1)).
  set (wr := fun x => (i + x + rows) `mod` rows).
  set (wc := fun y => (j + y + cols) `mod` cols).
  assert (Hspan : forall x, x ∈ span <-> - half <= x <= half).
  { intros x. unfold span. rewrite elem_of_seqZ. lia. }
  set (I := fun (xs ys : list Z) (x0 : Z) (acc : Grid) =>
    shaped rows cols acc
    ∧ forall a b, 0 <= a < rows -> 0 <= b < cols ->
        cell_at acc a b =
        if decide ((a ∈ wr <$> xs ∧ b ∈ wc <$> span)
                   ∨ (a = wr x0 ∧ b ∈ wc <$> ys))
        then v else cell_at g a b).
  destruct (for_loop_inv (fun xs acc => I xs [] 0 acc)
    (fun g x =>
       for_loop
         (fun g y =>
            match grid_set g (js_rem (i + x + rows) rows)
                    (js_rem (j + y + cols) cols) v with
            | Ok g' => (g', None)
            | Throw e => (g, Some e)
            end)
         span g)
    span g) as (g' & Hrun & Hsh & Hcells).
  - split; [done|]. intros a b _ _. rewrite decide_False; [done|].
    intros [[H _]|[_ H]]; by apply elem_of_nil in H.
  - intros xs x post acc Hl [Hsh Hcells].
    assert (Hx : - half <= x <= half).
    { apply Hspan. rewrite Hl. apply elem_of_app. right. left. }
    destruct (for_loop_inv (fun ys acc => I xs ys x acc)
      (fun g y =>
         match grid_set g (js_rem (i + x + rows) rows)
                 (js_rem (j + y + cols) cols) v with
         | Ok g' => (g', None)
         | Throw e => (g, Some e)
         end)
      span acc) as (acc' & Hrun' & Hsh' & Hcells').
    + split; [done|]. intros a b Ha Hb. rewrite Hcells by done.
      apply decide_ext.
      split; (intros [H|[_ H]]; [by left|by apply elem_of_nil in H]).
    + intros ys y post' acc0 Hl' [Hsh0 Hcells0].
      assert (Hy : - half <= y <= half).
      { apply Hspan. rewrite Hl'. apply elem_of_app. right. left. }
      rewrite (js_rem_wrap (i + x + rows)), (js_rem_wrap (j + y + cols))
        by (done || lia).
      destruct (grid_set_shaped rows cols acc0
                  ((i + x + rows) `mod` rows) ((j + y + cols) `mod` cols) v)
        as (g1 & -> & Hsh1 & Hcells1);
        [done|apply Z.mod_pos_bound; lia|apply Z.mod_pos_bound; lia|].
      exists g1. split; [done|]. split; [done|].
      intros a b Ha Hb. rewrite Hcells1, Hcells0 by done.
      fold (wr x) (wc y).
      destruct (decide (a = wr x ∧ b = wc y)) as [[-> ->]|Hne].
      * rewrite decide_True; [done|]. right. split; [done|].
        rewrite fmap_app. apply elem_of_app. right. by left.
      * apply decide_ext. rewrite fmap_app, elem_of_app.
        change (wc <$> [y]) with [wc y]. rewrite list_elem_of_singleton.
        tauto.
    + exists acc'. split; [done|]. split; [done|].
      intros a b Ha Hb. rewrite Hcells' by done. apply decide_ext.
      rewrite fmap_app, elem_of_app.
      change (wr <$> [x]) with [wr x]. rewrite list_elem_of_singleton.
      split; [tauto|].
      intros [[[H| ->] Hb']|[_ H]]; [tauto|tauto|by apply elem_of_nil in H].
  - exists g'. split; [exact Hrun|]. split; [done|].
    assert (Hwr : forall a, a ∈ wr <$> span <->
              exists x, - half <= x <= half ∧ a = (i + x) `mod` rows).
    { intros a. rewrite list_elem_of_fmap. unfold wr.
      split; intros (x & H1 & H2); exists x.
      - apply Hspan in H2. split; [done|]. rewrite H1. by apply mod_add_self.
      - split; [|by apply Hspan]. rewrite H2. symmetry. by apply mod_add_self. }
    assert (Hwc : forall b, b ∈ wc <$> span <->
              exists y, - half <= y <= half ∧ b = (j + y) `mod` cols).
    { intros b. rewrite list_elem_of_fmap. unfold wc.
      split; intros (y & H1 & H2); exists y.
      - apply Hspan in H2. split; [done|]. rewrite H1. by apply mod_add_self.
      - split; [|by apply Hspan]. rewrite H2. symmetry. by apply mod_add_self. }
    intros a b Ha Hb. rewrite Hcells by done. unfold covered.
    rewrite <- Hwr, <- Hwc. split; intros Hcov.
    + rewrite decide_True; [done|]. by left.
    + rewrite decide_False; [done|]. intros [H|[_ H]]; [done|].
      by apply elem_of_nil in H.
Qed.

Lemma paint_spec rows cols half v i j g :
  shaped rows cols g -> 0 < rows -> 0 < cols ->
  half <= i + rows -> half <= j + cols ->
  exists g', paint rows cols half v i j g = (g', None)
    ∧ shaped rows cols g'
    ∧ (forall a b, 0 <= a < rows -> 0 <= b < cols ->
         (covered rows cols half i j a b -> cell_at g' a b = v)
         ∧ (~ covered rows cols half i j a b -> cell_at g' a b = cell_at g a b)).
Proof.
  intros Hg Hr Hc Hi Hj. apply paint_wrapped; auto.
Qed.

(** ** The engine on small inputs *)

Example rem_keeps_the_sign : js_rem (-1) 10 = Num (-1) ∧ js_rem 7 0 = NaN.
Proof. split; reflexivity. Qed.

Example write_past_the_end :
  js_set [Num 0] (Num 3) (Num 1) = [Num 0; Undefined; Undefined; Num 1]
  ∧ js_set [Num 0] (Num (-1)) (Num 1) = [Num 0].
Proof. split; reflexivity. Qed.

Example write_in_missing_row :
  grid_set [[Num 0]] (Num 1) (Num 0) (Num 1) = Throw TypeError.
Proof. reflexivity. Qed.

Example slice_keeps_the_tail : js_slice (-2) [1; 2; 3; 4] = [3; 4].
Proof. reflexivity. Qed.

Example unknown_pattern_raises :
  handlePatternSelect no_pattern small_board = Raised TypeError small_board.
Proof. reflexivity. Qed.

(** A single live cell dies of underpopulation: the step of a board with
    one painted cell is the empty board, with population 0. *)
Example lone_cell_dies :
  exists s, handleCellClick 4 7 small_board = Done s
    ∧ population_of (Done s) = Num 1
    ∧ forall g, grid s = Some g ->
        step 10 10 Conway g = Ok (tabulate 10 10 (fun _ _ => Num 0), Num 0).
Proof.
  eexists. split; [reflexivity|]. split; [reflexivity|].
  intros g [= <-]. vm_compute. reflexivity.
Qed.

(** The glider moves one cell down and one cell right in four steps. *)
Example glider_moves_diagonally :
  exists s0 s4 g0 g4,
    handlePatternSelect glider
      (mkState 10 10 None true 0 1 false Conway []) = Done s0
    ∧ ticks 4 s0 = Done s4
    ∧ grid s0 = Some g0 ∧ grid s4 = Some g4
    ∧ generations s4 = 4
    ∧ population s4 = [Num 5; Num 5; Num 5; Num 5]
    ∧ forall a b, 0 <= a < 9 -> 0 <= b < 9 ->
        cell_at g4 (a + 1) (b + 1) = cell_at g0 a b.
Proof.
  eexists _, _, _, _. split; [reflexivity|].
  split; [vm_compute; reflexivity|].
  split; [reflexivity|]. split; [reflexivity|].
  split; [reflexivity|]. split; [reflexivity|].
  intros a b Ha Hb.
  assert (Hcase : forall k, 0 <= k < 9 ->
            k = 0 ∨ k = 1 ∨ k = 2 ∨ k = 3 ∨ k = 4 ∨ k = 5 ∨ k = 6 ∨ k = 7 ∨ k = 8)
    by (intros; lia).
  destruct (Hcase a Ha) as [->|[->|[->|[->|[->|[->|[->|[->| ->]]]]]]]];
  destruct (Hcase b Hb) as [->|[->|[->|[->|[->|[->|[->|[->| ->]]]]]]]];
  reflexivity.
Qed.

(** Saving and loading back changes nothing; loading keeps the log. *)
Lemma load_of_save s : handleLoad (Json (handleSave s)) s = Done s.
Proof. by destruct s. Qed.

Lemma load_keeps_population s p s' :
  handleLoad (Json p) s = Done s' -> population s' = population s.
Proof. by intros [= <-]. Qed.

Lemma reset_clears s :
  10 <= numRows s <= 100 -> 10 <= numCols s <= 100 ->
  exists g, handleReset s =
      Done (mkState (numRows s) (numCols s) (Some g) false 0
              (brushSize s) (isEraser s) (simulationMode s) [])
    ∧ shaped (numRows s) (numCols s) g ∧ all_empty g.
Proof.
  intros Hr Hc.
  destruct (generateEmptyGrid_spec (numRows s) (numCols s))
    as (g & Hg & Hsh & Hempty & _); [lia|lia|].
  exists g. unfold handleReset. by rewrite Hg.
Qed.

(** ** Boards that stay as they are, and bounds *)

Lemma Forall_cell (P : value -> Prop) rows cols g i j :
  shaped rows cols g -> Forall (Forall P) g ->
  0 <= i < rows -> 0 <= j < cols -> P (cell_at g i j).
Proof.
  intros Hg HP Hi Hj.
  destruct (shaped_lookup _ _ _ _ Hg Hi) as (row & Hrow & Hlen).
  rewrite (cell_at_lookup _ _ _ _ (proj1 Hi) Hrow).
  unfold cell_of. rewrite js_get_Num by lia.
  destruct (lookup_lt_is_Some_2 row (Z.to_nat j)) as [v Hv]; [lia|].
  rewrite Hv. simpl.
  pose proof (Forall_lookup_1 _ _ _ _ HP Hrow) as Hrow'.
  exact (Forall_lookup_1 _ _ _ _ Hrow' Hv).
Qed.

Lemma all_empty_binary g : all_empty g -> binary g.
Proof.
  intros He. eapply Forall_impl; [exact He|]. intros row Hrow. simpl in *.
  eapply Forall_impl; [exact Hrow|]. intros v ->. by left.
Qed.

Lemma live_cells_all_empty g : all_empty g -> live_cells g = 0.
Proof.
  intros He. unfold live_cells.
  assert (Hc : Forall (fun v => v = Num 0) (concat g)) by by apply Forall_concat.
  induction Hc as [|v l -> _ IH]; [done|].
  by rewrite filter_cons_False by discriminate.
Qed.

Lemma length_concat_shaped rows cols (g : Grid) :
  shaped rows cols g -> Z.of_nat (length (concat g)) = rows * cols.
Proof.
  intros [Hlen Hrows]. subst rows.
  induction Hrows as [|row g Hrow _ IH]; simpl; [lia|].
  rewrite length_app. lia.
Qed.

Lemma live_cells_bounds rows cols g :
  shaped rows cols g -> 0 <= live_cells g <= rows * cols.
Proof.
  intros Hg. rewrite <- (length_concat_shaped rows cols g Hg).
  unfold live_cells. split; [lia|].
  apply inj_le. apply length_filter.
Qed.

Lemma torus_sum_bounds rows cols g i j :
  shaped rows cols g -> binary g -> 0 <= i < rows -> 0 <= j < cols ->
  0 <= torus_sum rows cols g i j <= 8.
Proof.
  intros Hg Hb Hi Hj. rewrite torus_sum_unfold.
  assert (H : forall dx dy,
    0 <= cellZ g ((i + dx + rows) `mod` rows) ((j + dy + cols) `mod` cols) <= 1).
  { intros dx dy. apply (cellZ_bit rows cols g); [done|done| |];
      apply Z.mod_pos_bound; lia. }
  pose proof (H 0 1). pose proof (H 0 (-1)). pose proof (H 1 0).
  pose proof (H (-1) 0). pose proof (H 1 1). pose proof (H 1 (-1)).
  pose proof (H (-1) 1). pose proof (H (-1) (-1)). lia.
Qed.

Lemma sumZ_le {A : Type} (f h : A -> Z) l :
  (forall x, x ∈ l -> f x <= h x) -> sumZ f l <= sumZ h l.
Proof.
  induction l as [|x l IH]; intros Hfh; simpl; [done|].
  assert (f x <= h x) by (apply Hfh; left).
  assert (sumZ f l <= sumZ h l) by (apply IH; intros; apply Hfh; by right).
  lia.
Qed.

(** The rule sets, on a live-neighbour count and a 0/1 cell. *)
Lemma highlife_or_conway n c :
  c = 0 ∨ c = 1 ->
  nextState HighLife (Num n) (Num c)
  = if decide (c = 0 ∧ n = 6) then Num 1 else nextState Conway (Num n) (Num c).
Proof.
  unfold nextState. simpl. unfold highlife, conway, strict_eq.
  intros [-> | ->]; case_decide as H.
  - destruct H as [_ ->]. done.
  - rewrite (proj2 (Z.eqb_neq n 6)) by tauto. simpl. by rewrite !orb_false_r.
  - lia.
  - simpl. by rewrite orb_false_r.
Qed.

Lemma dayAndNight_self_dual n c :
  0 <= n <= 8 -> c = 0 ∨ c = 1 ->
  nextState DayAndNight (Num (8 - n)) (Num (1 - c))
  = flip_cell (nextState DayAndNight (Num n) (Num c)).
Proof.
  intros Hn Hc.
  assert (Hcases : n = 0 ∨ n = 1 ∨ n = 2 ∨ n = 3 ∨ n = 4 ∨ n = 5
                   ∨ n = 6 ∨ n = 7 ∨ n = 8) by lia.
  destruct Hc as [-> | ->];
    repeat (destruct Hcases as [-> | Hcases]); try subst n; reflexivity.
Qed.

Lemma invert_shaped rows cols g : shaped rows cols g -> shaped rows cols (invert g).
Proof.
  intros [Hlen Hrows]. unfold invert. split; [by rewrite length_fmap|].
  apply Forall_fmap. eapply Forall_impl; [exact Hrows|].
  intros row Hrow. simpl. by rewrite length_fmap.
Qed.

Lemma invert_cell rows cols g i j :
  shaped rows cols g -> 0 <= i < rows -> 0 <= j < cols ->
  cell_at (invert g) i j = flip_cell (cell_at g i j).
Proof.
  intros Hg Hi Hj.
  destruct (shaped_lookup _ _ _ _ Hg Hi) as (row & Hrow & Hlen).
  destruct (lookup_lt_is_Some_2 row (Z.to_nat j)) as [v Hv]; [lia|].
  rewrite <- (Z2Nat.id i), <- (Z2Nat.id j) by lia.
  rewrite (cell_at_nat g _ _ row v Hrow Hv).
  apply (cell_at_nat (invert g) _ _ (flip_cell <$> row)).
  - unfold invert. by rewrite list_lookup_fmap, Hrow.
  - by rewrite list_lookup_fmap, Hv.
Qed.

Lemma invert_binary rows cols g :
  shaped rows cols g -> binary g -> binary (invert g).
Proof.
  intros Hg Hb. apply (Forall_cells _ rows cols); [by apply invert_shaped|].
  intros i j Hi Hj. rewrite (invert_cell rows cols) by done.
  destruct (binary_cell _ _ _ _ _ Hg Hb Hi Hj) as [-> | ->]; [by right|by left].
Qed.

Lemma cellZ_invert rows cols g i j :
  shaped rows cols g -> binary g -> 0 <= i < rows -> 0 <= j < cols ->
  cellZ (invert g) i j = 1 - cellZ g i j.
Proof.
  intros Hg Hb Hi Hj. unfold cellZ at 1.
  rewrite (invert_cell rows cols) by done.
  destruct (cellZ_bit _ _ _ _ _ Hg Hb Hi Hj) as [-> _]. done.
Qed.

Lemma torus_sum_invert rows cols g i j :
  shaped rows cols g -> binary g -> 0 <= i < rows -> 0 <= j < cols ->
  torus_sum rows cols (invert g) i j = 8 - torus_sum rows cols g i j.
Proof.
  intros Hg Hb Hi Hj. rewrite !torus_sum_unfold.
  rewrite !(cellZ_invert rows cols) by (done || apply Z.mod_pos_bound; lia).
  lia.
Qed.

Lemma live_cells_invert (g : Grid) :
  binary g -> live_cells (invert g) + live_cells g = Z.of_nat (length (concat g)).
Proof.
  intros Hb. unfold live_cells, invert.
  assert (Hrow : forall row : list value, Forall is_bit row ->
    (length (filter (fun v => v = Num 1) (flip_cell <$> row))
     + length (filter (fun v => v = Num 1) row) = length row)%nat).
  { intros row Hrow. induction Hrow as [|v row [-> | ->] _ IH]; [done| |].
    - rewrite fmap_cons.
      rewrite (filter_cons_True _ (flip_cell (Num 0))) by reflexivity.
      rewrite (filter_cons_False _ (Num 0)) by discriminate.
      simpl. lia.
    - rewrite fmap_cons.
      rewrite (filter_cons_False _ (flip_cell (Num 1))) by discriminate.
      rewrite (filter_cons_True _ (Num 1)) by reflexivity.
      simpl. lia. }
  induction Hb as [|row g Hbits _ IH]; csimpl; [done|].
  rewrite !filter_app, !length_app. specialize (Hrow row Hbits). lia.
Qed.

(** ** Clicks *)

Lemma covered_dec rows cols half i j a b :
  {covered rows cols half i j a b} + {~ covered rows cols half i j a b}.
Proof.
  set (span := seqZ (- half) (2 * half + 1)).
  assert (Hspan : forall x, x ∈ span <-> - half <= x <= half).
  { intros x. unfold span. rewrite elem_of_seqZ. lia. }
  destruct (decide (a ∈ (fun x => (i + x) `mod` rows) <$> span
                    ∧ b ∈ (fun y => (j + y) `mod` cols) <$> span)) as [Hin|Hout].
  - left. destruct Hin as [(x & -> & Hx)%list_elem_of_fmap
                             (y & -> & Hy)%list_elem_of_fmap].
    split; [exists x|exists y]; by rewrite <- Hspan.
  - right. intros [(x & Hx & ->) (y & Hy & ->)]. apply Hout.
    split; apply list_elem_of_fmap; [exists x|exists y]; by rewrite Hspan.
Qed.

(** A click whose brush stays within one turn of the torus. *)
Lemma handleCellClick_spec s i j g :
  grid s = Some g -> shaped (numRows s) (numCols s) g ->
  1 <= numRows s -> 1 <= numCols s ->
  brushSize s / 2 <= i + numRows s -> brushSize s / 2 <= j + numCols s ->
  exists g', handleCellClick i j s = Done (with_grid s (Some g'))
    ∧ shaped (numRows s) (numCols s) g'
    ∧ (forall a b, 0 <= a < numRows s -> 0 <= b < numCols s ->
         cell_at g' a b =
         if covered_dec (numRows s) (numCols s) (brushSize s / 2) i j a b
         then (if isEraser s then Num 0 else Num 1) else cell_at g a b)
    ∧ (binary g -> binary g').
Proof.
  intros Hgrid Hsh Hr Hc Hi Hj.
  destruct (paint_spec (numRows s) (numCols s) (brushSize s / 2)
              (if isEraser s then Num 0 else Num 1) i j g Hsh)
    as (g' & Hpaint & Hsh' & Hcells); [lia|lia|done|done|].
  assert (Hcells' : forall a b, 0 <= a < numRows s -> 0 <= b < numCols s ->
    cell_at g' a b =
    if covered_dec (numRows s) (numCols s) (brushSize s / 2) i j a b
    then (if isEraser s then Num 0 else Num 1) else cell_at g a b).
  { intros a b Ha Hb. destruct (Hcells a b Ha Hb) as [Hin Hout].
    destruct (covered_dec _ _ _ _ _ _ _); auto. }
  exists g'. unfold handleCellClick. rewrite Hgrid, Hpaint.
  split; [done|]. split; [done|]. split; [done|].
  intros Hbin. apply (Forall_cells _ (numRows s) (numCols s)); [done|].
  intros a b Ha Hb. rewrite Hcells' by done.
  destruct (covered_dec _ _ _ _ _ _ _).
  - destruct (isEraser s); [by left|by right].
  - by apply (binary_cell (numRows s) (numCols s)).
Qed.

(** ** Randomize *)

(** The element a counting loop is at is the number of elements before it. *)
Lemma seqZ_position n pre x post :
  seqZ 0 n = pre ++ x :: post -> x = Z.of_nat (length pre) ∧ 0 <= x < n.
Proof.
  intros Hl.
  assert (Hx : seqZ 0 n !! length pre = Some x)
    by (rewrite Hl; apply list_lookup_middle; done).
  apply lookup_seqZ in Hx. lia.
Qed.

Lemma randomFill_spec rows cols draws g :
  shaped rows cols g -> all_empty g -> 0 <= cols ->
  exists g' k, randomFill rows cols draws g = Ok (g', k)
    ∧ shaped rows cols g'
    ∧ (forall a b, 0 <= a < rows -> 0 <= b < cols ->
         cell_at g' a b = if draws (Z.to_nat (a * cols + b)) then Num 1 else Num 0)
    ∧ Z.of_nat k = Z.max 0 rows * cols.
Proof.
  intros Hg He Hc. unfold randomFill.
  set (bit := fun a b : Z => if draws (Z.to_nat (a * cols + b)) then Num 1 else Num 0).
  set (I := fun (x y : Z) (acc : Grid * nat) =>
    shaped rows cols acc.1
    ∧ (forall a b, 0 <= a < rows -> 0 <= b < cols ->
         cell_at acc.1 a b =
         if (a <? x) || ((a =? x) && (b <? y)) then bit a b else Num 0)
    ∧ Z.of_nat acc.2 = x * cols + y).
  destruct (for_each_inv
    (fun pre acc => I (Z.of_nat (length pre)) 0 acc)
    (fun acc i => for_each (fun acc j => randomCell draws i j acc)
                    (seqZ 0 cols) acc)
    (seqZ 0 rows) (g, O)) as ([g' k] & Hrun & Hsh & Hcells & Hk).
  - split; [done|]. split; [|simpl; lia]. intros a b Ha Hb.
    cbn [fst length]. change (Z.of_nat 0) with 0.
    destruct (Z.ltb_spec a 0); [lia|]. destruct (Z.ltb_spec b 0); [lia|].
    rewrite andb_false_r. simpl.
    apply (Forall_cell _ rows cols g a b Hg He Ha Hb).
  - intros pre x post acc Hl Hinv.
    destruct (seqZ_position _ _ _ _ Hl) as [Hx Hxr]. rewrite <- Hx in Hinv.
    destruct (for_each_inv
      (fun pre' acc => I x (Z.of_nat (length pre')) acc)
      (fun acc j => randomCell draws x j acc)
      (seqZ 0 cols) acc) as (acc' & Hrun' & Hsh' & Hcells' & Hk').
    + exact Hinv.
    + intros pre' y post' [g0 k0] Hl' (Hsh0 & Hcells0 & Hk0).
      destruct (seqZ_position _ _ _ _ Hl') as [Hy Hyc]. rewrite <- Hy in *.
      simpl in *. unfold randomCell.
      destruct (grid_set_shaped rows cols g0 x y
                  (if draws k0 then Num 1 else Num 0) Hsh0 Hxr Hyc)
        as (g1 & -> & Hsh1 & Hcells1).
      eexists. split; [done|]. rewrite length_app. simpl.
      split; [done|]. split; [|cbn [snd]; lia].
      cbn [fst]. intros a b Ha Hb. rewrite Hcells1, Hcells0 by done.
      case_decide as Hab.
      * destruct Hab as [-> ->]. unfold bit.
        replace (Z.to_nat (x * cols + y)) with k0 by lia.
        rewrite (proj2 (Z.ltb_ge x x)), (proj2 (Z.eqb_eq x x)) by lia.
        by rewrite (proj2 (Z.ltb_lt y _)) by lia.
      * destruct (Z.ltb_spec a x); [done|]. simpl.
        destruct (Z.eqb_spec a x); [|done]. simpl.
        destruct (Z.ltb_spec b y), (Z.ltb_spec b (Z.of_nat (length pre' + 1)));
          (done || lia).
    + exists acc'. split; [done|]. rewrite length_app. simpl.
      rewrite length_seqZ in *. split; [done|]. split; [|lia].
      intros a b Ha Hb. rewrite Hcells' by done.
      destruct (Z.ltb_spec a x), (Z.ltb_spec a (Z.of_nat (length pre + 1)));
        try lia; simpl; [done| |].
      * destruct (Z.eqb_spec a x); [|lia]. simpl.
        by rewrite (proj2 (Z.ltb_lt b _)) by lia.
      * destruct (Z.eqb_spec a x); [lia|]. simpl.
        destruct (Z.ltb_spec b 0); [lia|]. by rewrite andb_false_r.
  - rewrite length_seqZ in *. simpl in *.
    exists g', k. split; [done|]. split; [done|]. split; [|lia].
    intros a b Ha Hb. rewrite Hcells by done.
    by rewrite (proj2 (Z.ltb_lt a _)) by lia.
Qed.

Lemma handleRandomize_spec draws s :
  0 <= numRows s < 2 ^ 32 -> 0 <= numCols s < 2 ^ 32 ->
  exists g, handleRandomize draws s =
      Done (mkState (numRows s) (numCols s) (Some g) (running s) 0
              (brushSize s) (isEraser s) (simulationMode s) [])
    ∧ shaped (numRows s) (numCols s) g ∧ binary g
    ∧ (forall i j, 0 <= i < numRows s -> 0 <= j < numCols s ->
         cell_at g i j =
         if draws (Z.to_nat (i * numCols s + j)) then Num 1 else Num 0).
Proof.
  intros Hr Hc.
  destruct (generateEmptyGrid_spec (numRows s) (numCols s) Hr Hc)
    as (g0 & Hgen & Hsh0 & He0 & _).
  destruct (randomFill_spec (numRows s) (numCols s) draws g0 Hsh0 He0)
    as (g & k & Hfill & Hsh & Hcells & _); [lia|].
  exists g. unfold handleRandomize. rewrite Hgen, Hfill.
  split; [done|]. split; [done|]. split; [|done].
  apply (Forall_cells _ (numRows s) (numCols s)); [done|].
  intros i j Hi Hj. rewrite Hcells by done.
  destruct (draws _); [by right|by left].
Qed.

(** ** Patterns on any board *)

Lemma grid_set_length g ki kj v g' :
  grid_set g ki kj v = Ok g' -> length g' = length g.
Proof.
  unfold grid_set. destruct (index_of ki) as [n|]; [|done].
  destruct (g !! n); [|done]. intros [= <-]. apply length_insert.
Qed.

Lemma grid_set_missing_row g i kj v :
  ~ 0 <= i < Z.of_nat (length g) -> grid_set g (Num i) kj v = Throw TypeError.
Proof.
  intros Hi. unfold grid_set.
  destruct (Z.lt_ge_cases i 0); [by rewrite index_of_neg|].
  rewrite index_of_Num by done.
  by rewrite (lookup_ge_None_2 g (Z.to_nat i)) by lia.
Qed.

Lemma grid_set_raises g ki kj v e :
  grid_set g ki kj v = Throw e -> e = TypeError.
Proof.
  unfold grid_set. destruct (index_of ki) as [n|]; [|by intros [= <-]].
  destruct (g !! n); [done|by intros [= <-]].
Qed.

(** A pattern with a cell below the last row: the stamping raises. *)
Lemma stamp_missing_row rows cols cells g x y :
  (x, y) ∈ cells -> ~ 0 <= rows / 2 + x < Z.of_nat (length g) ->
  stamp rows cols cells g = Throw TypeError.
Proof.
  unfold stamp. revert g.
  induction cells as [|[x0 y0] cells IH]; intros g Hin Hrow.
  { by apply elem_of_nil in Hin. }
  cbn [for_each].
  destruct (grid_set g (Num (rows / 2 + x0)) (Num (cols / 2 + y0)) (Num 1))
    as [g1|e] eqn:Hset.
  - cbn [bind]. apply elem_of_cons in Hin as [[= -> ->]|Hin].
    + by rewrite grid_set_missing_row in Hset.
    + apply IH; [done|]. by rewrite (grid_set_length _ _ _ _ _ Hset).
  - cbn [bind]. by rewrite (grid_set_raises _ _ _ _ _ Hset).
Qed.

Lemma patterns_third_row name cells :
  patterns name = Some cells -> exists y, (2, y) ∈ cells.
Proof.
  destruct name; intros [= <-]; [exists 0|exists 1|exists 0]; set_solver.
Qed.

Lemma handlePatternSelect_fits name cells s :
  5 <= numRows s < 2 ^ 32 -> 7 <= numCols s < 2 ^ 32 ->
  patterns name = Some cells ->
  exists g, handlePatternSelect name s =
      Done (mkState (numRows s) (numCols s) (Some g) (running s) 0
              (brushSize s) (isEraser s) (simulationMode s) [])
    ∧ shaped (numRows s) (numCols s) g
    ∧ (forall a b, 0 <= a < numRows s -> 0 <= b < numCols s ->
         cell_at g a b =
         if decide ((a - numRows s / 2, b - numCols s / 2) ∈ cells)
         then Num 1 else Num 0).
Proof.
  intros Hr Hc Hname.
  destruct (generateEmptyGrid_spec (numRows s) (numCols s))
    as (g0 & Hgen & Hsh0 & _ & Hcells0); [lia|lia|].
  destruct (stamp_spec (numRows s) (numCols s) cells g0 Hsh0)
    as (g & Hstamp & Hsh & Hcells).
  { intros x y Hin. destruct (patterns_offsets _ _ _ _ Hname Hin).
    Z.div_mod_to_equations. lia. }
  exists g. unfold handlePatternSelect. rewrite Hgen, Hname, Hstamp.
  split; [done|]. split; [done|].
  intros a b Ha Hb. rewrite Hcells. case_decide; [done|]. by apply Hcells0.
Qed.

(** ** Paused engines *)

Lemma ticks_stopped n s : running s = false -> ticks n s = Done s.
Proof.
  intros Hstop. induction n as [|n IH]; [done|].
  simpl. unfold runSimulation. by rewrite Hstop.
Qed.

(** ** The page as a whole *)

Lemma initialState_inv : ui_inv initialState.
Proof.
  destruct (generateEmptyGrid_spec 50 50) as (g & Hgen & Hsh & He & _);
    [by_computation|by_computation|].
  unfold ui_inv, wf_state, initialState. rewrite Hgen. simpl.
  split; [|lia]. exists g. split; [done|]. split; [done|].
  by apply all_empty_binary.
Qed.

Lemma runSimulation_current s :
  runSimulation s = runSimulationOf (numRows s) (numCols s) (simulationMode s) s.
Proof. reflexivity. Qed.

(** A tick whose callback has the current dimensions, on a running
    well-formed engine. *)
Lemma runSimulationOf_running m s :
  wf_state s -> running s = true ->
  exists g', runSimulationOf (numRows s) (numCols s) m s =
    Done (mkState (numRows s) (numCols s) (Some g') true (generations s + 1)
            (brushSize s) (isEraser s) (simulationMode s)
            (record (population s) (Num (live_cells g'))))
    ∧ shaped (numRows s) (numCols s) g' ∧ binary g'.
Proof.
  intros (g & Hgrid & Hsh & Hbin) Hrun.
  destruct (step_full _ _ m g Hsh Hbin) as (g' & p & Hstep & Hsh' & Hbin' & _ & ->).
  exists g'. unfold runSimulationOf. rewrite Hrun, Hgrid, Hstep. done.
Qed.

(** Such a tick keeps the invariant. *)
Lemma runSimulationOf_inv m s :
  ui_inv s ->
  exists s', runSimulationOf (numRows s) (numCols s) m s = Done s' ∧ ui_inv s'.
Proof.
  intros (Hwf & Hr & Hc & Hb & Hlog).
  destruct (running s) eqn:Hrun.
  - destruct (runSimulationOf_running m s Hwf Hrun) as (g' & -> & Hsh & Hbin).
    eexists. split; [done|]. unfold ui_inv, wf_state. simpl.
    split; [by exists g'|]. repeat (split; [lia|]). apply length_record.
  - exists s. unfold runSimulationOf. rewrite Hrun. done.
Qed.

Lemma handleCellClick_inv s i j :
  ui_inv s -> 0 <= i < numRows s -> 0 <= j < numCols s ->
  exists s', handleCellClick i j s = Done s' ∧ ui_inv s'.
Proof.
  intros ((g & Hgrid & Hsh & Hbin) & Hr & Hc & Hb & Hlog) Hi Hj.
  destruct (handleCellClick_spec s i j g Hgrid Hsh) as (g' & -> & Hsh' & _ & Hbin');
    [lia|lia|Z.div_mod_to_equations; lia|Z.div_mod_to_equations; lia|].
  eexists. split; [done|]. unfold ui_inv, wf_state. simpl.
  split; [exists g'; auto|]. done.
Qed.

(** The handler of every offered action keeps the invariant, and it raises
    only where the menu's placeholder is selected or the file is not JSON. *)
Lemma handle_inv s a :
  ui_inv s -> offered s a ->
  ui_inv (state_after (handle a s))
  ∧ (handle a s = Done (state_after (handle a s))
     ∨ (a = PatternMenu no_pattern ∧ handle a s = Raised TypeError s)
     ∨ (a = LoadFile NotJson ∧ handle a s = Raised SyntaxError s)).
Proof.
  intros Hinv Hoff.
  pose proof Hinv as (Hwf & Hr & Hc & Hb & Hlog).
  destruct a as [|rows cols m0| |name| | |i j|buttons i j|b| |m|draws| |input];
    simpl in *.
  - (* Start/Pause *)
    unfold handleStartPause. destruct (running s) eqn:Hrun.
    + simpl. split; [|by left]. done.
    + destruct (runSimulationOf_inv (simulationMode s) (with_running s true))
        as (s' & Hrun' & Hinv'); [done|].
      change (runSimulation (with_running s true) = Done s') in Hrun'.
      rewrite Hrun'. simpl. split; [done|by left].
  - (* the timer *)
    destruct Hoff as [-> ->].
    destruct (runSimulationOf_inv m0 s Hinv) as (s' & -> & Hinv').
    simpl. split; [done|by left].
  - (* Reset *)
    destruct (generateEmptyGrid_spec (numRows s) (numCols s))
      as (g & Hgen & Hsh & He & _); [lia|lia|].
    unfold handleReset. rewrite Hgen. simpl. split; [|by left].
    unfold ui_inv, wf_state. simpl. split; [|lia].
    exists g. split; [done|]. split; [done|]. by apply all_empty_binary.
  - (* the pattern menu *)
    destruct (patterns name) as [cells|] eqn:Hname.
    + destruct (handlePatternSelect_spec name cells s Hr Hc Hname)
        as (g & -> & Hsh & Hcells).
      simpl. split; [|by left].
      unfold ui_inv, wf_state. simpl. split; [|lia].
      exists g. split; [done|]. split; [done|].
      apply (Forall_cells _ (numRows s) (numCols s)); [done|].
      intros a b Ha Hb'. rewrite Hcells by done.
      case_decide; [by right|by left].
    + destruct name; try discriminate Hname.
      destruct (generateEmptyGrid_spec (numRows s) (numCols s))
        as (g & Hgen & _); [lia|lia|].
      unfold handlePatternSelect. rewrite Hgen. simpl.
      split; [done|]. right. by left.
  - (* Plus *)
    destruct (generateEmptyGrid_spec (Z.max 10 (Z.min 100 (numRows s + 5)))
                (Z.max 10 (Z.min 100 (numCols s + 5))))
      as (g & Hgen & Hsh & He & _); [lia|lia|].
    unfold handleSizeChange. rewrite Hgen. simpl. split; [|by left].
    unfold ui_inv, wf_state. simpl. split; [|lia].
    exists g. split; [done|]. split; [done|]. by apply all_empty_binary.
  - (* Minus *)
    destruct (generateEmptyGrid_spec (Z.max 10 (Z.min 100 (numRows s + -5)))
                (Z.max 10 (Z.min 100 (numCols s + -5))))
      as (g & Hgen & Hsh & He & _); [lia|lia|].
    unfold handleSizeChange. rewrite Hgen. simpl. split; [|by left].
    unfold ui_inv, wf_state. simpl. split; [|lia].
    exists g. split; [done|]. split; [done|]. by apply all_empty_binary.
  - (* a click *)
    destruct Hoff as [Hi Hj].
    destruct (handleCellClick_inv s i j Hinv Hi Hj) as (s' & -> & Hinv').
    simpl. split; [done|by left].
  - (* the pointer enters a cell *)
    destruct Hoff as [Hi Hj]. unfold handleMouseEnter.
    destruct (buttons =? 1).
    + destruct (handleCellClick_inv s i j Hinv Hi Hj) as (s' & -> & Hinv').
      simpl. split; [done|by left].
    + simpl. split; [done|by left].
  - (* the brush slider *)
    split; [|by left]. done.
  - (* the eraser button *)
    split; [|by left]. done.
  - (* the mode menu *)
    split; [|by left]. done.
  - (* Randomize *)
    destruct (handleRandomize_spec draws s) as (g & -> & Hsh & Hbin & _);
      [lia|lia|].
    simpl. split; [|by left].
    unfold ui_inv, wf_state. simpl. split; [|lia]. by exists g.
  - (* Save *)
    split; [done|by left].
  - (* Load *)
    destruct input as [| |p]; simpl.
    + split; [done|by left].
    + split; [done|]. right. by right.
    + split; [|by left]. destruct Hoff as (Hvalid & Hpr & Hpc).
      unfold ui_inv, wf_state. simpl. done.
Qed.

(** No effect after an update that leaves the running flag, the dimensions
    and the rule set as they were. *)
Lemma useEffect_same s s' :
  running s' = running s -> numRows s' = numRows s -> numCols s' = numCols s ->
  simulationMode s' = simulationMode s ->
  useEffect s (Done s') = Done s'.
Proof.
  intros Hrun Hr Hc Hm. unfold useEffect, effectRuns.
  by rewrite !bool_decide_eq_true_2.
Qed.

Lemma running_board_inv : ui_inv (with_running small_board true).
Proof. split; [exact small_board_wf|]. simpl. lia. Defined.

(** The effect's tick keeps the invariant. *)
Lemma useEffect_inv s0 s :
  ui_inv s -> exists s', useEffect s0 (Done s) = Done s' ∧ ui_inv s'.
Proof.
  intros Hinv. unfold useEffect.
  destruct (effectRuns s0 s && running s); [|by exists s].
  rewrite runSimulation_current. by apply runSimulationOf_inv.
Qed.

(** Every offered action, handler and effect, keeps the invariant. *)
Lemma perform_inv s a :
  ui_inv s -> offered s a ->
  ui_inv (state_after (perform a s))
  ∧ (perform a s = Done (state_after (perform a s))
     ∨ (a = PatternMenu no_pattern ∧ perform a s = Raised TypeError s)
     ∨ (a = LoadFile NotJson ∧ perform a s = Raised SyntaxError s)).
Proof.
  intros Hinv Hoff. unfold perform.
  destruct (handle_inv s a Hinv Hoff) as [Hinv' [Hdone|[[-> Hr]|[-> Hr]]]].
  - rewrite Hdone.
    destruct (useEffect_inv s _ Hinv') as (s' & -> & Hinv''). simpl.
    split; [done|by left].
  - rewrite Hr. simpl. split; [done|]. right. by left.
  - rewrite Hr. simpl. split; [done|]. right. by right.
Qed.

Lemma reachable_inv s : reachable s -> ui_inv s.
Proof.
  induction 1 as [|s a _ IH Hoff]; [apply initialState_inv|].
  by apply perform_inv.
Qed.

(** ** After a truncated file *)

(** A loop raises when one of its elements always does and the body
    raises nothing but TypeErrors. *)
Lemma for_each_raises {A B : Type} (f : A -> B -> result A) l x0 a :
  (forall a0 x e, f a0 x = Throw e -> e = TypeError) ->
  x0 ∈ l -> (forall a0, f a0 x0 = Throw TypeError) ->
  for_each f l a = Throw TypeError.
Proof.
  intros Honly Hin Hx0. revert a.
  induction l as [|x l IH]; intros a; [by apply elem_of_nil in Hin|].
  cbn [for_each]. destruct (f a x) as [a1|e] eqn:Hf; cbn [bind].
  - apply elem_of_cons in Hin as [->|Hin]; [by rewrite Hx0 in Hf|by apply IH].
  - by rewrite (Honly _ _ _ Hf).
Qed.

Lemma countNeighbors_missing_rows numRows numCols (g : Grid) :
  1 <= numCols -> Z.of_nat (length g) < numRows ->
  countNeighbors numRows numCols g 0 0 = Throw TypeError.
Proof.
  intros Hc Hlen. unfold countNeighbors.
  apply (for_each_raises _ _ (-1, 1)).
  - intros n [x y] e. unfold row_of.
    destruct (js_get g _); [done|]. by intros [= <-].
  - unfold operations. set_solver.
  - intros n. unfold js_rem.
    rewrite (proj2 (Z.eqb_neq numRows 0)) by lia.
    rewrite Z.rem_small by lia. unfold row_of.
    rewrite js_get_Num by lia.
    by rewrite lookup_ge_None_2 by lia.
Qed.

Lemma step_missing_rows numRows numCols m (g : Grid) :
  1 <= numCols -> Z.of_nat (length g) < numRows ->
  step numRows numCols m g = Throw TypeError.
Proof.
  intros Hc Hlen. unfold step.
  rewrite (seqZ_cons 0 numRows) by lia. cbn [for_each].
  rewrite (seqZ_cons 0 numCols) by lia. cbn [for_each].
  unfold updateCell at 1.
  by rewrite countNeighbors_missing_rows.
Qed.

(** ** The chart and the status line *)

Lemma lookup_pops n s k :
  (k < n)%nat -> pops n s !! k = Some (population_of (ticks (S k) s)).
Proof.
  intros Hk. unfold pops. rewrite list_lookup_fmap.
  by rewrite lookup_seq_lt by done.
Qed.

Lemma length_pops n s : length (pops n s) = n.
Proof. unfold pops. by rewrite length_fmap, length_seq. Qed.

Lemma record_last pop v : last (record pop v) = Some v.
Proof. unfold record. apply last_snoc. Qed.

Lemma shownPopulation_last s z :
  last (population s) = Some (Num z) -> shownPopulation s = Num z.
Proof.
  intros Hlast. unfold shownPopulation, cell_of.
  assert (Hlen : (0 < length (population s))%nat).
  { destruct (population s); [done|simpl; lia]. }
  rewrite js_get_Num by lia.
  rewrite last_lookup in Hlast.
  replace (Z.to_nat (Z.of_nat (length (population s)) - 1))
    with (Nat.pred (length (population s))) by lia.
  rewrite Hlast. simpl. by destruct (Z.eqb_spec z 0) as [->|].
Qed.

Lemma live_cells_pos rows cols g i j :
  shaped rows cols g -> 0 <= i < rows -> 0 <= j < cols ->
  cell_at g i j = Num 1 -> 0 < live_cells g.
Proof.
  intros Hg Hi Hj Hcell.
  destruct (shaped_lookup _ _ _ _ Hg Hi) as (row & Hrow & Hlen).
  rewrite (cell_at_lookup _ _ _ _ (proj1 Hi) Hrow) in Hcell.
  unfold cell_of in Hcell. rewrite js_get_Num in Hcell by lia.
  destruct (row !! Z.to_nat j) as [v|] eqn:Hv; [|done]. simpl in Hcell. subst v.
  assert (Hin : Num 1 ∈ filter (fun v => v = Num 1) (concat g)).
  { apply list_elem_of_filter. split; [done|].
    apply list_elem_of_In, in_concat. exists row.
    split; apply list_elem_of_In; eapply list_elem_of_lookup_2; eauto. }
  unfold live_cells. destruct (filter _ _); [by apply elem_of_nil in Hin|].
  simpl. lia.
Qed.

(** ** Patterns in the middle of a board *)

Lemma pattern_at_shift cells cx cy p q :
  pattern_at cells cx cy (cx + p) (cy + q) = pattern_at cells 0 0 p q.
Proof.
  unfold pattern_at. induction cells as [|[x y] cells IH]; [done|].
  cbn [existsb]. rewrite IH. f_equal. f_equal.
  - destruct (Z.eqb_spec (cx + p) (cx + x)), (Z.eqb_spec p (0 + x)); (done || lia).
  - destruct (Z.eqb_spec (cy + q) (cy + y)), (Z.eqb_spec q (0 + y)); (done || lia).
Qed.

Lemma pattern_at_outside cells cx cy a b :
  boxed cells = true ->
  ~ (cx <= a <= cx + 3 ∧ cy <= b <= cy + 3) ->
  pattern_at cells cx cy a b = false.
Proof.
  unfold pattern_at, boxed. intros Hbox Hout.
  induction cells as [|[x y] cells IH]; [done|].
  cbn [existsb forallb] in *.
  apply andb_prop in Hbox as [Hxy Hbox]. rewrite IH by done.
  rewrite orb_false_r.
  destruct (Z.eqb_spec a (cx + x)); [|done].
  destruct (Z.eqb_spec b (cy + y)); [|done].
  exfalso. apply Hout.
  apply andb_prop in Hxy as [Hxy Hy3]. apply andb_prop in Hxy as [Hxy Hy0].
  apply andb_prop in Hxy as [Hx0 Hx3].
  apply Z.leb_le in Hx0, Hx3, Hy0, Hy3. lia.
Qed.

Lemma pattern_at_elem cells cx cy a b :
  (if decide ((a - cx, b - cy) ∈ cells) then Num 1 else Num 0)
  = Num (bitZ (pattern_at cells cx cy a b)).
Proof.
  unfold pattern_at. induction cells as [|[x y] cells IH].
  - rewrite decide_False; [done|]. apply not_elem_of_nil.
  - cbn [existsb].
    destruct (Z.eqb_spec a (cx + x)) as [Ha|Ha];
      [destruct (Z.eqb_spec b (cy + y)) as [Hb|Hb]|]; cbn [andb orb].
    + rewrite decide_True; [done|].
      replace (a - cx) with x by lia. replace (b - cy) with y by lia. left.
    + rewrite <- IH. apply decide_ext. rewrite elem_of_cons.
      split; [intros [[= ? ?]|?]; [lia|done]|by right].
    + rewrite <- IH. apply decide_ext. rewrite elem_of_cons.
      split; [intros [[= ? ?]|?]; [lia|done]|by right].
Qed.

(** Away from the border the torus looks like the plane to a boxed
    pattern: wrapping a neighbour's coordinates changes nothing. *)
Lemma pattern_at_wrapped cells rows cols cx cy a b dx dy :
  boxed cells = true ->
  5 <= cx -> cx + 5 <= rows -> 5 <= cy -> cy + 5 <= cols ->
  0 <= a < rows -> 0 <= b < cols -> -1 <= dx <= 1 -> -1 <= dy <= 1 ->
  pattern_at cells cx cy ((a + dx + rows) `mod` rows) ((b + dy + cols) `mod` cols)
  = pattern_at cells cx cy (a + dx) (b + dy).
Proof.
  intros Hbox Hcx Hcx' Hcy Hcy' Ha Hb Hdx Hdy.
  rewrite !wrap_cases by lia.
  destruct (Z.ltb_spec (a + dx) 0); [|destruct (Z.leb_spec rows (a + dx))];
    try (rewrite !pattern_at_outside by (done || lia); done).
  destruct (Z.ltb_spec (b + dy) 0); [|destruct (Z.leb_spec cols (b + dy))];
    try (rewrite !pattern_at_outside by (done || lia); done).
  done.
Qed.

Lemma neighborhood_near dx dy :
  (dx, dy) ∈ neighborhood -> -1 <= dx <= 1 ∧ -1 <= dy <= 1.
Proof.
  unfold neighborhood. intros Hin.
  repeat (apply elem_of_cons in Hin as [[= -> ->]|Hin]; [lia|]).
  by apply elem_of_nil in Hin.
Qed.

(** One Conway generation of a boxed pattern in the middle of a board. *)
Lemma conway_phase cells cells' rows cols cx cy a b :
  boxed cells = true -> boxed cells' = true ->
  turns_into cells cells' = true ->
  5 <= cx -> cx + 5 <= rows -> 5 <= cy -> cy + 5 <= cols ->
  0 <= a < rows -> 0 <= b < cols ->
  nextState Conway
    (Num (table_sum rows cols (fun x y => bitZ (pattern_at cells cx cy x y)) a b))
    (Num (bitZ (pattern_at cells cx cy a b)))
  = Num (bitZ (pattern_at cells' cx cy a b)).
Proof.
  intros Hbox Hbox' Hturn Hcx Hcx' Hcy Hcy' Ha Hb.
  assert (Hsum : table_sum rows cols (fun x y => bitZ (pattern_at cells cx cy x y)) a b
                 = plain_sum (fun x y => bitZ (pattern_at cells cx cy x y)) a b).
  { unfold table_sum, plain_sum. apply sumZ_ext. intros [dx dy] Hin.
    destruct (neighborhood_near dx dy Hin).
    by rewrite pattern_at_wrapped. }
  rewrite Hsum.
  destruct (decide (cx - 1 <= a <= cx + 4 ∧ cy - 1 <= b <= cy + 4)) as [Hnear|Hfar].
  - replace a with (cx + (a - cx)) by lia. replace b with (cy + (b - cy)) by lia.
    set (u := a - cx). set (v := b - cy).
    assert (Hplain : plain_sum (fun x y => bitZ (pattern_at cells cx cy x y))
                       (cx + u) (cy + v)
                     = plain_sum (fun x y => bitZ (pattern_at cells 0 0 x y)) u v).
    { unfold plain_sum. apply sumZ_ext. intros [dx dy] _.
      by rewrite <- !Z.add_assoc, pattern_at_shift. }
    rewrite Hplain, !pattern_at_shift.
    unfold turns_into in Hturn.
    rewrite forallb_forall in Hturn.
    assert (Hu : In u (seqZ (-1) 6)).
    { apply list_elem_of_In, elem_of_seqZ. unfold u. lia. }
    specialize (Hturn u Hu). rewrite forallb_forall in Hturn.
    assert (Hv : In v (seqZ (-1) 6)).
    { apply list_elem_of_In, elem_of_seqZ. unfold v. lia. }
    specialize (Hturn v Hv). by apply bool_decide_eq_true in Hturn.
  - assert (Hzero : plain_sum (fun x y => bitZ (pattern_at cells cx cy x y)) a b
                    = sumZ (fun _ => 0) neighborhood).
    { unfold plain_sum. apply sumZ_ext. intros [dx dy] Hin.
      destruct (neighborhood_near dx dy Hin).
      by rewrite pattern_at_outside by (done || lia). }
    rewrite Hzero.
    by rewrite !pattern_at_outside by (done || lia).
Qed.

(** The same, as a step of the engine on a board that holds the pattern. *)
Lemma step_phase cells cells' rows cols g :
  boxed cells = true -> boxed cells' = true ->
  turns_into cells cells' = true ->
  10 <= rows -> 10 <= cols -> shaped rows cols g ->
  (forall a b, 0 <= a < rows -> 0 <= b < cols ->
     cell_at g a b = Num (bitZ (pattern_at cells (rows / 2) (cols / 2) a b))) ->
  exists g' p, step rows cols Conway g = Ok (g', Num p)
    ∧ shaped rows cols g'
    ∧ (forall a b, 0 <= a < rows -> 0 <= b < cols ->
         cell_at g' a b
         = Num (bitZ (pattern_at cells' (rows / 2) (cols / 2) a b))).
Proof.
  intros Hbox Hbox' Hturn Hr Hc Hsh Hcells.
  assert (Hbin : binary g).
  { apply (Forall_cells _ rows cols); [done|]. intros a b Ha Hb.
    rewrite Hcells by done. apply bitZ_bit. }
  destruct (step_full rows cols Conway g Hsh Hbin)
    as (g' & p & Hstep & Hsh' & _ & Hcells' & _).
  exists g', p. split; [done|]. split; [done|].
  intros a b Ha Hb. rewrite Hcells' by done.
  rewrite (next_cell_table rows cols Conway g
             (fun x y => bitZ (pattern_at cells (rows / 2) (cols / 2) x y)))
    by (done || lia).
  apply conway_phase; try done; Z.div_mod_to_equations; lia.
Qed.

Lemma pattern_at_moved cells cx cy a b :
  pattern_at ((fun '(x, y) => (x + 1, y + 1)) <$> cells) cx cy a b
  = pattern_at cells (cx + 1) (cy + 1) a b.
Proof.
  unfold pattern_at. induction cells as [|[x y] cells IH]; [done|].
  rewrite fmap_cons. cbn [existsb]. rewrite IH. f_equal. f_equal.
  - destruct (Z.eqb_spec a (cx + (x + 1))), (Z.eqb_spec a (cx + 1 + x));
      (done || lia).
  - destruct (Z.eqb_spec b (cy + (y + 1))), (Z.eqb_spec b (cy + 1 + y));
      (done || lia).
Qed.

Lemma toad_turns :
  turns_into [(1, 1); (1, 2); (1, 3); (2, 0); (2, 1); (2, 2)] toad_turned = true.
Proof. vm_compute. reflexivity. Qed.

Lemma toad_turns_back :
  turns_into toad_turned [(1, 1); (1, 2); (1, 3); (2, 0); (2, 1); (2, 2)] = true.
Proof. vm_compute. reflexivity. Qed.

Lemma glider_turns n :
  (n < 4)%nat -> turns_into (glider_phase n) (glider_phase (S n)) = true.
Proof.
  intros Hn. do 4 (destruct n as [|n]; [vm_compute; reflexivity|]). lia.
Qed.

(** ** Counting generations *)

Lemma ticks_state n s :
  wf_state s -> running s = true ->
  exists s', ticks n s = Done s' ∧ wf_state s' ∧ running s' = true
    ∧ numRows s' = numRows s ∧ numCols s' = numCols s
    ∧ simulationMode s' = simulationMode s
    ∧ brushSize s' = brushSize s ∧ isEraser s' = isEraser s
    ∧ generations s' = generations s + Z.of_nat n.
Proof.
  intros Hwf Hrun. induction n as [|n IH].
  - exists s. simpl. repeat (split; [done|]). lia.
  - destruct IH as (sn & Hticks & Hwfn & Hrunn & Hr & Hc & Hm & Hb & He & Hg).
    destruct (runSimulation_running sn Hwfn Hrunn) as (g' & Hstep & Hsh & Hbin & _).
    eexists. rewrite ticks_S_end, Hticks, Hstep.
    split; [done|]. simpl. split; [by exists g'|].
    repeat (split; [done|]). lia.
Qed.

(** ** The effect *)

(** An empty board stays empty, with population 0. *)
Lemma step_all_empty rows cols m g :
  shaped rows cols g -> all_empty g -> step rows cols m g = Ok (g, Num 0).
Proof.
  intros Hg He. pose proof (all_empty_binary g He) as Hb.
  destruct (step_full rows cols m g Hg Hb)
    as (g' & p & -> & Hsh & _ & Hcells & ->).
  assert (g' = g) as ->.
  { apply (grid_ext rows cols); [done|done|]. intros i j Hi Hj.
    rewrite Hcells by done.
    rewrite (next_cell_table rows cols m g (fun _ _ => 0)); try lia.
    - rewrite (Forall_cell _ rows cols g i j Hg He Hi Hj).
      by destruct m.
    - intros x y Hx Hy. apply (Forall_cell _ rows cols g x y Hg He Hx Hy). }
  by rewrite live_cells_all_empty.
Qed.

Lemma effectRuns_false s s' :
  effectRuns s s' = false
  <-> running s' = running s ∧ numRows s' = numRows s
      ∧ numCols s' = numCols s ∧ simulationMode s' = simulationMode s.
Proof.
  unfold effectRuns. rewrite !orb_false_iff, !negb_false_iff.
  rewrite !bool_decide_eq_true. tauto.
Qed.

Lemma effectRuns_true s s' :
  running s' <> running s ∨ numRows s' <> numRows s
  ∨ numCols s' <> numCols s ∨ simulationMode s' <> simulationMode s ->
  effectRuns s s' = true.
Proof.
  intros H. apply not_false_iff_true. rewrite effectRuns_false. tauto.
Qed.

(** The size buttons never fail to build their grid. *)
Lemma handleSizeChange_done dr dc s :
  exists g, handleSizeChange dr dc s =
      Done (mkState (Z.max 10 (Z.min 100 (numRows s + dr)))
              (Z.max 10 (Z.min 100 (numCols s + dc))) (Some g) (running s)
              0 (brushSize s) (isEraser s) (simulationMode s) [])
    ∧ shaped (Z.max 10 (Z.min 100 (numRows s + dr)))
        (Z.max 10 (Z.min 100 (numCols s + dc))) g
    ∧ all_empty g.
Proof.
  destruct (generateEmptyGrid_spec (Z.max 10 (Z.min 100 (numRows s + dr)))
              (Z.max 10 (Z.min 100 (numCols s + dc))))
    as (g & Hgen & Hsh & He & _); [lia|lia|].
  exists g. unfold handleSizeChange. by rewrite Hgen.
Qed.

(** A handler that raises leaves the effect nothing to react to. *)
Lemma raised_keeps_dependencies a s e s' :
  handle a s = Raised e s' ->
  running s' = running s ∧ numRows s' = numRows s
  ∧ numCols s' = numCols s ∧ simulationMode s' = simulationMode s.
Proof.
  assert (Htick : forall rows cols m s0,
    runSimulationOf rows cols m s0 = Raised e s' -> False).
  { intros rows cols m s0. unfold runSimulationOf.
    destruct (negb (running s0)); [done|].
    destruct (grid s0) as [g|]; [|done].
    by destruct (step rows cols m g) as [[? ?]|]. }
  assert (Hclick : forall i j,
    handleCellClick i j s = Raised e s' ->
    running s' = running s ∧ numRows s' = numRows s
    ∧ numCols s' = numCols s ∧ simulationMode s' = simulationMode s).
  { intros i j. unfold handleCellClick.
    destruct (grid s) as [g|]; [|by intros [= _ <-]].
    destruct (paint _ _ _ _ _ _ g) as [g' [e'|]]; [|done].
    by intros [= _ <-]. }
  assert (Hsize : forall dr dc, handleSizeChange dr dc s = Raised e s' -> False).
  { intros dr dc. by destruct (handleSizeChange_done dr dc s) as (g & -> & _). }
  destruct a as [|rows cols m0| |name| | |i j|buttons i j|b| |m|draws| |input];
    cbn [handle].
  - unfold handleStartPause. destruct (running s); [done|].
    rewrite runSimulation_current. intros H. by destruct (Htick _ _ _ _ H).
  - intros H. by destruct (Htick _ _ _ _ H).
  - unfold handleReset.
    destruct (generateEmptyGrid _ _); [done|]. by intros [= _ <-].
  - unfold handlePatternSelect.
    destruct (generateEmptyGrid _ _) as [g|]; [|by intros [= _ <-]].
    destruct (patterns name) as [cells|]; [|by intros [= _ <-]].
    destruct (stamp _ _ _ _); [done|]. by intros [= _ <-].
  - intros H. by destruct (Hsize _ _ H).
  - intros H. by destruct (Hsize _ _ H).
  - apply Hclick.
  - unfold handleMouseEnter. destruct (buttons =? 1); [apply Hclick|done].
  - done.
  - done.
  - done.
  - unfold handleRandomize.
    destruct (generateEmptyGrid _ _) as [g|]; [|by intros [= _ <-]].
    destruct (randomFill _ _ _ _) as [[? ?]|]; [done|]. by intros [= _ <-].
  - done.
  - destruct input; [done| |done]. by intros [= _ <-].
Qed.

(** The effect's tick on a running, well-formed board. *)
Lemma useEffect_tick s0 s :
  wf_state s -> running s = true -> effectRuns s0 s = true ->
  exists g', useEffect s0 (Done s) =
    Done (mkState (numRows s) (numCols s) (Some g') true (generations s + 1)
            (brushSize s) (isEraser s) (simulationMode s)
            (record (population s) (Num (live_cells g'))))
    ∧ shaped (numRows s) (numCols s) g' ∧ binary g'
    ∧ (forall g, grid s = Some g ->
         step (numRows s) (numCols s) (simulationMode s) g
         = Ok (g', Num (live_cells g'))).
Proof.
  intros (g & Hgrid & Hsh & Hbin) Hrun Heff.
  destruct (step_full _ _ (simulationMode s) g Hsh Hbin)
    as (g' & p & Hstep & Hsh' & Hbin' & _ & ->).
  exists g'. unfold useEffect, runSimulation.
  rewrite Heff, Hrun, Hgrid, Hstep. simpl.
  split; [done|]. split; [done|]. split; [done|].
  intros g0 [= <-]. exact Hstep.
Qed.

Lemma useEffect_idle s0 s :
  effectRuns s0 s = false ∨ running s = false -> useEffect s0 (Done s) = Done s.
Proof.
  intros [H|H]; unfold useEffect; rewrite H; [done|].
  by rewrite andb_false_r.
Qed.

(** * The specification, claim by claim *)

(** ** Rule sets *)

(** C5: each named rule set equals its defining formula for every
    neighbour count in [0,8] and cell in {0,1}: [conway] gives 1 iff n = 3
    or (c = 1 and n = 2); [highlife] gives 1 iff [conway] does or (c = 0 and
    n = 6); [dayAndNight] gives 1 iff n is in {3,6,7,8} or (c = 1 and n is in
    {3,4,6,7,8}).  In particular conway(2,1) = 1, conway(3,0) = 1,
    conway(4,1) = 0 and conway(0,0) = 0. *)
Theorem rule_sets_match_formulas (n c : Z) :
  0 <= n <= 8 -> c = 0 ∨ c = 1 ->
  (nextState Conway (Num n) (Num c) = Num 1 <-> n = 3 ∨ (c = 1 ∧ n = 2))
  ∧ (nextState HighLife (Num n) (Num c) = Num 1
     <-> nextState Conway (Num n) (Num c) = Num 1 ∨ (c = 0 ∧ n = 6))
  ∧ (nextState DayAndNight (Num n) (Num c) = Num 1
     <-> (n = 3 ∨ n = 6 ∨ n = 7 ∨ n = 8)
         ∨ (c = 1 ∧ (n = 3 ∨ n = 4 ∨ n = 6 ∨ n = 7 ∨ n = 8)))
  ∧ nextState Conway (Num 2) (Num 1) = Num 1
  ∧ nextState Conway (Num 3) (Num 0) = Num 1
  ∧ nextState Conway (Num 4) (Num 1) = Num 0
  ∧ nextState Conway (Num 0) (Num 0) = Num 0.
Proof.
  intros Hn Hc.
  assert (Hcases : n = 0 ∨ n = 1 ∨ n = 2 ∨ n = 3 ∨ n = 4 ∨ n = 5
                   ∨ n = 6 ∨ n = 7 ∨ n = 8) by lia.
  repeat split; try reflexivity;
    destruct Hc as [-> | ->];
    repeat (destruct Hcases as [-> | Hcases]); try subst n;
    vm_compute; intuition (discriminate || lia).
Qed.

Lemma rule_sets_match_formulas_witness :
  nextState DayAndNight (Num 4) (Num 1) = Num 1
  <-> (4 = 3 ∨ 4 = 6 ∨ 4 = 7 ∨ 4 = 8)
      ∨ (1 = 1 ∧ (4 = 3 ∨ 4 = 4 ∨ 4 = 6 ∨ 4 = 7 ∨ 4 = 8)).
Proof.
  apply (rule_sets_match_formulas 4 1); [lia | by right].
Defined.

(** C2, as stated, fails: with two live neighbours a live cell survives
    under [conway] and dies under [dayAndNight], although 2 is outside
    {3,6,7,8}. *)
Lemma dayAndNight_differs_from_conway :
  0 <= 2 <= 8 ∧ (2 <> 3 ∧ 2 <> 6 ∧ 2 <> 7 ∧ 2 <> 8)
  ∧ conway (Num 2) (Num 1) = true
  ∧ dayAndNight (Num 2) (Num 1) = false
  ∧ dayAndNight (Num 2) (Num 1) <> conway (Num 2) (Num 1).
Proof. repeat split; (lia || discriminate || reflexivity). Qed.

(** C2, amended: for every neighbour count in [0,8] and cell in {0,1},
    [highlife] agrees with [conway] when the count is not 6, and
    [dayAndNight] agrees with [conway] when the count is not in {3,6,7,8}
    and the cell is not a live cell with 2 or 4 neighbours. *)
Theorem rule_sets_agree_outside_extensions (n c : Z) :
  0 <= n <= 8 -> c = 0 ∨ c = 1 ->
  (n <> 6 -> highlife (Num n) (Num c) = conway (Num n) (Num c))
  ∧ (n <> 3 ∧ n <> 6 ∧ n <> 7 ∧ n <> 8 -> ~ (c = 1 ∧ (n = 2 ∨ n = 4)) ->
     dayAndNight (Num n) (Num c) = conway (Num n) (Num c)).
Proof.
  intros Hn Hc.
  assert (Hcases : n = 0 ∨ n = 1 ∨ n = 2 ∨ n = 3 ∨ n = 4 ∨ n = 5
                   ∨ n = 6 ∨ n = 7 ∨ n = 8) by lia.
  split; intros; destruct Hc as [-> | ->];
    repeat (destruct Hcases as [-> | Hcases]); try subst n;
    try reflexivity; exfalso; intuition lia.
Qed.

Lemma rule_sets_agree_outside_extensions_witness :
  highlife (Num 5) (Num 1) = conway (Num 5) (Num 1)
  ∧ dayAndNight (Num 5) (Num 1) = conway (Num 5) (Num 1).
Proof.
  destruct (rule_sets_agree_outside_extensions 5 1) as [Hh Hd];
    [lia | by right |].
  split; [apply Hh; lia | apply Hd; lia].
Defined.

(** ** The step *)

(** C4: for rows >= 1 and cols >= 1, every valid cell (i, j) and every
    offset dx, dy in {-1,0,1}, the wrapped indices [(i+dx+rows) % rows] and
    [(j+dy+cols) % cols] are numbers within [0,rows) and [0,cols); so in a
    grid of that shape the row and the cell the step reads there exist. *)
Theorem wrapped_indices_in_bounds (rows cols i j dx dy : Z) (g : Grid) :
  1 <= rows -> 1 <= cols -> 0 <= i < rows -> 0 <= j < cols ->
  -1 <= dx <= 1 -> -1 <= dy <= 1 -> shaped rows cols g ->
  exists a b row v,
    js_rem (i + dx + rows) rows = Num a ∧ 0 <= a < rows
    ∧ js_rem (j + dy + cols) cols = Num b ∧ 0 <= b < cols
    ∧ row_of g (js_rem (i + dx + rows) rows) = Ok row
    ∧ js_get row (js_rem (j + dy + cols) cols) = Some v.
Proof.
  intros Hr Hc Hi Hj Hdx Hdy Hg.
  pose proof (Z.mod_pos_bound (i + dx + rows) rows ltac:(lia)) as Ha.
  pose proof (Z.mod_pos_bound (j + dy + cols) cols ltac:(lia)) as Hb.
  destruct (row_of_shaped _ _ _ _ Hg Ha) as (row & Hrow & _ & Hlen).
  destruct (lookup_lt_is_Some_2 row (Z.to_nat ((j + dy + cols) `mod` cols)))
    as [v Hv]; [lia|].
  exists ((i + dx + rows) `mod` rows), ((j + dy + cols) `mod` cols), row, v.
  rewrite !js_rem_mod by lia.
  rewrite js_get_Num by lia. done.
Qed.

Lemma wrapped_indices_in_bounds_witness :
  exists a b row v,
    js_rem (0 + -1 + 2) 2 = Num a ∧ 0 <= a < 2
    ∧ js_rem (2 + 1 + 3) 3 = Num b ∧ 0 <= b < 3
    ∧ row_of [[Num 0; Num 1; Num 0]; [Num 1; Num 1; Num 0]]
        (js_rem (0 + -1 + 2) 2) = Ok row
    ∧ js_get row (js_rem (2 + 1 + 3) 3) = Some v.
Proof.
  apply (wrapped_indices_in_bounds 2 3 0 2 (-1) 1); try lia.
  split; [reflexivity|]. repeat constructor.
Defined.

(** C3: for every rectangular rows x cols grid with entries in {0,1} and
    every rule set, one step returns a new rows x cols grid of 0/1 entries
    whose value at (i, j) is the rule applied to n and the old value at
    (i, j), where n is the sum of the 8 neighbours of the old grid at the
    toroidally wrapped coordinates; and the population it reports is the
    number of live cells of the new grid. *)
Theorem step_correct (rows cols : Z) (m : Mode) (g : Grid) :
  shaped rows cols g -> binary g ->
  exists g' p, step rows cols m g = Ok (g', Num p)
    ∧ shaped rows cols g' ∧ binary g'
    ∧ (forall i j, 0 <= i < rows -> 0 <= j < cols ->
         cell_at g' i j
         = nextState m (Num (torus_sum rows cols g i j)) (cell_at g i j))
    ∧ p = live_cells g'.
Proof. apply step_full. Qed.

Lemma step_correct_witness :
  exists g' p, step 3 3 Conway small_grid = Ok (g', Num p)
    ∧ shaped 3 3 g' ∧ binary g'
    ∧ (forall i j, 0 <= i < 3 -> 0 <= j < 3 ->
         cell_at g' i j
         = nextState Conway (Num (torus_sum 3 3 small_grid i j))
             (cell_at small_grid i j))
    ∧ p = live_cells g'.
Proof.
  apply (step_correct 3 3 Conway small_grid);
    unfold shaped, binary, small_grid; by_inspection.
Defined.

(** ** The population log *)

(** C7: after any number of ticks the log holds at most 100 samples; each
    record appends at the tail and drops from the head when the length
    would exceed 100; so the log is the last-100 window of everything
    recorded, and after 150 ticks from an empty log it is exactly the
    populations of generations 51 to 150, in chronological order. *)
Theorem history_keeps_last_100 (s : State) (n : nat) :
  wf_state s -> running s = true -> (length (population s) <= 100)%nat ->
  (forall pop v,
     (length (record pop v) <= 100)%nat
     ∧ record pop v =
       if (length pop <? 100)%nat then pop ++ [v]
       else drop (length pop - 99) pop ++ [v])
  ∧ (exists s', ticks n s = Done s'
       ∧ (length (population s') <= 100)%nat
       ∧ population s' = last_n 100 (population s ++ pops n s))
  ∧ (population s = [] ->
     exists s', ticks 150 s = Done s'
       ∧ length (population s') = 100%nat
       ∧ population s' = drop 50 (pops 150 s)).
Proof.
  intros Hwf Hrun Hlen. split; [|split].
  - intros pop v. split; [apply length_record|].
    unfold record. rewrite js_slice_last.
    destruct (Nat.ltb_spec (length pop) 100); [|done].
    by replace (length pop - 99)%nat with 0%nat by lia.
  - destruct (ticks_running n s Hwf Hrun Hlen) as (s' & -> & _ & _ & _ & _ & _ & _ & Hpop).
    exists s'. split; [done|]. split; [|done].
    rewrite Hpop, length_last_n. lia.
  - intros Hempty.
    destruct (ticks_running 150 s Hwf Hrun Hlen) as (s' & -> & _ & _ & _ & _ & _ & _ & Hpop).
    exists s'. split; [done|]. rewrite Hpop, Hempty, app_nil_l.
    assert (Hl : length (pops 150 s) = 150%nat).
    { unfold pops. by rewrite length_fmap, length_seq. }
    split.
    + rewrite length_last_n, Hl. done.
    + unfold last_n. by rewrite Hl.
Qed.

Lemma history_keeps_last_100_witness :
  exists s', ticks 2 small_state = Done s'
    ∧ (length (population s') <= 100)%nat
    ∧ population s' = last_n 100 (population small_state ++ pops 2 small_state).
Proof.
  apply (history_keeps_last_100 small_state 2);
    [exact small_state_wf | reflexivity | simpl; lia].
Defined.

(** ** Resize *)

(** C8: resize clamps each new dimension to [10,100] and always produces
    an all-empty grid of the new size with generation 0 and an empty log,
    whatever the grid held before; so from a 50 x 50 grid in any
    configuration, resize(+5,+5) followed by resize(-5,-5) yields a 50 x 50
    all-empty grid. *)
Theorem resize_clamps_and_clears (s : State) (rowChange colChange : Z) :
  (exists s' g, handleSizeChange rowChange colChange s = Done s'
     ∧ numRows s' = Z.max 10 (Z.min 100 (numRows s + rowChange))
     ∧ numCols s' = Z.max 10 (Z.min 100 (numCols s + colChange))
     ∧ 10 <= numRows s' <= 100 ∧ 10 <= numCols s' <= 100
     ∧ grid s' = Some g ∧ shaped (numRows s') (numCols s') g ∧ all_empty g
     ∧ generations s' = 0 ∧ population s' = [])
  ∧ (numRows s = 50 -> numCols s = 50 ->
     exists s1 s2 g, handleSizeChange 5 5 s = Done s1
       ∧ handleSizeChange (-5) (-5) s1 = Done s2
       ∧ numRows s2 = 50 ∧ numCols s2 = 50
       ∧ grid s2 = Some g ∧ shaped 50 50 g ∧ all_empty g
       ∧ generations s2 = 0 ∧ population s2 = []).
Proof.
  assert (Hgen : forall s0 dr dc, exists s' g,
    handleSizeChange dr dc s0 = Done s'
    ∧ numRows s' = Z.max 10 (Z.min 100 (numRows s0 + dr))
    ∧ numCols s' = Z.max 10 (Z.min 100 (numCols s0 + dc))
    ∧ grid s' = Some g ∧ shaped (numRows s') (numCols s') g ∧ all_empty g
    ∧ generations s' = 0 ∧ population s' = []).
  { intros s0 dr dc.
    destruct (generateEmptyGrid_spec (Z.max 10 (Z.min 100 (numRows s0 + dr)))
                (Z.max 10 (Z.min 100 (numCols s0 + dc))))
      as (g & Hg & Hsh & Hempty & _); [lia|lia|].
    eexists _, g. unfold handleSizeChange. rewrite Hg. simpl. done. }
  split.
  - destruct (Hgen s rowChange colChange)
      as (s' & g & Hrun & Hr & Hc & Hgrid & Hsh & Hempty & Hg0 & Hpop).
    exists s', g. rewrite Hr, Hc in *. repeat (split; [done || lia|]). done.
  - intros Hr Hc.
    destruct (Hgen s 5 5) as (s1 & g1 & Hrun1 & Hr1 & Hc1 & _).
    destruct (Hgen s1 (-5) (-5))
      as (s2 & g2 & Hrun2 & Hr2 & Hc2 & Hgrid & Hsh & Hempty & Hg0 & Hpop).
    assert (numRows s2 = 50) as Hr50 by lia.
    assert (numCols s2 = 50) as Hc50 by lia.
    rewrite Hr50, Hc50 in Hsh.
    exists s1, s2, g2. done.
Qed.

Lemma resize_clamps_and_clears_witness :
  exists s1 s2 g, handleSizeChange 5 5 painted_state = Done s1
    ∧ handleSizeChange (-5) (-5) s1 = Done s2
    ∧ numRows s2 = 50 ∧ numCols s2 = 50
    ∧ grid s2 = Some g ∧ shaped 50 50 g ∧ all_empty g
    ∧ generations s2 = 0 ∧ population s2 = [].
Proof.
  apply (resize_clamps_and_clears painted_state 0 0); reflexivity.
Defined.

(** ** Patterns *)

(** C10: for all dimensions rows, cols in [10,100] and each named pattern
    (glider, blinker, toad), every stamped index (floor(rows/2) + dr,
    floor(cols/2) + dc) lies inside the grid; so loading the pattern
    completes without a write outside the grid: the result keeps the shape
    rows x cols. *)
Theorem pattern_stamps_in_bounds (s : State) (name : PatternName)
    (cells : list (Z * Z)) :
  10 <= numRows s <= 100 -> 10 <= numCols s <= 100 ->
  patterns name = Some cells ->
  (forall dr dc, (dr, dc) ∈ cells ->
     0 <= numRows s / 2 + dr < numRows s ∧ 0 <= numCols s / 2 + dc < numCols s)
  ∧ exists s' g, handlePatternSelect name s = Done s'
      ∧ grid s' = Some g ∧ shaped (numRows s) (numCols s) g
      ∧ numRows s' = numRows s ∧ numCols s' = numCols s.
Proof.
  intros Hr Hc Hname. split.
  - intros dr dc Hin. destruct (patterns_offsets _ _ _ _ Hname Hin).
    Z.div_mod_to_equations. lia.
  - destruct (handlePatternSelect_spec name cells s Hr Hc Hname)
      as (g & Hrun & Hsh & _).
    eexists _, g. rewrite Hrun. done.
Qed.

Lemma pattern_stamps_in_bounds_witness :
  exists s' g, handlePatternSelect toad painted_state = Done s'
    ∧ grid s' = Some g ∧ shaped 50 50 g
    ∧ numRows s' = 50 ∧ numCols s' = 50.
Proof.
  apply (pattern_stamps_in_bounds painted_state toad
           [(1, 1); (1, 2); (1, 3); (2, 0); (2, 1); (2, 2)]);
    [simpl; lia | simpl; lia | reflexivity].
Defined.

(** ** Load *)

(** C1, as stated, fails: a record whose grid has a row of the wrong length
    is not rejected; its grid, generation counter and dimensions are
    installed. *)
Lemma load_accepts_jagged_grid :
  ~ valid_payload jagged_payload
  ∧ handleLoad (Json jagged_payload) small_state
    = Done (mkState 2 2 (Some [[Num 0; Num 1]; [Num 1]]) true 7 1 false Conway [])
  ∧ Some [[Num 0; Num 1]; [Num 1]] <> grid small_state.
Proof.
  split; [|split; [reflexivity|discriminate]].
  intros (g & [= <-] & [_ Hrows] & _).
  apply Forall_cons in Hrows as [_ Hrows].
  apply Forall_cons in Hrows as [Hrow _]. discriminate Hrow.
Qed.

(** C1, amended: load validates nothing.  Text that is not JSON is refused
    with the state unchanged; every parsed record, well-formed or not,
    replaces grid, generation counter and dimensions together by its
    [grid], [generations], [numRows] and [numCols]; after a well-formed
    record the state is well-formed. *)
Theorem load_installs_payload (s : State) (p : Payload) :
  handleLoad NotJson s = Raised SyntaxError s
  ∧ exists s', handleLoad (Json p) s = Done s'
      ∧ grid s' = p_grid p
      ∧ generations s' = p_generations p
      ∧ numRows s' = p_numRows p
      ∧ numCols s' = p_numCols p
      ∧ running s' = running s
      ∧ (valid_payload p <-> wf_state s').
Proof.
  split; [done|]. eexists. split; [done|]. simpl.
  repeat (split; [done|]). unfold valid_payload, wf_state. simpl. done.
Qed.

(** ** The blinker *)

(** C6: for all dimensions in [10,100], stamping the blinker
    [[0,1],[1,1],[2,1]] on the empty grid (the vertical line of three cells
    below the centre column) and stepping once under [conway] yields the
    same line turned by 90 degrees, and stepping twice returns exactly the
    stamped grid. *)
Theorem blinker_has_period_2 (s : State) :
  10 <= numRows s <= 100 -> 10 <= numCols s <= 100 ->
  exists s0 g0 g1 p1 p2,
    handlePatternSelect blinker s = Done s0 ∧ grid s0 = Some g0
    ∧ (forall a b, 0 <= a < numRows s -> 0 <= b < numCols s ->
         cell_at g0 a b
         = Num (bitZ (vertical_line (numRows s / 2) (numCols s / 2) a b)))
    ∧ step (numRows s) (numCols s) Conway g0 = Ok (g1, p1)
    ∧ shaped (numRows s) (numCols s) g1
    ∧ (forall a b, 0 <= a < numRows s -> 0 <= b < numCols s ->
         cell_at g1 a b
         = Num (bitZ (horizontal_line (numRows s / 2) (numCols s / 2) a b)))
    ∧ step (numRows s) (numCols s) Conway g1 = Ok (g0, p2).
Proof.
  intros Hr Hc.
  set (rows := numRows s) in *. set (cols := numCols s) in *.
  assert (Hcx : 5 <= rows / 2 ∧ rows / 2 + 5 <= rows)
    by (Z.div_mod_to_equations; lia).
  assert (Hcy : 5 <= cols / 2 ∧ cols / 2 + 5 <= cols)
    by (Z.div_mod_to_equations; lia).
  destruct (handlePatternSelect_spec blinker _ s Hr Hc eq_refl)
    as (g0 & Hsel & Hsh0 & Hcells0).
  fold rows cols in Hsel, Hsh0, Hcells0.
  assert (Hv : forall a b, 0 <= a < rows -> 0 <= b < cols ->
            cell_at g0 a b = Num (bitZ (vertical_line (rows / 2) (cols / 2) a b))).
  { intros a b Ha Hb. rewrite Hcells0 by done. apply blinker_cells. }
  assert (Hbin0 : binary g0).
  { apply (Forall_cells _ rows cols); [done|]. intros a b Ha Hb.
    rewrite Hv by done. apply bitZ_bit. }
  destruct (step_full rows cols Conway g0 Hsh0 Hbin0)
    as (g1 & p1 & Hstep1 & Hsh1 & Hbin1 & Hcells1 & _).
  assert (Hh : forall a b, 0 <= a < rows -> 0 <= b < cols ->
            cell_at g1 a b = Num (bitZ (horizontal_line (rows / 2) (cols / 2) a b))).
  { intros a b Ha Hb. rewrite Hcells1 by done.
    rewrite (next_cell_table rows cols Conway g0
               (fun x y => bitZ (vertical_line (rows / 2) (cols / 2) x y)))
      by (done || lia).
    apply conway_turns_vertical; lia. }
  destruct (step_full rows cols Conway g1 Hsh1 Hbin1)
    as (g2 & p2 & Hstep2 & Hsh2 & _ & Hcells2 & _).
  assert (g2 = g0) as ->.
  { apply (grid_ext rows cols); [done|done|]. intros a b Ha Hb.
    rewrite Hcells2, Hv by done.
    rewrite (next_cell_table rows cols Conway g1
               (fun x y => bitZ (horizontal_line (rows / 2) (cols / 2) x y)))
      by (done || lia).
    apply conway_turns_horizontal; lia. }
  eexists _, g0, g1, (Num p1), (Num p2).
  split; [exact Hsel|]. simpl. done.
Qed.

Lemma blinker_has_period_2_witness :
  exists s0 g0 g1 p1 p2,
    handlePatternSelect blinker small_board = Done s0 ∧ grid s0 = Some g0
    ∧ (forall a b, 0 <= a < 10 -> 0 <= b < 10 ->
         cell_at g0 a b = Num (bitZ (vertical_line 5 5 a b)))
    ∧ step 10 10 Conway g0 = Ok (g1, p1)
    ∧ shaped 10 10 g1
    ∧ (forall a b, 0 <= a < 10 -> 0 <= b < 10 ->
         cell_at g1 a b = Num (bitZ (horizontal_line 5 5 a b)))
    ∧ step 10 10 Conway g1 = Ok (g0, p2).
Proof.
  apply (blinker_has_period_2 small_board); simpl; lia.
Defined.

(** ** The brush *)

(** C9: for every rows x cols grid, every centre (row, col) on it, every
    brush size the page can set (the slider runs from 1 to 5) and every
    eraser flag, the edit sets exactly the cells at toroidally wrapped
    coordinates within floor(brushSize/2) of the centre in each axis to 1
    (painting) or 0 (erasing) and leaves every other cell, the generation
    counter and the log unchanged, whether the engine is running or
    stopped; no tick follows the edit. *)
Theorem brush_paints_wrapped_square (s : State) (i j : Z) (g : Grid) :
  grid s = Some g -> shaped (numRows s) (numCols s) g ->
  0 <= i < numRows s -> 0 <= j < numCols s ->
  1 <= brushSize s <= 5 ->
  exists s' g', handleCellClick i j s = Done s'
    ∧ perform (MouseDown i j) s = Done s'
    ∧ grid s' = Some g' ∧ shaped (numRows s) (numCols s) g'
    ∧ (forall a b, 0 <= a < numRows s -> 0 <= b < numCols s ->
         (covered (numRows s) (numCols s) (brushSize s / 2) i j a b ->
          cell_at g' a b = if isEraser s then Num 0 else Num 1)
         ∧ (~ covered (numRows s) (numCols s) (brushSize s / 2) i j a b ->
            cell_at g' a b = cell_at g a b))
    ∧ generations s' = generations s ∧ population s' = population s
    ∧ running s' = running s
    ∧ numRows s' = numRows s ∧ numCols s' = numCols s.
Proof.
  intros Hgrid Hsh Hi Hj Hb.
  destruct (paint_wrapped (numRows s) (numCols s) (brushSize s / 2)
              (if isEraser s then Num 0 else Num 1) i j g Hsh)
    as (g' & Hpaint & Hsh' & Hcells);
    [lia | lia | Z.div_mod_to_equations; lia | Z.div_mod_to_equations; lia |].
  exists (with_grid s (Some g')), g'.
  assert (Hclick : handleCellClick i j s = Done (with_grid s (Some g'))).
  { unfold handleCellClick. by rewrite Hgrid, Hpaint. }
  split; [exact Hclick|]. split.
  - unfold perform. cbn [handle]. rewrite Hclick.
    by rewrite useEffect_same.
  - simpl. done.
Qed.

Lemma brush_paints_wrapped_square_witness :
  exists s' g',
    handleCellClick 0 0 (mkState 3 3 (Some small_grid) true 0 5 false Conway [])
    = Done s'
    ∧ perform (MouseDown 0 0)
        (mkState 3 3 (Some small_grid) true 0 5 false Conway []) = Done s'
    ∧ grid s' = Some g' ∧ shaped 3 3 g'
    ∧ (forall a b, 0 <= a < 3 -> 0 <= b < 3 ->
         (covered 3 3 (5 / 2) 0 0 a b -> cell_at g' a b = Num 1)
         ∧ (~ covered 3 3 (5 / 2) 0 0 a b -> cell_at g' a b = cell_at small_grid a b))
    ∧ generations s' = 0 ∧ population s' = []
    ∧ running s' = true
    ∧ numRows s' = 3 ∧ numCols s' = 3.
Proof.
  apply (brush_paints_wrapped_square
           (mkState 3 3 (Some small_grid) true 0 5 false Conway []) 0 0 small_grid);
    [reflexivity | unfold shaped; by_inspection | by_computation ..].
Defined.

(** * Further properties of the engine *)

(** ** Steps *)

(** X1: an empty board is a fixed point of the step under every rule set,
    whatever its size: the step returns the same board and population 0. *)
Theorem empty_board_is_still (rows cols : Z) (m : Mode) (g : Grid) :
  shaped rows cols g -> all_empty g -> step rows cols m g = Ok (g, Num 0).
Proof. apply step_all_empty. Qed.

Lemma empty_board_is_still_witness :
  step 2 3 DayAndNight [[Num 0; Num 0; Num 0]; [Num 0; Num 0; Num 0]]
  = Ok ([[Num 0; Num 0; Num 0]; [Num 0; Num 0; Num 0]], Num 0).
Proof.
  apply (empty_board_is_still 2 3 DayAndNight);
    unfold shaped, all_empty; by_inspection.
Defined.

(** X2: on a rows x cols board of 0/1 cells the population a step reports
    is an integer between 0 and rows * cols. *)
Theorem population_sample_bounds (rows cols : Z) (m : Mode) (g : Grid) :
  shaped rows cols g -> binary g ->
  exists g' p, step rows cols m g = Ok (g', Num p) ∧ 0 <= p <= rows * cols.
Proof.
  intros Hg Hb.
  destruct (step_full rows cols m g Hg Hb) as (g' & p & -> & Hsh & _ & _ & ->).
  exists g', (live_cells g'). split; [done|]. by apply live_cells_bounds.
Qed.

Lemma population_sample_bounds_witness :
  exists g' p, step 3 3 HighLife small_grid = Ok (g', Num p) ∧ 0 <= p <= 3 * 3.
Proof.
  apply (population_sample_bounds 3 3 HighLife small_grid);
    unfold shaped, binary, small_grid; by_inspection.
Defined.

(** X3: from the same board, the HighLife step equals the Conway step
    except at the dead cells with exactly six live neighbours, which are
    born; so it never reports a smaller population. *)
Theorem highlife_step_extends_conway (rows cols : Z) (g : Grid) :
  shaped rows cols g -> binary g ->
  exists gc pc gh ph,
    step rows cols Conway g = Ok (gc, Num pc)
    ∧ step rows cols HighLife g = Ok (gh, Num ph)
    ∧ (forall i j, 0 <= i < rows -> 0 <= j < cols ->
         cell_at gh i j =
         if decide (cell_at g i j = Num 0 ∧ torus_sum rows cols g i j = 6)
         then Num 1 else cell_at gc i j)
    ∧ pc <= ph.
Proof.
  intros Hg Hb.
  destruct (step_cells rows cols Conway g Hg Hb) as (gc & pc & -> & _ & Hc & ->).
  destruct (step_cells rows cols HighLife g Hg Hb) as (gh & ph & -> & _ & Hh & ->).
  assert (Hrel : forall i j, 0 <= i < rows -> 0 <= j < cols ->
    next_cell rows cols HighLife g i j =
    if decide (cell_at g i j = Num 0 ∧ torus_sum rows cols g i j = 6)
    then Num 1 else next_cell rows cols Conway g i j).
  { intros i j Hi Hj. unfold next_cell.
    destruct (cellZ_bit _ _ _ _ _ Hg Hb Hi Hj) as [Hcell Hbit]. rewrite Hcell.
    rewrite highlife_or_conway by lia.
    apply decide_ext. split; [intros [-> ->]; done|]. intros [[= ->] ->]. done. }
  eexists _, _, _, _. split; [done|]. split; [done|]. split.
  - intros i j Hi Hj. rewrite Hh, Hc by done. by apply Hrel.
  - apply sumZ_le. intros i Hi%elem_of_seqZ.
    apply sumZ_le. intros j Hj%elem_of_seqZ.
    unfold next_bit. rewrite Hrel by lia. case_decide; [|lia].
    destruct (next_cell_bit rows cols Conway g i j) as [Heq Hle].
    unfold next_bit in Hle. lia.
Qed.

Lemma highlife_step_extends_conway_witness :
  exists gc pc gh ph,
    step 3 3 Conway small_grid = Ok (gc, Num pc)
    ∧ step 3 3 HighLife small_grid = Ok (gh, Num ph)
    ∧ (forall i j, 0 <= i < 3 -> 0 <= j < 3 ->
         cell_at gh i j =
         if decide (cell_at small_grid i j = Num 0
                    ∧ torus_sum 3 3 small_grid i j = 6)
         then Num 1 else cell_at gc i j)
    ∧ pc <= ph.
Proof.
  apply (highlife_step_extends_conway 3 3 small_grid);
    unfold shaped, binary, small_grid; by_inspection.
Defined.

(** X4: Day & Night treats live and dead cells alike: inverting every cell
    of a board before a step gives the inverted result of the step, and the
    two populations add up to the number of cells. *)
Theorem dayAndNight_commutes_with_invert (rows cols : Z) (g : Grid) :
  shaped rows cols g -> binary g ->
  exists g' p q,
    step rows cols DayAndNight g = Ok (g', Num p)
    ∧ step rows cols DayAndNight (invert g) = Ok (invert g', Num q)
    ∧ p + q = rows * cols.
Proof.
  intros Hg Hb.
  destruct (step_full rows cols DayAndNight g Hg Hb)
    as (g' & p & -> & Hsh & Hb' & Hcells & ->).
  destruct (step_full rows cols DayAndNight (invert g)
              (invert_shaped _ _ _ Hg) (invert_binary _ _ _ Hg Hb))
    as (g2 & q & -> & Hsh2 & _ & Hcells2 & ->).
  assert (g2 = invert g') as ->.
  { apply (grid_ext rows cols); [done|by apply invert_shaped|].
    intros i j Hi Hj.
    rewrite Hcells2, (invert_cell rows cols g'), Hcells by done.
    unfold next_cell.
    rewrite (torus_sum_invert rows cols), (invert_cell rows cols g) by done.
    destruct (cellZ_bit _ _ _ _ _ Hg Hb Hi Hj) as [-> Hbit]. simpl.
    apply dayAndNight_self_dual; [|lia].
    by apply (torus_sum_bounds rows cols). }
  exists g', (live_cells g'), (live_cells (invert g')).
  split; [done|]. split; [done|].
  rewrite <- (length_concat_shaped rows cols g' Hsh).
  pose proof (live_cells_invert g' Hb'). lia.
Qed.

Lemma dayAndNight_commutes_with_invert_witness :
  exists g' p q,
    step 3 3 DayAndNight small_grid = Ok (g', Num p)
    ∧ step 3 3 DayAndNight (invert small_grid) = Ok (invert g', Num q)
    ∧ p + q = 3 * 3.
Proof.
  apply (dayAndNight_commutes_with_invert 3 3 small_grid);
    unfold shaped, binary, small_grid; by_inspection.
Defined.

(** ** Edits *)

(** X5: painting is idempotent and does not depend on the order of the
    clicks: with the brush and the eraser flag unchanged, clicking a cell
    twice gives the state of clicking it once, and clicking two cells in
    either order gives the same state. *)
Theorem clicks_commute (s : State) (g : Grid) (i1 j1 i2 j2 : Z) :
  grid s = Some g -> shaped (numRows s) (numCols s) g ->
  1 <= numRows s -> 1 <= numCols s ->
  brushSize s / 2 <= i1 + numRows s -> brushSize s / 2 <= j1 + numCols s ->
  brushSize s / 2 <= i2 + numRows s -> brushSize s / 2 <= j2 + numCols s ->
  exists s1 s2 s12,
    handleCellClick i1 j1 s = Done s1
    ∧ handleCellClick i2 j2 s = Done s2
    ∧ handleCellClick i1 j1 s1 = Done s1
    ∧ handleCellClick i2 j2 s1 = Done s12
    ∧ handleCellClick i1 j1 s2 = Done s12.
Proof.
  intros Hgrid Hsh Hr Hc Hi1 Hj1 Hi2 Hj2.
  destruct (handleCellClick_spec s i1 j1 g Hgrid Hsh Hr Hc Hi1 Hj1)
    as (g1 & Hrun1 & Hsh1 & Hcells1 & _).
  destruct (handleCellClick_spec s i2 j2 g Hgrid Hsh Hr Hc Hi2 Hj2)
    as (g2 & Hrun2 & Hsh2 & Hcells2 & _).
  destruct (handleCellClick_spec (with_grid s (Some g1)) i1 j1 g1 eq_refl
              Hsh1 Hr Hc Hi1 Hj1) as (g11 & Hrun11 & Hsh11 & Hcells11 & _).
  destruct (handleCellClick_spec (with_grid s (Some g1)) i2 j2 g1 eq_refl
              Hsh1 Hr Hc Hi2 Hj2) as (g12 & Hrun12 & Hsh12 & Hcells12 & _).
  destruct (handleCellClick_spec (with_grid s (Some g2)) i1 j1 g2 eq_refl
              Hsh2 Hr Hc Hi1 Hj1) as (g21 & Hrun21 & Hsh21 & Hcells21 & _).
  simpl in *.
  assert (g11 = g1) as ->.
  { apply (grid_ext (numRows s) (numCols s)); [done|done|].
    intros a b Ha Hb. rewrite Hcells11, Hcells1 by done.
    by destruct (covered_dec _ _ _ _ _ _ _). }
  assert (g21 = g12) as ->.
  { apply (grid_ext (numRows s) (numCols s)); [done|done|].
    intros a b Ha Hb. rewrite Hcells21, Hcells12, Hcells1, Hcells2 by done.
    by repeat destruct (covered_dec _ _ _ _ _ _ _). }
  eexists _, _, _. rewrite Hrun1, Hrun2, Hrun11, Hrun12, Hrun21. done.
Qed.

Lemma clicks_commute_witness :
  exists s1 s2 s12,
    handleCellClick 0 0 small_state = Done s1
    ∧ handleCellClick 2 1 small_state = Done s2
    ∧ handleCellClick 0 0 s1 = Done s1
    ∧ handleCellClick 2 1 s1 = Done s12
    ∧ handleCellClick 0 0 s2 = Done s12.
Proof.
  apply (clicks_commute small_state small_grid 0 0 2 1);
    [reflexivity | unfold shaped; by_inspection | vm_compute; discriminate ..].
Defined.

(** X6: Randomize replaces the board by one of the same size in which cell
    (i, j) is live exactly when the draw number i * numCols + j exceeded
    0.7 (one draw per cell, row by row); it resets the generation counter
    and the log and keeps the running flag. *)
Theorem randomize_fills_row_by_row (draws : nat -> bool) (s : State) :
  0 <= numRows s < 2 ^ 32 -> 0 <= numCols s < 2 ^ 32 ->
  exists s' g, handleRandomize draws s = Done s'
    ∧ grid s' = Some g ∧ shaped (numRows s) (numCols s) g ∧ binary g
    ∧ (forall i j, 0 <= i < numRows s -> 0 <= j < numCols s ->
         cell_at g i j =
         if draws (Z.to_nat (i * numCols s + j)) then Num 1 else Num 0)
    ∧ numRows s' = numRows s ∧ numCols s' = numCols s
    ∧ generations s' = 0 ∧ population s' = [] ∧ running s' = running s.
Proof.
  intros Hr Hc.
  destruct (handleRandomize_spec draws s Hr Hc) as (g & -> & Hsh & Hb & Hcells).
  eexists _, g. split; [done|]. simpl. done.
Qed.

Lemma randomize_fills_row_by_row_witness :
  exists s' g, handleRandomize Nat.even small_state = Done s'
    ∧ grid s' = Some g ∧ shaped 3 3 g ∧ binary g
    ∧ (forall i j, 0 <= i < 3 -> 0 <= j < 3 ->
         cell_at g i j =
         if Nat.even (Z.to_nat (i * 3 + j)) then Num 1 else Num 0)
    ∧ numRows s' = 3 ∧ numCols s' = 3
    ∧ generations s' = 0 ∧ population s' = [] ∧ running s' = true.
Proof.
  apply (randomize_fills_row_by_row Nat.even small_state);
    by_computation.
Defined.

(** ** Patterns, reset and resize *)

(** X7: on a board of at least 5 rows and 7 columns every named pattern is
    stamped whole: exactly its cells, offset from the centre, are live, the
    generation counter is 0 and the log empty.  On a board of at most 4 rows
    selecting a named pattern raises a TypeError and changes nothing, and so
    does selecting the menu's placeholder on any board. *)
Theorem pattern_menu_outcomes (s : State) (name : PatternName)
    (cells : list (Z * Z)) :
  0 <= numRows s < 2 ^ 32 -> 0 <= numCols s < 2 ^ 32 ->
  patterns name = Some cells ->
  (5 <= numRows s -> 7 <= numCols s ->
   exists s' g, handlePatternSelect name s = Done s'
     ∧ grid s' = Some g ∧ shaped (numRows s) (numCols s) g
     ∧ (forall a b, 0 <= a < numRows s -> 0 <= b < numCols s ->
          cell_at g a b =
          if decide ((a - numRows s / 2, b - numCols s / 2) ∈ cells)
          then Num 1 else Num 0)
     ∧ generations s' = 0 ∧ population s' = [] ∧ running s' = running s)
  ∧ (numRows s <= 4 -> handlePatternSelect name s = Raised TypeError s)
  ∧ handlePatternSelect no_pattern s = Raised TypeError s.
Proof.
  intros Hr Hc Hname. split; [|split].
  - intros Hr5 Hc7.
    destruct (handlePatternSelect_fits name cells s) as (g & -> & Hsh & Hcells);
      [lia|lia|done|].
    eexists _, g. split; [done|]. simpl. done.
  - intros Hr4.
    destruct (generateEmptyGrid_spec (numRows s) (numCols s) Hr Hc)
      as (g0 & Hgen & [Hlen _] & _).
    destruct (patterns_third_row name cells Hname) as [y Hy].
    unfold handlePatternSelect. rewrite Hgen, Hname.
    rewrite (stamp_missing_row _ _ cells g0 2 y Hy); [done|].
    rewrite Hlen. Z.div_mod_to_equations. lia.
  - destruct (generateEmptyGrid_spec (numRows s) (numCols s) Hr Hc)
      as (g0 & Hgen & _).
    unfold handlePatternSelect. by rewrite Hgen.
Qed.

Lemma pattern_menu_outcomes_witness :
  handlePatternSelect glider small_state = Raised TypeError small_state.
Proof.
  destruct (pattern_menu_outcomes small_state glider
              [(0, 1); (1, 2); (2, 0); (2, 1); (2, 2)]) as (_ & Hsmall & _);
    [by_computation .. | reflexivity |].
  apply Hsmall. by_computation.
Defined.

(** X8: Reset stops the engine and installs an empty board of the current
    size with generation 0 and an empty log, whatever the board held; with
    a negative row count (which only a loaded file can bring) it raises a
    RangeError and changes nothing. *)
Theorem reset_outcomes (s : State) :
  (0 <= numRows s < 2 ^ 32 -> 0 <= numCols s < 2 ^ 32 ->
   exists s' g, handleReset s = Done s'
     ∧ grid s' = Some g ∧ shaped (numRows s) (numCols s) g ∧ all_empty g
     ∧ numRows s' = numRows s ∧ numCols s' = numCols s
     ∧ running s' = false ∧ generations s' = 0 ∧ population s' = [])
  ∧ (numRows s < 0 -> handleReset s = Raised RangeError s).
Proof.
  split.
  - intros Hr Hc.
    destruct (generateEmptyGrid_spec (numRows s) (numCols s) Hr Hc)
      as (g & Hgen & Hsh & He & _).
    eexists _, g. unfold handleReset. rewrite Hgen. split; [done|]. simpl. done.
  - intros Hneg. unfold handleReset, generateEmptyGrid, js_Array.
    by rewrite (proj2 (Z.ltb_lt (numRows s) 0)) by done.
Qed.

Lemma reset_outcomes_witness :
  exists s' g, handleReset small_state = Done s'
    ∧ grid s' = Some g ∧ shaped 3 3 g ∧ all_empty g
    ∧ numRows s' = 3 ∧ numCols s' = 3
    ∧ running s' = false ∧ generations s' = 0 ∧ population s' = [].
Proof.
  destruct (reset_outcomes small_state) as [Hok _].
  apply Hok; by_computation.
Defined.

(** X9: the size buttons undo each other only away from the limits: from
    dimensions within [10,100], Plus then Minus ends at min(d, 95) and
    Minus then Plus at max(d, 15), for the rows and for the columns. *)
Theorem size_buttons_round_trip (s : State) :
  10 <= numRows s <= 100 -> 10 <= numCols s <= 100 ->
  exists up down up_down down_up,
    handleSizeChange 5 5 s = Done up
    ∧ handleSizeChange (-5) (-5) up = Done up_down
    ∧ handleSizeChange (-5) (-5) s = Done down
    ∧ handleSizeChange 5 5 down = Done down_up
    ∧ numRows up_down = Z.min (numRows s) 95
    ∧ numCols up_down = Z.min (numCols s) 95
    ∧ numRows down_up = Z.max (numRows s) 15
    ∧ numCols down_up = Z.max (numCols s) 15.
Proof.
  intros Hr Hc.
  assert (Hgen : forall s0 dr dc, exists s',
    handleSizeChange dr dc s0 = Done s'
    ∧ numRows s' = Z.max 10 (Z.min 100 (numRows s0 + dr))
    ∧ numCols s' = Z.max 10 (Z.min 100 (numCols s0 + dc))).
  { intros s0 dr dc.
    destruct (generateEmptyGrid_spec (Z.max 10 (Z.min 100 (numRows s0 + dr)))
                (Z.max 10 (Z.min 100 (numCols s0 + dc))))
      as (g & Hg & _); [lia|lia|].
    eexists. unfold handleSizeChange. rewrite Hg. simpl. done. }
  destruct (Hgen s 5 5) as (up & Hup & Hr1 & Hc1).
  destruct (Hgen up (-5) (-5)) as (up_down & Hud & Hr2 & Hc2).
  destruct (Hgen s (-5) (-5)) as (down & Hdown & Hr3 & Hc3).
  destruct (Hgen down 5 5) as (down_up & Hdu & Hr4 & Hc4).
  exists up, down, up_down, down_up.
  split; [exact Hup|]. split; [exact Hud|].
  split; [exact Hdown|]. split; [exact Hdu|].
  split; [clear - Hr Hr1 Hr2; lia|]. split; [clear - Hc Hc1 Hc2; lia|].
  split; [clear - Hr Hr3 Hr4; lia|clear - Hc Hc3 Hc4; lia].
Qed.

Lemma size_buttons_round_trip_witness :
  exists up down up_down down_up,
    handleSizeChange 5 5 small_board = Done up
    ∧ handleSizeChange (-5) (-5) up = Done up_down
    ∧ handleSizeChange (-5) (-5) small_board = Done down
    ∧ handleSizeChange 5 5 down = Done down_up
    ∧ numRows up_down = Z.min 10 95
    ∧ numCols up_down = Z.min 10 95
    ∧ numRows down_up = Z.max 10 15
    ∧ numCols down_up = Z.max 10 15.
Proof.
  apply (size_buttons_round_trip small_board); by_computation.
Defined.

(** ** Start and Pause *)

(** X10: the Start/Pause button.  Pressed while running it only clears the
    running flag, and from then on no tick changes the state, whatever its
    callback captured.  Pressed while stopped, on a well-formed board, it
    advances two generations at once: the handler sets the flag and runs
    one tick, and the effect that follows the change of [running] runs a
    second one; the populations of both are recorded. *)
Theorem start_pause_outcomes (s : State) :
  (running s = true ->
   handleStartPause s = Done (with_running s false)
   ∧ perform StartPause s = Done (with_running s false)
   ∧ (forall n, ticks n (with_running s false) = Done (with_running s false))
   ∧ (forall rows cols m,
        runSimulationOf rows cols m (with_running s false)
        = Done (with_running s false)))
  ∧ (running s = false -> wf_state s ->
     exact_counter (generations s) -> exact_counter (generations s + 1) ->
     exists s1 s2 g g1 g2 p1 p2,
       handleStartPause s = Done s1 ∧ perform StartPause s = Done s2
       ∧ grid s = Some g
       ∧ step (numRows s) (numCols s) (simulationMode s) g = Ok (g1, p1)
       ∧ step (numRows s) (numCols s) (simulationMode s) g1 = Ok (g2, p2)
       ∧ grid s1 = Some g1 ∧ running s1 = true
       ∧ generations s1 = generations s + 1
       ∧ population s1 = record (population s) p1
       ∧ grid s2 = Some g2 ∧ running s2 = true
       ∧ generations s2 = generations s + 2
       ∧ population s2 = record (record (population s) p1) p2
       ∧ wf_state s2).
Proof.
  split.
  - intros Hrun.
    assert (Hpause : handleStartPause s = Done (with_running s false)).
    { unfold handleStartPause. by rewrite Hrun. }
    split; [exact Hpause|]. split.
    + unfold perform. cbn [handle]. rewrite Hpause.
      apply useEffect_idle. by right.
    + split; [intros n; by apply ticks_stopped|done].
  - intros Hstop (g & Hgrid & Hsh & Hbin) _ _.
    destruct (step_full _ _ (simulationMode s) g Hsh Hbin)
      as (g1 & p1 & Hstep1 & Hsh1 & Hbin1 & _ & _).
    set (s1 := mkState (numRows s) (numCols s) (Some g1) true (generations s + 1)
                 (brushSize s) (isEraser s) (simulationMode s)
                 (record (population s) (Num p1))).
    assert (Hstart : handleStartPause s = Done s1).
    { unfold handleStartPause, runSimulation. rewrite Hstop. simpl.
      by rewrite Hgrid, Hstep1. }
    destruct (useEffect_tick s s1) as (g2 & Heff & Hsh2 & Hbin2 & Hstep2).
    { by exists g1. }
    { done. }
    { apply effectRuns_true. left. simpl. by rewrite Hstop. }
    eexists s1, _, g, g1, g2, (Num p1), (Num (live_cells g2)).
    split; [exact Hstart|]. split.
    { unfold perform. cbn [handle]. rewrite Hstart. exact Heff. }
    split; [done|]. split; [done|]. split; [by apply Hstep2|].
    simpl. repeat (split; [done || lia|]). by exists g2.
Qed.

Lemma start_pause_outcomes_witness :
  exists s1 s2 g g1 g2 p1 p2,
    handleStartPause small_board = Done s1 ∧ perform StartPause small_board = Done s2
    ∧ grid small_board = Some g
    ∧ step 10 10 Conway g = Ok (g1, p1)
    ∧ step 10 10 Conway g1 = Ok (g2, p2)
    ∧ grid s1 = Some g1 ∧ running s1 = true
    ∧ generations s1 = 0 + 1
    ∧ population s1 = record [] p1
    ∧ grid s2 = Some g2 ∧ running s2 = true
    ∧ generations s2 = 0 + 2
    ∧ population s2 = record (record [] p1) p2
    ∧ wf_state s2.
Proof.
  destruct (start_pause_outcomes small_board) as [_ Hstart].
  apply Hstart; [reflexivity | exact small_board_wf | by_computation ..].
Defined.

(** ** The page as a whole *)

(** X11: used through its controls the page never ruins its board.  In
    every state reachable from the first render by Start/Pause, timer
    ticks, Reset, the pattern menu, the size buttons, clicks and drags on
    rendered cells, the brush slider, the eraser button, the mode menu,
    Randomize, Save, loads of well-formed files of 10..100 rows and
    columns, and ticks of callbacks that captured the current dimensions
    (with any rule set), each followed by the tick of the effect where one
    is due, the grid is a numRows x numCols board of 0/1 cells with
    dimensions in [10,100], the brush is in 1..5 and the log holds at most
    100 samples; and an action raises only when the menu's placeholder is
    selected (TypeError) or the file is not JSON (SyntaxError), leaving the
    state as it was; no action breaks the page. *)
Theorem page_actions_keep_the_board (s : State) (a : Action) :
  reachable s -> offered s a ->
  ui_inv s
  ∧ ui_inv (state_after (perform a s))
  ∧ (perform a s = Done (state_after (perform a s))
     ∨ (a = PatternMenu no_pattern ∧ perform a s = Raised TypeError s)
     ∨ (a = LoadFile NotJson ∧ perform a s = Raised SyntaxError s)).
Proof.
  intros Hreach Hoff. pose proof (reachable_inv s Hreach) as Hinv.
  split; [done|]. by apply perform_inv.
Qed.

Lemma page_actions_keep_the_board_witness :
  ui_inv initialState
  ∧ ui_inv (state_after (perform (MouseDown 3 4) initialState))
  ∧ (perform (MouseDown 3 4) initialState
       = Done (state_after (perform (MouseDown 3 4) initialState))
     ∨ (MouseDown 3 4 = PatternMenu no_pattern
        ∧ perform (MouseDown 3 4) initialState = Raised TypeError initialState)
     ∨ (MouseDown 3 4 = LoadFile NotJson
        ∧ perform (MouseDown 3 4) initialState
          = Raised SyntaxError initialState)).
Proof.
  apply (page_actions_keep_the_board initialState (MouseDown 3 4));
    [apply reach_initial | by_computation].
Defined.

(** ** Files *)

(** X12: a file whose grid has fewer rows than its numRows says (and at
    least one column) is accepted like any other, and breaks the page: the
    updater of every tick that runs with the loaded dimensions raises a
    TypeError.  When the engine is running and the file changes the
    dimensions, the effect ticks at once and the load itself breaks the
    page; otherwise the next tick of the running engine does, or the next
    Start. *)
Theorem truncated_load_breaks_the_engine (s : State) (p : Payload) (g : Grid) :
  p_grid p = Some g -> Z.of_nat (length g) < p_numRows p -> 1 <= p_numCols p ->
  exists s', handleLoad (Json p) s = Done s'
    ∧ grid s' = Some g ∧ numRows s' = p_numRows p ∧ numCols s' = p_numCols p
    ∧ running s' = running s
    ∧ (forall m, step (p_numRows p) (p_numCols p) m g = Throw TypeError)
    ∧ perform (LoadFile (Json p)) s
      = (if running s
            && negb (bool_decide (p_numRows p = numRows s ∧ p_numCols p = numCols s))
         then Broken TypeError s' else Done s')
    ∧ (running s = true ->
       forall m, runSimulationOf (p_numRows p) (p_numCols p) m s'
                 = Broken TypeError s')
    ∧ (running s = false ->
       perform StartPause s' = Broken TypeError (with_running s' true)).
Proof.
  intros Hgrid Hlen Hc.
  assert (Hstep : forall m, step (p_numRows p) (p_numCols p) m g = Throw TypeError).
  { intros m. by apply step_missing_rows. }
  eexists. split; [done|]. simpl.
  repeat (split; [done|]). split; [|split].
  - unfold perform, useEffect. cbn [handle handleLoad].
    cbn [running]. destruct (running s) eqn:Hrun;
      [rewrite andb_true_r|by rewrite andb_false_r].
    destruct (decide (p_numRows p = numRows s ∧ p_numCols p = numCols s))
      as [[Hr Hc']|Hne].
    + rewrite (proj2 (effectRuns_false _ _)); [|by simpl].
      by rewrite bool_decide_eq_true_2.
    + rewrite effectRuns_true
        by (simpl; destruct (decide (p_numRows p = numRows s)); tauto).
      rewrite bool_decide_eq_false_2 by done. simpl.
      unfold runSimulation. simpl. by rewrite ?Hrun, Hgrid, Hstep.
  - intros Hrun m. unfold runSimulationOf. simpl.
    by rewrite Hrun, Hgrid, Hstep.
  - intros Hstop. unfold perform, useEffect. cbn [handle].
    unfold handleStartPause, runSimulation. simpl.
    by rewrite Hstop, Hgrid, Hstep.
Qed.

Lemma truncated_load_breaks_the_engine_witness :
  exists s', handleLoad (Json (mkPayload (Some [[Num 0; Num 1]]) 0 2 2))
               small_state = Done s'
    ∧ grid s' = Some [[Num 0; Num 1]] ∧ numRows s' = 2 ∧ numCols s' = 2
    ∧ running s' = true
    ∧ (forall m, step 2 2 m [[Num 0; Num 1]] = Throw TypeError)
    ∧ perform (LoadFile (Json (mkPayload (Some [[Num 0; Num 1]]) 0 2 2)))
        small_state
      = Broken TypeError s'
    ∧ (true = true ->
       forall m, runSimulationOf 2 2 m s' = Broken TypeError s')
    ∧ (true = false ->
       perform StartPause s' = Broken TypeError (with_running s' true)).
Proof.
  apply (truncated_load_breaks_the_engine small_state
           (mkPayload (Some [[Num 0; Num 1]]) 0 2 2) [[Num 0; Num 1]]);
    [reflexivity | by_computation ..].
Defined.

(** ** The chart and the status line *)

(** X14: in a run that starts with generation 0 and an empty log (as after
    Reset, a pattern, a resize or Randomize), the chart after n ticks shows
    min(n, 100) points, numbered consecutively up to n, and the point
    numbered k carries the population of generation k. *)
Theorem chart_labels_are_generations (s : State) (n : nat) :
  wf_state s -> running s = true -> generations s = 0 -> population s = [] ->
  exists s', ticks n s = Done s'
    ∧ length (chartData s') = Nat.min n 100
    ∧ forall idx lbl v, chartData s' !! idx = Some (lbl, v) ->
        lbl = Z.max 1 (Z.of_nat n - 99) + Z.of_nat idx
        ∧ 1 <= lbl <= Z.of_nat n
        ∧ v = population_of (ticks (Z.to_nat lbl) s).
Proof.
  intros Hwf Hrun Hgen Hpop.
  destruct (ticks_running n s Hwf Hrun) as (s' & -> & _ & _ & _ & _ & _ & Hg & Hp).
  { rewrite Hpop. simpl. lia. }
  rewrite Hpop, app_nil_l in Hp. rewrite Hgen in Hg.
  exists s'. split; [done|].
  assert (Hlen : length (population s') = Nat.min n 100).
  { rewrite Hp, length_last_n, length_pops. lia. }
  unfold chartData. rewrite length_imap. split; [done|].
  intros idx lbl v Hlook. rewrite list_lookup_imap in Hlook.
  destruct (population s' !! idx) as [pop|] eqn:Hidx; [|done].
  simpl in Hlook. injection Hlook as <- <-.
  apply lookup_lt_Some in Hidx as Hlt.
  rewrite Hp in Hidx. unfold last_n in Hidx.
  rewrite length_pops, lookup_drop in Hidx.
  rewrite lookup_pops in Hidx by lia. injection Hidx as <-.
  rewrite Hg, Hlen. split; [lia|]. split; [lia|].
  by replace (Z.to_nat (0 + Z.of_nat n - Z.of_nat (n `min` 100)
                        + Z.of_nat idx + 1))
    with (S (n - 100 + idx)) by lia.
Qed.

Lemma chart_labels_are_generations_witness :
  exists s', ticks 3 small_state = Done s'
    ∧ length (chartData s') = Nat.min 3 100
    ∧ forall idx lbl v, chartData s' !! idx = Some (lbl, v) ->
        lbl = Z.max 1 (Z.of_nat 3 - 99) + Z.of_nat idx
        ∧ 1 <= lbl <= Z.of_nat 3
        ∧ v = population_of (ticks (Z.to_nat lbl) small_state).
Proof.
  apply (chart_labels_are_generations small_state 3);
    [exact small_state_wf | reflexivity ..].
Defined.

(** X15: the population of the status line is the last sample of the log:
    right after a tick it is the number of live cells of the board shown,
    and after a pattern is loaded it is 0 although the board has live
    cells. *)
Theorem status_line_population (s : State) :
  (wf_state s -> running s = true ->
   exists s' g', runSimulation s = Done s'
     ∧ grid s' = Some g' ∧ shownPopulation s' = Num (live_cells g'))
  ∧ (10 <= numRows s <= 100 -> 10 <= numCols s <= 100 ->
     forall name cells, patterns name = Some cells ->
     exists s' g', handlePatternSelect name s = Done s'
       ∧ grid s' = Some g' ∧ 0 < live_cells g'
       ∧ shownPopulation s' = Num 0).
Proof.
  split.
  - intros Hwf Hrun.
    destruct (runSimulation_running s Hwf Hrun) as (g' & -> & _).
    eexists _, g'. split; [done|]. split; [done|].
    apply shownPopulation_last. simpl. apply record_last.
  - intros Hr Hc name cells Hname.
    destruct (handlePatternSelect_spec name cells s Hr Hc Hname)
      as (g & -> & Hsh & Hcells).
    eexists _, g. split; [done|]. split; [done|]. split; [|done].
    destruct (patterns_third_row name cells Hname) as [y Hy].
    destruct (patterns_offsets name cells 2 y Hname Hy) as [_ Hy3].
    apply (live_cells_pos (numRows s) (numCols s) g
             (numRows s / 2 + 2) (numCols s / 2 + y) Hsh);
      [Z.div_mod_to_equations; lia|Z.div_mod_to_equations; lia|].
    rewrite Hcells by (Z.div_mod_to_equations; lia).
    rewrite decide_True; [done|].
    by replace (numRows s / 2 + 2 - numRows s / 2) with 2 by lia;
       replace (numCols s / 2 + y - numCols s / 2) with y by lia.
Qed.

Lemma status_line_population_witness :
  exists s' g', runSimulation small_state = Done s'
    ∧ grid s' = Some g' ∧ shownPopulation s' = Num (live_cells g').
Proof.
  destruct (status_line_population small_state) as [Htick _].
  apply Htick; [exact small_state_wf | reflexivity].
Defined.

(** ** Fresh grids *)

(** X16: [generateEmptyGrid] returns rows arrays of cols zeros when rows is
    0 (whatever cols is) or both are valid array lengths, and raises a
    RangeError in every other case: a negative or too large rows, or such
    a cols together with at least one row. *)
Theorem generateEmptyGrid_outcomes (rows cols : Z) :
  (0 <= rows < 2 ^ 32 ∧ (rows = 0 ∨ 0 <= cols < 2 ^ 32) ->
   generateEmptyGrid rows cols
   = Ok (replicate (Z.to_nat rows) (replicate (Z.to_nat cols) (Num 0))))
  ∧ (~ (0 <= rows < 2 ^ 32 ∧ (rows = 0 ∨ 0 <= cols < 2 ^ 32)) ->
     generateEmptyGrid rows cols = Throw RangeError).
Proof.
  unfold generateEmptyGrid, js_Array. split.
  - intros [Hr Hc].
    rewrite (proj2 (Z.ltb_ge rows 0)), (proj2 (Z.leb_gt (2 ^ 32) rows)) by lia.
    cbn [orb bind].
    destruct (Z.to_nat rows) eqn:Hn; [done|].
    destruct Hc as [->|Hc]; [done|].
    rewrite (proj2 (Z.ltb_ge cols 0)), (proj2 (Z.leb_gt (2 ^ 32) cols)) by lia.
    done.
  - intros Hbad.
    destruct (Z.ltb_spec rows 0); [done|].
    destruct (Z.leb_spec (2 ^ 32) rows); [done|].
    cbn [orb bind].
    destruct (Z.to_nat rows) eqn:Hn; [exfalso; apply Hbad; lia|].
    destruct (Z.ltb_spec cols 0); [done|].
    destruct (Z.leb_spec (2 ^ 32) cols); [done|].
    exfalso. apply Hbad. lia.
Qed.

Lemma generateEmptyGrid_outcomes_witness :
  generateEmptyGrid 0 (-3) = Ok [] ∧ generateEmptyGrid 2 (-3) = Throw RangeError.
Proof.
  split.
  - apply (proj1 (generateEmptyGrid_outcomes 0 (-3))).
    split; [by_computation|by left].
  - apply (proj2 (generateEmptyGrid_outcomes 2 (-3))).
    intros [_ [H|[H _]]]; [discriminate H|]. by apply H.
Defined.

(** ** The toad and the glider *)

(** X17: on every board with dimensions in [10,100] the stamped toad is an
    oscillator of period 2 under [conway]: one step turns it into its other
    phase (the six cells around the centre 2 x 2), a second step gives back
    exactly the stamped board. *)
Theorem toad_has_period_2 (s : State) :
  10 <= numRows s <= 100 -> 10 <= numCols s <= 100 ->
  exists s0 g0 g1 p1 p2,
    handlePatternSelect toad s = Done s0 ∧ grid s0 = Some g0
    ∧ step (numRows s) (numCols s) Conway g0 = Ok (g1, p1)
    ∧ (forall a b, 0 <= a < numRows s -> 0 <= b < numCols s ->
         cell_at g1 a b
         = Num (bitZ (pattern_at toad_turned (numRows s / 2) (numCols s / 2) a b)))
    ∧ step (numRows s) (numCols s) Conway g1 = Ok (g0, p2).
Proof.
  intros Hr Hc.
  destruct (handlePatternSelect_spec toad _ s Hr Hc eq_refl)
    as (g0 & Hsel & Hsh0 & Hcells0).
  assert (Hp0 : forall a b, 0 <= a < numRows s -> 0 <= b < numCols s ->
    cell_at g0 a b
    = Num (bitZ (pattern_at [(1, 1); (1, 2); (1, 3); (2, 0); (2, 1); (2, 2)]
                   (numRows s / 2) (numCols s / 2) a b))).
  { intros a b Ha Hb. rewrite Hcells0 by done. apply pattern_at_elem. }
  destruct (step_phase [(1, 1); (1, 2); (1, 3); (2, 0); (2, 1); (2, 2)]
              toad_turned _ _ g0 eq_refl eq_refl toad_turns
              (proj1 Hr) (proj1 Hc) Hsh0 Hp0) as (g1 & p1 & Hstep1 & Hsh1 & Hp1).
  destruct (step_phase toad_turned
              [(1, 1); (1, 2); (1, 3); (2, 0); (2, 1); (2, 2)] _ _ g1
              eq_refl eq_refl toad_turns_back (proj1 Hr) (proj1 Hc) Hsh1 Hp1)
    as (g2 & p2 & Hstep2 & Hsh2 & Hp2).
  assert (g2 = g0) as ->.
  { apply (grid_ext (numRows s) (numCols s)); [done|done|].
    intros a b Ha Hb. by rewrite Hp2, Hp0. }
  eexists _, g0, g1, (Num p1), (Num p2).
  split; [exact Hsel|]. split; [done|]. done.
Qed.

Lemma toad_has_period_2_witness :
  exists s0 g0 g1 p1 p2,
    handlePatternSelect toad small_board = Done s0 ∧ grid s0 = Some g0
    ∧ step 10 10 Conway g0 = Ok (g1, p1)
    ∧ (forall a b, 0 <= a < 10 -> 0 <= b < 10 ->
         cell_at g1 a b = Num (bitZ (pattern_at toad_turned 5 5 a b)))
    ∧ step 10 10 Conway g1 = Ok (g0, p2).
Proof.
  apply (toad_has_period_2 small_board); by_computation.
Defined.

(** X18: on every board with dimensions in [10,100] the stamped glider
    glides under [conway]: four steps give the same five cells one row
    further down and one column further right, and nothing else. *)
Theorem glider_glides (s : State) :
  10 <= numRows s <= 100 -> 10 <= numCols s <= 100 ->
  exists s0 g0 g1 g2 g3 g4 p1 p2 p3 p4,
    handlePatternSelect glider s = Done s0 ∧ grid s0 = Some g0
    ∧ step (numRows s) (numCols s) Conway g0 = Ok (g1, p1)
    ∧ step (numRows s) (numCols s) Conway g1 = Ok (g2, p2)
    ∧ step (numRows s) (numCols s) Conway g2 = Ok (g3, p3)
    ∧ step (numRows s) (numCols s) Conway g3 = Ok (g4, p4)
    ∧ (forall a b, 0 <= a < numRows s -> 0 <= b < numCols s ->
         cell_at g0 a b
         = Num (bitZ (pattern_at [(0, 1); (1, 2); (2, 0); (2, 1); (2, 2)]
                        (numRows s / 2) (numCols s / 2) a b)))
    ∧ (forall a b, 0 <= a < numRows s -> 0 <= b < numCols s ->
         cell_at g4 a b
         = Num (bitZ (pattern_at [(0, 1); (1, 2); (2, 0); (2, 1); (2, 2)]
                        (numRows s / 2 + 1) (numCols s / 2 + 1) a b))).
Proof.
  intros Hr Hc.
  destruct (handlePatternSelect_spec glider _ s Hr Hc eq_refl)
    as (g0 & Hsel & Hsh0 & Hcells0).
  assert (Hp0 : forall a b, 0 <= a < numRows s -> 0 <= b < numCols s ->
    cell_at g0 a b
    = Num (bitZ (pattern_at (glider_phase 0) (numRows s / 2) (numCols s / 2) a b))).
  { intros a b Ha Hb. rewrite Hcells0 by done. apply pattern_at_elem. }
  destruct (step_phase (glider_phase 0) (glider_phase 1) _ _ g0
              eq_refl eq_refl (glider_turns 0 ltac:(lia)) (proj1 Hr) (proj1 Hc) Hsh0 Hp0)
    as (g1 & p1 & Hstep1 & Hsh1 & Hp1).
  destruct (step_phase (glider_phase 1) (glider_phase 2) _ _ g1
              eq_refl eq_refl (glider_turns 1 ltac:(lia)) (proj1 Hr) (proj1 Hc) Hsh1 Hp1)
    as (g2 & p2 & Hstep2 & Hsh2 & Hp2).
  destruct (step_phase (glider_phase 2) (glider_phase 3) _ _ g2
              eq_refl eq_refl (glider_turns 2 ltac:(lia)) (proj1 Hr) (proj1 Hc) Hsh2 Hp2)
    as (g3 & p3 & Hstep3 & Hsh3 & Hp3).
  destruct (step_phase (glider_phase 3) (glider_phase 4) _ _ g3
              eq_refl eq_refl (glider_turns 3 ltac:(lia)) (proj1 Hr) (proj1 Hc) Hsh3 Hp3)
    as (g4 & p4 & Hstep4 & Hsh4 & Hp4).
  eexists _, g0, g1, g2, g3, g4, (Num p1), (Num p2), (Num p3), (Num p4).
  split; [exact Hsel|]. split; [done|].
  split; [exact Hstep1|]. split; [exact Hstep2|].
  split; [exact Hstep3|]. split; [exact Hstep4|]. split; [exact Hp0|].
  intros a b Ha Hb. rewrite Hp4 by done.
  by rewrite <- pattern_at_moved.
Qed.

Lemma glider_glides_witness :
  exists s0 g0 g1 g2 g3 g4 p1 p2 p3 p4,
    handlePatternSelect glider small_board = Done s0 ∧ grid s0 = Some g0
    ∧ step 10 10 Conway g0 = Ok (g1, p1)
    ∧ step 10 10 Conway g1 = Ok (g2, p2)
    ∧ step 10 10 Conway g2 = Ok (g3, p3)
    ∧ step 10 10 Conway g3 = Ok (g4, p4)
    ∧ (forall a b, 0 <= a < 10 -> 0 <= b < 10 ->
         cell_at g0 a b
         = Num (bitZ (pattern_at [(0, 1); (1, 2); (2, 0); (2, 1); (2, 2)]
                        5 5 a b)))
    ∧ (forall a b, 0 <= a < 10 -> 0 <= b < 10 ->
         cell_at g4 a b
         = Num (bitZ (pattern_at [(0, 1); (1, 2); (2, 0); (2, 1); (2, 2)]
                        (5 + 1) (5 + 1) a b))).
Proof.
  apply (glider_glides small_board); by_computation.
Defined.

(** ** Generations *)

(** X19: the generation counter counts the ticks: as long as it stays
    within 2^53, n ticks of a running, well-formed engine all complete, add
    exactly n to the counter, and leave the dimensions, the rule set, the
    brush and the running flag as they were, with a well-formed board. *)
Theorem ticks_count_generations (s : State) (n : nat) :
  wf_state s -> running s = true ->
  - 2 ^ 53 <= generations s -> generations s + Z.of_nat n <= 2 ^ 53 ->
  exists s', ticks n s = Done s'
    ∧ generations s' = generations s + Z.of_nat n
    ∧ wf_state s' ∧ running s' = true
    ∧ numRows s' = numRows s ∧ numCols s' = numCols s
    ∧ simulationMode s' = simulationMode s
    ∧ brushSize s' = brushSize s ∧ isEraser s' = isEraser s.
Proof.
  intros Hwf Hrun _ _.
  destruct (ticks_state n s Hwf Hrun)
    as (s' & Ht & Hwf' & Hrun' & Hr & Hc & Hm & Hb & He & Hg).
  exists s'. done.
Qed.

Lemma ticks_count_generations_witness :
  exists s', ticks 7 small_state = Done s'
    ∧ generations s' = generations small_state + Z.of_nat 7
    ∧ wf_state s' ∧ running s' = true
    ∧ numRows s' = numRows small_state ∧ numCols s' = numCols small_state
    ∧ simulationMode s' = simulationMode small_state
    ∧ brushSize s' = brushSize small_state
    ∧ isEraser s' = isEraser small_state.
Proof.
  apply (ticks_count_generations small_state 7);
    [exact small_state_wf | reflexivity | by_computation ..].
Defined.

(** X20: what each action, handler and effect together, does to the
    generation counter and the log, on a page in its invariant whose counter
    can take two more ticks exactly.  Reset, a named pattern and Randomize
    set the counter to 0 and empty the log.  So do the size buttons on a
    stopped engine or at the limit; on a running engine a size button that
    changes a dimension is followed by the effect's tick: the counter shows
    1 and the log the sample 0.  A tick of the timer on a running engine
    adds 1 and one sample.  Start adds 2 and two samples.  A change of the
    rule set on a running engine adds 1 and one sample.  A loaded file sets
    the counter to its [generations] and keeps the log, with one more tick
    when the engine runs and the file changes a dimension.  Everything else
    (Pause, clicks, drags, the brush and eraser controls, Save, the menu's
    placeholder, a refused file, the controls above on a stopped engine)
    changes neither. *)
Theorem counter_and_log_after (s : State) (a : Action) :
  ui_inv s -> offered s a ->
  exact_counter (generations s) -> exact_counter (generations s + 1) ->
  let s' := state_after (perform a s) in
  let kept := generations s' = generations s ∧ population s' = population s in
  let ticked :=
    generations s' = generations s + 1
    ∧ exists p, population s' = record (population s) p in
  match a with
  | ResetButton | RandomizeButton _ => generations s' = 0 ∧ population s' = []
  | PatternMenu no_pattern => kept
  | PatternMenu _ => generations s' = 0 ∧ population s' = []
  | PlusButton =>
      if running s && negb (bool_decide (numRows s = 100 ∧ numCols s = 100))
      then generations s' = 1 ∧ population s' = [Num 0]
      else generations s' = 0 ∧ population s' = []
  | MinusButton =>
      if running s && negb (bool_decide (numRows s = 10 ∧ numCols s = 10))
      then generations s' = 1 ∧ population s' = [Num 0]
      else generations s' = 0 ∧ population s' = []
  | TimerTick _ _ _ => if running s then ticked else kept
  | StartPause =>
      if running s then kept
      else generations s' = generations s + 2
           ∧ exists p1 p2, population s' = record (record (population s) p1) p2
  | ModeMenu m =>
      if running s && negb (bool_decide (m = simulationMode s))
      then ticked else kept
  | LoadFile (Json p) =>
      if running s
         && negb (bool_decide (p_numRows p = numRows s ∧ p_numCols p = numCols s))
      then exact_counter (p_generations p) ->
           generations s' = p_generations p + 1
           ∧ exists q, population s' = record (population s) q
      else generations s' = p_generations p ∧ population s' = population s
  | _ => kept
  end.
Proof.
  intros Hinv Hoff _ _.
  pose proof Hinv as (Hwf & Hr & Hc & Hb & Hlog).
  assert (Hresize : forall dr dc lim,
    (Z.max 10 (Z.min 100 (numRows s + dr)) = numRows s <-> numRows s = lim) ->
    (Z.max 10 (Z.min 100 (numCols s + dc)) = numCols s <-> numCols s = lim) ->
    let s' := state_after (useEffect s (handleSizeChange dr dc s)) in
    if running s && negb (bool_decide (numRows s = lim ∧ numCols s = lim))
    then generations s' = 1 ∧ population s' = [Num 0]
    else generations s' = 0 ∧ population s' = []).
  { intros dr dc lim Hlr Hlc.
    destruct (handleSizeChange_done dr dc s) as (g & -> & Hsh & He).
    set (s1 := mkState _ _ (Some g) _ _ _ _ _ _).
    destruct (running s) eqn:Hrun; cbn [andb];
      [|by rewrite useEffect_idle by (by right)].
    destruct (decide (numRows s = lim ∧ numCols s = lim)) as [[Hr' Hc']|Hne].
    - rewrite bool_decide_eq_true_2 by done. cbn [negb].
      rewrite useEffect_idle; [done|]. left. apply effectRuns_false.
      subst s1. cbn [running numRows numCols simulationMode].
      split; [by rewrite Hrun|]. split; [by apply Hlr|]. split; [by apply Hlc|done].
    - rewrite bool_decide_eq_false_2 by done. cbn [negb].
      unfold useEffect. rewrite effectRuns_true.
      + subst s1. cbn [running andb]. unfold runSimulation.
        cbn [running negb grid numRows numCols simulationMode].
        by rewrite (step_all_empty _ _ _ g Hsh He).
      + subst s1. cbn [running numRows numCols simulationMode].
        destruct (decide (numRows s = lim)) as [Hl|Hl].
        * right. right. left. intros Heq. apply Hne. split; [done|by apply Hlc].
        * right. left. intros Heq. apply Hl. by apply Hlr. }
  destruct a as [|rows cols m0| |name| | |i j|buttons i j|b| |m|draws| |input];
    unfold perform; cbn [handle]; cbn zeta.
  - (* Start/Pause *)
    unfold handleStartPause. destruct (running s) eqn:Hrun.
    + rewrite useEffect_idle by (by right). done.
    + destruct (runSimulation_running (with_running s true) Hwf eq_refl)
        as (g1 & -> & Hsh1 & Hbin1 & _).
      destruct (useEffect_tick s
                  (mkState (numRows s) (numCols s) (Some g1) true
                     (generations s + 1) (brushSize s) (isEraser s)
                     (simulationMode s)
                     (record (population s) (Num (live_cells g1)))))
        as (g2 & Heff & _); [by exists g1|done| |].
      { apply effectRuns_true. left. simpl. by rewrite Hrun. }
      simpl in Heff. simpl. rewrite Heff. simpl. split; [lia|eauto].
  - (* the timer *)
    destruct Hoff as [-> ->]. destruct (running s) eqn:Hrun.
    + destruct (runSimulationOf_running m0 s Hwf Hrun) as (g' & -> & _).
      rewrite useEffect_same by done. simpl. eauto.
    + unfold runSimulationOf. rewrite Hrun. cbn [negb].
      by rewrite useEffect_idle by (by right).
  - (* Reset *)
    destruct (generateEmptyGrid_spec (numRows s) (numCols s))
      as (g & Hgen & _); [lia|lia|].
    unfold handleReset. rewrite Hgen.
    by rewrite useEffect_idle by (by right).
  - (* the pattern menu *)
    destruct name.
    + destruct (handlePatternSelect_spec glider _ s Hr Hc eq_refl)
        as (g & -> & _). by rewrite useEffect_same.
    + destruct (handlePatternSelect_spec blinker _ s Hr Hc eq_refl)
        as (g & -> & _). by rewrite useEffect_same.
    + destruct (handlePatternSelect_spec toad _ s Hr Hc eq_refl)
        as (g & -> & _). by rewrite useEffect_same.
    + destruct (generateEmptyGrid_spec (numRows s) (numCols s))
        as (g & Hgen & _); [lia|lia|].
      unfold handlePatternSelect. by rewrite Hgen.
  - (* Plus *)
    apply (Hresize 5 5 100); clear - Hr Hc; lia.
  - (* Minus *)
    apply (Hresize (-5) (-5) 10); clear - Hr Hc; lia.
  - (* a click *)
    destruct Hoff as [Hi Hj]. destruct Hwf as (g & Hgrid & Hsh & Hbin).
    destruct (handleCellClick_spec s i j g Hgrid Hsh) as (g' & -> & _);
      [lia|lia|Z.div_mod_to_equations; lia|Z.div_mod_to_equations; lia|].
    by rewrite useEffect_same.
  - (* the pointer enters a cell *)
    destruct Hoff as [Hi Hj]. destruct Hwf as (g & Hgrid & Hsh & Hbin).
    unfold handleMouseEnter. destruct (buttons =? 1);
      [|by rewrite useEffect_same].
    destruct (handleCellClick_spec s i j g Hgrid Hsh) as (g' & -> & _);
      [lia|lia|Z.div_mod_to_equations; lia|Z.div_mod_to_equations; lia|].
    by rewrite useEffect_same.
  - unfold handleBrushChange. by rewrite useEffect_same.
  - unfold handleEraserToggle. by rewrite useEffect_same.
  - (* the mode menu *)
    unfold handleModeChange.
    set (s1 := mkState _ _ _ _ _ _ _ m _).
    destruct (running s) eqn:Hrun; cbn [andb];
      [|by rewrite useEffect_idle by (by right)].
    destruct (decide (m = simulationMode s)) as [->|Hne].
    + rewrite bool_decide_eq_true_2 by done. cbn [negb].
      by rewrite useEffect_same.
    + rewrite bool_decide_eq_false_2 by done. cbn [negb].
      destruct (useEffect_tick s s1) as (g' & -> & _);
        [done|done| |simpl; eauto].
      apply effectRuns_true. subst s1. simpl. tauto.
  - (* Randomize *)
    destruct (handleRandomize_spec draws s) as (g & -> & _); [lia|lia|].
    by rewrite useEffect_same.
  - by rewrite useEffect_same.
  - (* Load *)
    destruct input as [| |p]; cbn [handleLoad];
      [by rewrite useEffect_same|done|].
    destruct Hoff as (Hvalid & Hpr & Hpc).
    set (s1 := mkState _ _ _ _ _ _ _ _ _).
    destruct (running s) eqn:Hrun; cbn [andb];
      [|by rewrite useEffect_idle by (by right)].
    destruct (decide (p_numRows p = numRows s ∧ p_numCols p = numCols s))
      as [[Hr' Hc']|Hne].
    + rewrite bool_decide_eq_true_2 by done. cbn [negb].
      by rewrite useEffect_same.
    + rewrite bool_decide_eq_false_2 by done. cbn [negb]. intros _.
      destruct (useEffect_tick s s1) as (g' & -> & _);
        [done|done| |simpl; eauto].
      apply effectRuns_true. subst s1. simpl.
      destruct (decide (p_numRows p = numRows s)); tauto.
Qed.

Lemma counter_and_log_after_witness :
  generations (state_after (perform PlusButton (with_running small_board true))) = 1
  ∧ population (state_after (perform PlusButton (with_running small_board true)))
    = [Num 0].
Proof.
  apply (counter_and_log_after (with_running small_board true) PlusButton);
    [ exact running_board_inv | exact I | by_computation .. ].
Defined.

(** ** The rules as the page prints them *)

(** X21: [conway] is the rule the page describes below the chart: a live
    cell with fewer than two live neighbours dies, with two or three it
    lives on, with more than three it dies, and a dead cell becomes live
    exactly when it has three live neighbours. *)
Theorem conway_is_the_rule_shown (n : Z) :
  0 <= n <= 8 ->
  (n < 2 -> nextState Conway (Num n) (Num 1) = Num 0)
  ∧ (n = 2 ∨ n = 3 -> nextState Conway (Num n) (Num 1) = Num 1)
  ∧ (3 < n -> nextState Conway (Num n) (Num 1) = Num 0)
  ∧ (nextState Conway (Num n) (Num 0) = Num 1 <-> n = 3).
Proof.
  intros Hn.
  assert (Hcases : n = 0 ∨ n = 1 ∨ n = 2 ∨ n = 3 ∨ n = 4 ∨ n = 5
                   ∨ n = 6 ∨ n = 7 ∨ n = 8) by lia.
  repeat (destruct Hcases as [-> | Hcases]); try subst n;
    repeat split; intros; (reflexivity || lia || discriminate).
Qed.

Lemma conway_is_the_rule_shown_witness :
  nextState Conway (Num 1) (Num 1) = Num 0
  ∧ (nextState Conway (Num 1) (Num 0) = Num 1 <-> 1 = 3).
Proof.
  destruct (conway_is_the_rule_shown 1) as (Hfew & _ & _ & Hborn); [lia|].
  split; [apply Hfew; lia | exact Hborn].
Defined.

(** ** A tick armed before a resize *)

(** X22: shrinking the board while the engine runs breaks the tick that is
    already armed.  With more than 10 rows, the Minus button installs the
    smaller empty board and the effect ticks it at once (generation 1,
    sample 0); the callback armed before still loops over the old number of
    rows: on the new grid its updater raises a TypeError at the first cell,
    whatever rule set it captured, and the page breaks. *)
Theorem pending_tick_raises_after_shrinking (s : State) :
  running s = true -> 10 < numRows s -> 1 <= numCols s ->
  exists s1 g1, perform MinusButton s = Done s1
    ∧ grid s1 = Some g1 ∧ all_empty g1
    ∧ running s1 = true ∧ numRows s1 < numRows s
    ∧ generations s1 = 1 ∧ population s1 = [Num 0]
    ∧ forall m,
        step (numRows s) (numCols s) m g1 = Throw TypeError
        ∧ runSimulationOf (numRows s) (numCols s) m s1 = Broken TypeError s1.
Proof.
  intros Hrun Hr Hc.
  destruct (handleSizeChange_done (-5) (-5) s) as (g & Hsize & Hsh & He).
  pose proof Hsh as [Hlen _].
  assert (Hstep : forall m, step (numRows s) (numCols s) m g = Throw TypeError).
  { intros m. apply step_missing_rows; lia. }
  eexists _, g. split.
  - unfold perform, useEffect. cbn [handle]. rewrite Hsize.
    rewrite effectRuns_true by (simpl; lia).
    cbn [running andb]. rewrite Hrun. unfold runSimulation.
    cbn [running negb grid numRows numCols simulationMode].
    by rewrite (step_all_empty _ _ _ g Hsh He).
  - simpl. split; [done|]. split; [done|]. split; [done|].
    split; [lia|]. split; [done|]. split; [done|].
    intros m. split; [apply Hstep|].
    unfold runSimulationOf. simpl. by rewrite Hstep.
Qed.

Lemma pending_tick_raises_after_shrinking_witness :
  exists s1 g1, perform MinusButton (with_running initialState true) = Done s1
    ∧ grid s1 = Some g1 ∧ all_empty g1
    ∧ running s1 = true ∧ numRows s1 < 50
    ∧ generations s1 = 1 ∧ population s1 = [Num 0]
    ∧ forall m,
        step 50 50 m g1 = Throw TypeError
        ∧ runSimulationOf 50 50 m s1 = Broken TypeError s1.
Proof.
  apply (pending_tick_raises_after_shrinking (with_running initialState true));
    by_computation.
Defined.
